(** * Timetable scheduler: the CSP engine, its greedy level scheduler and
      the generator, embedded from the Python sources.

    Conventions of the embedding.
    - [datetime.time] values are naive wall times: a record of hour, minute,
      second and microsecond, compared lexicographically as CPython does.
    - A Python [set] is a list in the order the set is iterated; statements
      that must not depend on that order quantify over the list.
    - A Python [dict] keyed by resource ids is a [gmap string _].
    - Python exceptions are values of [result]; mutable objects are threaded
      explicitly through the functions that can reach them.
    - [TimeSlot] is declared with a bare [@dataclass], which leaves it
      without a hash ([TimeSlot_hash]): every operation that puts a time
      slot into a set, looks one up in a set or uses one as a dict key
      hashes it first ([hash_slot]) and so raises [TypeError]. The
      operation is then written out as the source has it.
    - A Python [float] is a binary64 number ([PrimFloat]); an [int] that
      meets a float is converted ([float_of_Z]). Readings of the clock and
      time-outs are kept as rationals. *)

From Stdlib Require Import ZArith QArith Bool List Lia.
From Stdlib Require Import PrimFloat.
From Stdlib Require FloatOps SpecFloat.
From stdpp Require Import gmap strings list fin_maps pretty.

Open Scope string_scope.
Open Scope list_scope.
Open Scope Z_scope.

(** ** Exceptions *)

Inductive exn : Type :=
| TypeError (msg : string)
| KeyError (key : string)
| NameError (msg : string)
| OtherError (msg : string).

Inductive result (A : Type) : Type :=
| Ok (a : A)
| Raise (e : exn).
Arguments Ok {A} a.
Arguments Raise {A} e.

(** [str(e)]: a [KeyError] prints the repr of its key. *)
Definition exn_str (e : exn) : string :=
  match e with
  | TypeError m => m
  | KeyError k => "'" +:+ k +:+ "'"
  | NameError m => m
  | OtherError m => m
  end.

#[export] Instance result_ret : MRet result := fun A a => Ok a.
#[export] Instance result_bind : MBind result := fun A B k m =>
  match m with
  | Ok a => k a
  | Raise e => Raise e
  end.

(** A comprehension whose condition can raise. *)
Fixpoint filter_result {A} (f : A -> result bool) (l : list A) : result (list A) :=
  match l with
  | [] => Ok []
  | x :: l' =>
      b ← f x;
      r ← filter_result f l';
      Ok (if b : bool then x :: r else r)
  end.

(** A loop whose body can raise: the first exception ends it. *)
Fixpoint fold_result {A B} (f : A -> B -> result A) (l : list B) (a : A) : result A :=
  match l with
  | [] => Ok a
  | x :: l' => a' ← f a x; fold_result f l' a'
  end.

(** ** Floats *)

(** The float nearest to an integer (ties to even), as [float(n)] and the
    mixed arithmetic of [int] and [float] give it. *)
Definition float_of_Z (z : Z) : float :=
  FloatOps.SF2Prim (SpecFloat.binary_normalize FloatOps.prec FloatOps.emax z 0 false).

(** [sum(l)] on floats: the additions from the left, starting at [0], as
    CPython up to 3.11 performs them (3.12 adds a compensation term). *)
Definition fsum (l : list float) : float := fold_left PrimFloat.add l 0%float.

(** [x < y] on rationals. *)
Definition Qltb (x y : Q) : bool := negb (Qle_bool y x).

(** ** src/src/csp/variable.py: TimeSlot *)

Record time : Type := mk_time
  { hour : Z; minute : Z; second : Z; microsecond : Z }.

(** [a < b] on naive times. *)
Definition time_ltb (a b : time) : bool :=
  (hour a <? hour b) ||
  ((hour a =? hour b) &&
   ((minute a <? minute b) ||
    ((minute a =? minute b) &&
     ((second a <? second b) ||
      ((second a =? second b) && (microsecond a <? microsecond b)))))).

Definition time_eqb (a b : time) : bool :=
  (hour a =? hour b) && (minute a =? minute b) &&
  (second a =? second b) && (microsecond a =? microsecond b).

Definition time_lt (a b : time) : Prop := time_ltb a b = true.

Definition valid_time (t : time) : Prop :=
  0 <= hour t < 24 /\ 0 <= minute t < 60 /\
  0 <= second t < 60 /\ 0 <= microsecond t < 1000000.

Definition microseconds (t : time) : Z :=
  ((hour t * 60 + minute t) * 60 + second t) * 1000000 + microsecond t.

Record TimeSlot : Type := mk_TimeSlot
  { day : string; start_time : time; end_time : time }.

Definition overlaps (self other : TimeSlot) : bool :=
  String.eqb (day self) (day other) &&
  time_ltb (start_time self) (end_time other) &&
  time_ltb (start_time other) (end_time self).

(** The [__eq__] that [@dataclass] generates: the field tuples are compared. *)
Definition TimeSlot_eqb (a b : TimeSlot) : bool :=
  String.eqb (day a) (day b) &&
  time_eqb (start_time a) (start_time b) &&
  time_eqb (end_time a) (end_time b).

(** *** What [@dataclass] does to [__hash__]

    The decorator decides from its [unsafe_hash], [eq] and [frozen]
    parameters (the class defines no [__hash__] of its own). *)

Record dataclass_params : Type := mk_params
  { dc_unsafe_hash : bool; dc_eq : bool; dc_frozen : bool }.

Inductive hash_action : Type :=
| HashInherit   (* keep [object.__hash__] *)
| HashSetNone   (* [__hash__ = None] *)
| HashAdd.      (* generate a hash of the field tuple *)

Definition dataclass_hash_action (p : dataclass_params) : hash_action :=
  match dc_unsafe_hash p, dc_eq p, dc_frozen p with
  | false, false, _ => HashInherit
  | false, true, false => HashSetNone
  | false, true, true => HashAdd
  | true, _, _ => HashAdd
  end.

(** A bare [@dataclass]. *)
Definition dataclass_defaults : dataclass_params :=
  {| dc_unsafe_hash := false; dc_eq := true; dc_frozen := false |}.

(** [TimeSlot] is declared with a bare [@dataclass]. *)
Definition TimeSlot_params : dataclass_params := dataclass_defaults.

Section Hashing.
(** The hash of the field tuple and the identity hash are the
    interpreter's. *)
Variable tuple_hash : string * time * time -> Z.
Variable object_hash : TimeSlot -> Z.

Definition TimeSlot_hash (t : TimeSlot) : result Z :=
  match dataclass_hash_action TimeSlot_params with
  | HashInherit => Ok (object_hash t)
  | HashSetNone => Raise (TypeError "unhashable type: 'TimeSlot'")
  | HashAdd => Ok (tuple_hash (day t, start_time t, end_time t))
  end.

(** [s.add(t)] on a set of time slots: the element is hashed first. *)
Definition set_add (t : TimeSlot) (s : list TimeSlot) : result (list TimeSlot) :=
  _ ← TimeSlot_hash t;
  Ok (if existsb (TimeSlot_eqb t) s then s else s ++ [t]).
End Hashing.


(** Hashing a time slot for a set or a dict; the value of the hash plays
    no part in what the container then does. *)
Definition hash_slot (t : TimeSlot) : result unit :=
  _ ← TimeSlot_hash (fun _ => 0) (fun _ => 0) t;
  Ok tt.

(** [s.add(t)] on a set of time slots. *)
Definition slot_set_add (t : TimeSlot) (s : list TimeSlot) : result (list TimeSlot) :=
  _ ← hash_slot t;
  Ok (if existsb (TimeSlot_eqb t) s then s else s ++ [t]).

(** [set(l)] on a list of time slots: the elements are added one by
    one. *)
Definition set_of_slots (l : list TimeSlot) : result (list TimeSlot) :=
  fold_result (fun s t => slot_set_add t s) l [].

(** ** src/src/csp/variable.py: ResourceRequirements and Variable *)

Record ResourceRequirements : Type := mk_ResourceRequirements
  { req_room_type : string;
    min_capacity : Z;
    requires_lab : bool;
    requires_projector : bool }.

(** The class [Variable] ([Variable] is a keyword of the vernacular). *)
Record CspVariable : Type := mk_Variable
  { course_id : string;
    level : Z;
    requirements : ResourceRequirements;
    _assigned_time : option TimeSlot;
    _assigned_room : option string;
    _assigned_instructor : option string;
    _possible_times : list TimeSlot;
    _possible_rooms : list string;
    _possible_instructors : list string }.

Definition new_Variable (c : string) (l : Z) (rq : ResourceRequirements) : CspVariable :=
  {| course_id := c; level := l; requirements := rq;
     _assigned_time := None; _assigned_room := None; _assigned_instructor := None;
     _possible_times := []; _possible_rooms := []; _possible_instructors := [] |}.

(** Truth value of an [Optional[TimeSlot]]: an instance is always true. *)
Definition truthy_slot (o : option TimeSlot) : bool :=
  match o with Some _ => true | None => false end.

(** Truth value of an [Optional[str]]: [None] and [""] are false. *)
Definition truthy_str (o : option string) : bool :=
  match o with Some s => negb (String.eqb s "") | None => false end.

Definition is_assigned (self : CspVariable) : bool :=
  truthy_slot (_assigned_time self) &&
  truthy_str (_assigned_room self) &&
  truthy_str (_assigned_instructor self).

Definition assign (self : CspVariable) (time_slot : TimeSlot)
    (room_id instructor_id : string) : CspVariable :=
  {| course_id := course_id self; level := level self;
     requirements := requirements self;
     _assigned_time := Some time_slot;
     _assigned_room := Some room_id;
     _assigned_instructor := Some instructor_id;
     _possible_times := _possible_times self;
     _possible_rooms := _possible_rooms self;
     _possible_instructors := _possible_instructors self |}.

Definition unassign (self : CspVariable) : CspVariable :=
  {| course_id := course_id self; level := level self;
     requirements := requirements self;
     _assigned_time := None; _assigned_room := None;
     _assigned_instructor := None;
     _possible_times := _possible_times self;
     _possible_rooms := _possible_rooms self;
     _possible_instructors := _possible_instructors self |}.

Definition set_domain (self : CspVariable) (time_slots : list TimeSlot)
    (rooms instructors : list string) : CspVariable :=
  {| course_id := course_id self; level := level self;
     requirements := requirements self;
     _assigned_time := _assigned_time self;
     _assigned_room := _assigned_room self;
     _assigned_instructor := _assigned_instructor self;
     _possible_times := time_slots;
     _possible_rooms := rooms;
     _possible_instructors := instructors |}.

Definition get_domain (self : CspVariable)
    : list TimeSlot * list string * list string :=
  (_possible_times self, _possible_rooms self, _possible_instructors self).

Definition opt_str_eqb (a b : option string) : bool :=
  match a, b with
  | Some x, Some y => String.eqb x y
  | None, None => true
  | _, _ => false
  end.

Definition conflicts_with (self other : CspVariable) : bool :=
  if negb (is_assigned self && is_assigned other) then false
  else
    match _assigned_time self, _assigned_time other with
    | Some t1, Some t2 =>
        if overlaps t1 t2 then
          opt_str_eqb (_assigned_room self) (_assigned_room other) ||
          opt_str_eqb (_assigned_instructor self) (_assigned_instructor other)
        else false
    | _, _ => false
    end.

(** [clone]: the assignment is copied and the three sets are copied. *)
Definition clone (self : CspVariable) : CspVariable :=
  {| course_id := course_id self; level := level self;
     requirements := requirements self;
     _assigned_time := _assigned_time self;
     _assigned_room := _assigned_room self;
     _assigned_instructor := _assigned_instructor self;
     _possible_times := _possible_times self;
     _possible_rooms := _possible_rooms self;
     _possible_instructors := _possible_instructors self |}.

(** ** src/src/csp/domain.py *)

Record RoomAvailability : Type := mk_RoomAvailability
  { room_id : string;
    room_type : string;
    capacity : Z;
    room_available_times : list TimeSlot;
    features : gmap string bool }.

Record InstructorAvailability : Type := mk_InstructorAvailability
  { instructor_id : string;
    max_hours_per_day : Z;
    preferred_times : list TimeSlot;
    instructor_available_times : list TimeSlot }.

Record Domain : Type := mk_Domain
  { time_slots : list TimeSlot;
    rooms : gmap string RoomAvailability;
    instructors : gmap string InstructorAvailability }.

(** [x in l] on a list of time slots. *)
Definition slot_in (x : TimeSlot) (l : list TimeSlot) : bool :=
  existsb (fun y => TimeSlot_eqb y x) l.

(** [l.remove(x)]: drops the first element equal to [x]; [None] stands for
    the [ValueError] raised when there is none. *)
Fixpoint list_remove (x : TimeSlot) (l : list TimeSlot) : option (list TimeSlot) :=
  match l with
  | [] => None
  | y :: l' =>
      if TimeSlot_eqb y x then Some l'
      else match list_remove x l' with
           | Some r => Some (y :: r)
           | None => None
           end
  end.

Definition set_room_times (r : RoomAvailability) (l : list TimeSlot) : RoomAvailability :=
  {| room_id := room_id r; room_type := room_type r; capacity := capacity r;
     room_available_times := l; features := features r |}.

Definition set_instructor_times (i : InstructorAvailability) (l : list TimeSlot)
    : InstructorAvailability :=
  {| instructor_id := instructor_id i; max_hours_per_day := max_hours_per_day i;
     preferred_times := preferred_times i; instructor_available_times := l |}.

Definition set_rooms (d : Domain) (m : gmap string RoomAvailability) : Domain :=
  {| time_slots := time_slots d; rooms := m; instructors := instructors d |}.

Definition set_instructors (d : Domain) (m : gmap string InstructorAvailability) : Domain :=
  {| time_slots := time_slots d; rooms := rooms d; instructors := m |}.

(** [features.get(k)] as a truth value. *)
Definition feature (r : RoomAvailability) (k : string) : bool :=
  default false (features r !! k).

Definition room_suits (rq : ResourceRequirements) (room : RoomAvailability) : bool :=
  String.eqb (room_type room) (req_room_type rq) &&
  (min_capacity rq <=? capacity room) &&
  (negb (requires_lab rq) || feature room "lab") &&
  (negb (requires_projector rq) || feature room "projector").

(** [get_available_values]: the set of the time slots is built first. *)
Definition get_available_values (self : Domain) (rq : ResourceRequirements)
    : result (list TimeSlot * list string * list string) :=
  available_times ← set_of_slots (time_slots self);
  let suitable_rooms :=
    (List.filter (fun kv => room_suits rq (snd kv)) (map_to_list (rooms self))).*1 in
  let qualified_instructors := (map_to_list (instructors self)).*1 in
  Ok (available_times, suitable_rooms, qualified_instructors).

(** Only the room branch exists in [update_availability]; the
    [instructor_id] argument is not looked at. *)
Definition update_availability (self : Domain) (time_slot : TimeSlot)
    (room_id instructor_id : option string) : Domain :=
  match room_id with
  | Some rid =>
      if truthy_str room_id then
        match rooms self !! rid with
        | Some room =>
            match list_remove time_slot (room_available_times room) with
            | Some l => set_rooms self (<[rid := set_room_times room l]> (rooms self))
            | None => self
            end
        | None => self
        end
      else self
  | None => self
  end.

Definition restore_room (self : Domain) (time_slot : TimeSlot)
    (room_id : option string) : Domain :=
  match room_id with
  | Some rid =>
      if truthy_str room_id then
        match rooms self !! rid with
        | Some room =>
            if negb (slot_in time_slot (room_available_times room)) then
              set_rooms self
                (<[rid := set_room_times room (room_available_times room ++ [time_slot])]>
                   (rooms self))
            else self
        | None => self
        end
      else self
  | None => self
  end.

Definition restore_instructor (self : Domain) (time_slot : TimeSlot)
    (instructor_id : option string) : Domain :=
  match instructor_id with
  | Some iid =>
      if truthy_str instructor_id then
        match instructors self !! iid with
        | Some ins =>
            if negb (slot_in time_slot (instructor_available_times ins)) then
              set_instructors self
                (<[iid := set_instructor_times ins
                            (instructor_available_times ins ++ [time_slot])]>
                   (instructors self))
            else self
        | None => self
        end
      else self
  | None => self
  end.

Definition restore_availability (self : Domain) (time_slot : TimeSlot)
    (room_id instructor_id : option string) : Domain :=
  restore_instructor (restore_room self time_slot room_id) time_slot instructor_id.

(** ** src/src/csp/constraints.py *)

Record ConstraintViolation : Type := mk_ConstraintViolation
  { constraint_type : string;
    description : string;
    variables : list CspVariable;
    severity : float }.

(** The abstract base class [Constraint]: [check] reads the variables and
    the domain, and returns its violations or raises; [propagate] may
    change the variable and the domain, and returns them as they are when
    it returns or raises. *)
Record Constraint : Type := mk_Constraint
  { check : list CspVariable -> Domain -> result (list ConstraintViolation);
    propagate : CspVariable -> Domain -> result bool * CspVariable * Domain }.

Fixpoint NoOverlap_check (vars : list CspVariable) (domain : Domain)
    : list ConstraintViolation :=
  match vars with
  | [] => []
  | var1 :: rest =>
      flat_map (fun var2 =>
        if conflicts_with var1 var2 then
          [ {| constraint_type := "resource_overlap";
               description := "Resource conflict between " +:+ course_id var1
                              +:+ " and " +:+ course_id var2;
               variables := [var1; var2];
               severity := 1%float |} ]
        else []) rest
      ++ NoOverlap_check rest domain
  end.

Definition NoOverlap_propagate (variable : CspVariable) (domain : Domain)
    : result bool * CspVariable * Domain :=
  match _assigned_time variable with
  | Some t =>
      if negb (is_assigned variable) then (Ok true, variable, domain)
      else (Ok true, variable,
            update_availability domain t (_assigned_room variable)
              (_assigned_instructor variable))
  | None => (Ok true, variable, domain)
  end.

Definition NoOverlapConstraint : Constraint :=
  {| check := fun vars domain => Ok (NoOverlap_check vars domain);
     propagate := NoOverlap_propagate |}.

Definition RoomType_check_one (domain : Domain) (var : CspVariable)
    : list ConstraintViolation :=
  if is_assigned var && truthy_str (_assigned_room var) then
    match _assigned_room var with
    | Some rid =>
        match rooms domain !! rid with
        | Some room =>
            if negb (String.eqb (room_type room) (req_room_type (requirements var))) then
              [ {| constraint_type := "room_type_mismatch";
                   description := "Room type mismatch for " +:+ course_id var;
                   variables := [var];
                   severity := 1%float |} ]
            else []
        | None => []
        end
    | None => []
    end
  else [].

Definition RoomType_check (vars : list CspVariable) (domain : Domain)
    : list ConstraintViolation :=
  flat_map (RoomType_check_one domain) vars.

(** [reduce_domain(rooms=...)]: an empty argument is skipped. *)
Definition reduce_domain_rooms (self : CspVariable) (rms : list string) : CspVariable :=
  match rms with
  | [] => self
  | _ =>
      set_domain self (_possible_times self)
        (List.filter (fun r => negb (existsb (String.eqb r) rms)) (_possible_rooms self))
        (_possible_instructors self)
  end.

(** [domain.rooms[room_id]] raises [KeyError] on an id the domain does not
    hold. *)
Definition RoomType_propagate (variable : CspVariable) (domain : Domain)
    : result bool * CspVariable * Domain :=
  let rms := _possible_rooms variable in
  match filter_result (fun rid =>
          match rooms domain !! rid with
          | Some room =>
              Ok (String.eqb (room_type room) (req_room_type (requirements variable)))
          | None => Raise (KeyError rid)
          end) rms with
  | Ok compatible_rooms =>
      let removed :=
        List.filter (fun r => negb (existsb (String.eqb r) compatible_rooms)) rms in
      (Ok (0 <? Z.of_nat (length compatible_rooms)),
       reduce_domain_rooms variable removed, domain)
  | Raise e => (Raise e, variable, domain)
  end.

Definition RoomTypeConstraint : Constraint :=
  {| check := fun vars domain => Ok (RoomType_check vars domain);
     propagate := RoomType_propagate |}.

(** [LevelConstraint.check]: [level_times] maps a level to the set of
    slots seen so far. *)
(** [LevelConstraint.check]: [level_times] maps a level to the set of
    slots seen so far; the slot of an assigned variable is added to the
    set of its level, which hashes it. *)
Definition Level_step (acc : list ConstraintViolation * gmap Z (list TimeSlot))
    (var : CspVariable) : result (list ConstraintViolation * gmap Z (list TimeSlot)) :=
  let '(violations, level_times) := acc in
  match _assigned_time var with
  | Some t =>
      if is_assigned var then
        let seen := default [] (level_times !! level var) in
        let violations' :=
          if existsb (overlaps t) seen then
            violations ++
            [ {| constraint_type := "level_time_conflict";
                 description := "Time conflict in level " +:+ pretty (level var);
                 variables := [var];
                 severity := 1%float |} ]
          else violations in
        seen' ← slot_set_add t seen;
        Ok (violations', <[level var := seen']> level_times)
      else Ok acc
  | None => Ok acc
  end.

Definition Level_check (vars : list CspVariable) (domain : Domain)
    : result (list ConstraintViolation) :=
  r ← fold_result Level_step vars ([], ∅);
  Ok (fst r).

Definition Level_propagate (variable : CspVariable) (domain : Domain)
    : result bool * CspVariable * Domain := (Ok true, variable, domain).

Definition LevelConstraint : Constraint :=
  {| check := Level_check; propagate := Level_propagate |}.

Record ConstraintManager : Type := mk_ConstraintManager
  { cm_domain : Domain;
    hard_constraints : list Constraint;
    soft_constraints : list Constraint }.

(** [ConstraintManager.__init__]. *)
Definition new_ConstraintManager (domain : Domain) : ConstraintManager :=
  {| cm_domain := domain;
     hard_constraints := [NoOverlapConstraint; RoomTypeConstraint; LevelConstraint];
     soft_constraints := [] |}.

(** [for constraint in cs: violations.extend(constraint.check(...))]. *)
Fixpoint check_all (cs : list Constraint) (vars : list CspVariable) (d : Domain)
    (violations : list ConstraintViolation) : result (list ConstraintViolation) :=
  match cs with
  | [] => Ok violations
  | c :: cs' =>
      found ← check c vars d;
      check_all cs' vars d (violations ++ found)
  end.

(** [check_assignment]: the hard constraints, then the soft ones; an
    exception of a check ends the call. *)
Definition check_assignment (self : ConstraintManager) (vars : list CspVariable)
    : result (list ConstraintViolation) :=
  violations ← check_all (hard_constraints self) vars (cm_domain self) [];
  check_all (soft_constraints self) vars (cm_domain self) violations.

(** [propagate_constraints]: stops at the first constraint whose
    propagation fails. *)
Fixpoint propagate_all (cs : list Constraint) (variable : CspVariable) (domain : Domain)
    : result bool * CspVariable * Domain :=
  match cs with
  | [] => (Ok true, variable, domain)
  | c :: cs' =>
      let '(r, variable', domain') := propagate c variable domain in
      match r with
      | Ok true => propagate_all cs' variable' domain'
      | _ => (r, variable', domain')
      end
  end.

Definition propagate_constraints (self : ConstraintManager) (variable : CspVariable)
    (domain : Domain) : result bool * CspVariable * Domain :=
  propagate_all (hard_constraints self) variable domain.

(** [get_violation_score]: infinite as soon as one severity is 1.0,
    otherwise the sum of the severities. *)
Definition get_violation_score (violations : list ConstraintViolation) : float :=
  if existsb (fun v => PrimFloat.eqb (severity v) 1) violations then infinity
  else fsum (map severity violations).

(** ** src/src/csp/specific_constraints.py *)

(** A variable takes part when [is_assigned] holds and its slot is set. *)
Definition scored_time (var : CspVariable) : option TimeSlot :=
  if is_assigned var then _assigned_time var else None.

(** A dict keyed by time slots, in insertion order; [d[k] = v] hashes the
    key, then replaces the value under a key equal to [k] or appends. *)
Fixpoint slot_dict_put (k : TimeSlot) (v : CspVariable)
    (d : list (TimeSlot * CspVariable)) : list (TimeSlot * CspVariable) :=
  match d with
  | [] => [(k, v)]
  | (k', v') :: d' =>
      if TimeSlot_eqb k' k then (k', v) :: d'
      else (k', v') :: slot_dict_put k v d'
  end.

Definition slot_dict_set (k : TimeSlot) (v : CspVariable)
    (d : list (TimeSlot * CspVariable)) : result (list (TimeSlot * CspVariable)) :=
  _ ← hash_slot k;
  Ok (slot_dict_put k v d).

(** [str(x)] for an [Optional[str]] inside an f-string. *)
Definition str_opt (o : option string) : string :=
  match o with Some s => s | None => "None" end.

Definition room_conflict (var other_var : CspVariable) : ConstraintViolation :=
  {| constraint_type := "room_conflict";
     description := "Room " +:+ str_opt (_assigned_room var) +:+ " double-booked";
     variables := [var; other_var];
     severity := 1%float |}.

Definition instructor_conflict (var other_var : CspVariable) : ConstraintViolation :=
  {| constraint_type := "instructor_conflict";
     description := "Instructor " +:+ str_opt (_assigned_instructor var)
                    +:+ " double-booked";
     variables := [var; other_var];
     severity := 1%float |}.

(** The state of [ResourceConflictConstraint.check]: the violations and
    [resource_usage], its ['rooms'] and ['instructors'] dicts. *)
Record ResourceUsage : Type := mk_ResourceUsage
  { ru_violations : list ConstraintViolation;
    ru_rooms : list (TimeSlot * CspVariable);
    ru_instructors : list (TimeSlot * CspVariable) }.

Definition ResourceConflict_step (acc : ResourceUsage) (var : CspVariable)
    : result ResourceUsage :=
  match scored_time var with
  | Some t =>
      after_rooms ←
        (if truthy_str (_assigned_room var) then
           let violations :=
             ru_violations acc ++
             flat_map (fun kv =>
               if overlaps (fst kv) t &&
                  opt_str_eqb (_assigned_room (snd kv)) (_assigned_room var)
               then [room_conflict var (snd kv)] else []) (ru_rooms acc) in
           rooms' ← slot_dict_set t var (ru_rooms acc);
           Ok {| ru_violations := violations;
                 ru_rooms := rooms';
                 ru_instructors := ru_instructors acc |}
         else Ok acc);
      if truthy_str (_assigned_instructor var) then
        let violations :=
          ru_violations after_rooms ++
          flat_map (fun kv =>
            if overlaps (fst kv) t &&
               opt_str_eqb (_assigned_instructor (snd kv)) (_assigned_instructor var)
            then [instructor_conflict var (snd kv)] else [])
            (ru_instructors after_rooms) in
        instructors' ← slot_dict_set t var (ru_instructors after_rooms);
        Ok {| ru_violations := violations;
              ru_rooms := ru_rooms after_rooms;
              ru_instructors := instructors' |}
      else Ok after_rooms
  | None => Ok acc
  end.

Definition ResourceConflict_check (vars : list CspVariable) (domain : Domain)
    : result (list ConstraintViolation) :=
  r ← fold_result ResourceConflict_step vars
         {| ru_violations := []; ru_rooms := []; ru_instructors := [] |};
  Ok (ru_violations r).

Definition time_conflict (var other_var : CspVariable) : ConstraintViolation :=
  {| constraint_type := "time_conflict";
     description := "Time conflict in level " +:+ pretty (level var);
     variables := [var; other_var];
     severity := 1%float |}.

(** [TimeConflictConstraint.check]: [level_slots] maps a level to a dict
    from slots to variables. *)
Definition TimeConflict_step
    (acc : list ConstraintViolation * gmap Z (list (TimeSlot * CspVariable)))
    (var : CspVariable)
    : result (list ConstraintViolation * gmap Z (list (TimeSlot * CspVariable))) :=
  match scored_time var with
  | Some t =>
      let slots := default [] (snd acc !! level var) in
      let violations :=
        fst acc ++
        flat_map (fun kv =>
          if overlaps (fst kv) t then [time_conflict var (snd kv)] else []) slots in
      slots' ← slot_dict_set t var slots;
      Ok (violations, <[level var := slots']> (snd acc))
  | None => Ok acc
  end.

Definition TimeConflict_check (vars : list CspVariable) (domain : Domain)
    : result (list ConstraintViolation) :=
  r ← fold_result TimeConflict_step vars ([], ∅);
  Ok (fst r).

(** *** LevelRequirementConstraint *)

Definition MAX_DAILY_HOURS : Z := 6.

(** [(end.hour - start.hour) + (end.minute - start.minute) / 60]. *)
Definition slot_hours (t : TimeSlot) : float :=
  (float_of_Z (hour (end_time t) - hour (start_time t)) +
   float_of_Z (minute (end_time t) - minute (start_time t)) / float_of_Z 60)%float.

#[warnings="-inexact-float"]
Definition max_hours_violation (var : CspVariable) (d : string) : ConstraintViolation :=
  {| constraint_type := "max_hours_exceeded";
     description := "Level " +:+ pretty (level var) +:+ " exceeds " +:+
                    pretty MAX_DAILY_HOURS +:+ " hours on " +:+ d;
     variables := [var];
     severity := 0.8%float |}.

(** [level_hours]: level -> day -> hours so far (keys are ints and
    strings: nothing here hashes a time slot). *)
Definition LevelRequirement_step
    (acc : list ConstraintViolation * gmap Z (gmap string float)) (var : CspVariable)
    : list ConstraintViolation * gmap Z (gmap string float) :=
  let '(violations, level_hours) := acc in
  match _assigned_time var with
  | Some t =>
      if is_assigned var then
        let by_day := default ∅ (level_hours !! level var) in
        let total := (default 0 (by_day !! day t) + slot_hours t)%float in
        let level_hours' := <[level var := <[day t := total]> by_day]> level_hours in
        (if PrimFloat.ltb (float_of_Z MAX_DAILY_HOURS) total
         then violations ++ [max_hours_violation var (day t)]
         else violations,
         level_hours')
      else acc
  | None => acc
  end.

Definition LevelRequirement_check (vars : list CspVariable) (domain : Domain)
    : list ConstraintViolation :=
  fst (fold_left LevelRequirement_step vars ([], ∅)).

Definition LevelRequirementConstraint : Constraint :=
  {| check := fun vars domain => Ok (LevelRequirement_check vars domain);
     propagate := fun variable domain => (Ok true, variable, domain) |}.

(** ** src/src/csp/optimization.py *)

Record OptimizationMetrics : Type := mk_OptimizationMetrics
  { gaps_score : float;
    preference_score : float;
    distribution_score : float;
    total_score : float }.

Record SolutionOptimizer : Type := mk_SolutionOptimizer
  { max_runtime : Q;
    best_score : float;
    improvement_threshold : float }.

#[warnings="-inexact-float"]
Definition new_SolutionOptimizer (max_runtime : Q) : SolutionOptimizer :=
  {| max_runtime := max_runtime;
     best_score := neg_infinity;
     improvement_threshold := 0.1%float |}.

(** [d[k].append(x)], creating the list on the first use of [k]; keys keep
    their order of insertion. *)
Fixpoint group_append (k : Z) (x : TimeSlot) (d : list (Z * list TimeSlot))
    : list (Z * list TimeSlot) :=
  match d with
  | [] => [(k, [x])]
  | (k', l) :: d' =>
      if k' =? k then (k', l ++ [x]) :: d'
      else (k', l) :: group_append k x d'
  end.

(** [sorted(l, key=...)]: stable, ascending in [lt] on the keys. *)
Fixpoint insert_sorted {A} (lt : A -> A -> bool) (x : A) (l : list A) : list A :=
  match l with
  | [] => [x]
  | y :: l' => if lt x y then x :: y :: l' else y :: insert_sorted lt x l'
  end.

Definition sorted_by {A} (lt : A -> A -> bool) (l : list A) : list A :=
  fold_left (fun acc x => insert_sorted lt x acc) l [].

(** [(a.day, a.start_time) < (b.day, b.start_time)]. *)
Definition day_start_ltb (a b : TimeSlot) : bool :=
  String.ltb (day a) (day b) ||
  (String.eqb (day a) (day b) && time_ltb (start_time a) (start_time b)).

(** The gap is an [int] of minutes; [gap / 60] is a float. *)
Fixpoint level_gaps (gaps : float) (sorted_times : list TimeSlot) : float :=
  match sorted_times with
  | current :: ((next_slot :: _) as rest) =>
      let gaps' :=
        if String.eqb (day current) (day next_slot) then
          let gap := (hour (start_time next_slot) * 60 + minute (start_time next_slot))
                     - (hour (end_time current) * 60 + minute (end_time current)) in
          if 0 <? gap then (gaps + float_of_Z gap / float_of_Z 60)%float else gaps
        else gaps in
      level_gaps gaps' rest
  | _ => gaps
  end.

Definition _calculate_gaps_score (vars : list CspVariable) : float :=
  let level_slots :=
    fold_left (fun d var =>
      match scored_time var with
      | Some t => group_append (level var) t d
      | None => d
      end) vars [] in
  fold_left (fun gaps kv => level_gaps gaps (sorted_by day_start_ltb (snd kv)))
    level_slots 0%float.

(** The two counters are [int]s; their quotient is a float. *)
Definition _calculate_preference_score (vars : list CspVariable) : float :=
  let '(satisfied, total) :=
    fold_left (fun acc var =>
      match scored_time var with
      | Some t =>
          let h := hour (start_time t) in
          ((if (9 <=? h) && (h <=? 16) then fst acc + 1 else fst acc), snd acc + 1)
      | None => acc
      end) vars (0, 0) in
  if 0 <? total then (float_of_Z satisfied / float_of_Z total)%float else 0%float.

(** [d[k] = d.get(k, 0) + 1]. *)
Fixpoint count_day (k : string) (d : list (string * Z)) : list (string * Z) :=
  match d with
  | [] => [(k, 1)]
  | (k', c) :: d' =>
      if String.eqb k' k then (k', c + 1) :: d' else (k', c) :: count_day k d'
  end.

(** The counts are [int]s; the mean is their sum over their number, a
    float; [x ** 2] is taken as the rounded product [x * x]. *)
Definition _calculate_distribution_score (vars : list CspVariable) : float :=
  let day_counts :=
    fold_left (fun d var =>
      match scored_time var with
      | Some t => count_day (day t) d
      | None => d
      end) vars [] in
  match day_counts with
  | [] => 0%float
  | _ =>
      let n := float_of_Z (Z.of_nat (length day_counts)) in
      let counts := map snd day_counts in
      let mean := (float_of_Z (fold_left Z.add counts 0%Z) / n)%float in
      let variance :=
        (fsum (map (fun c => (float_of_Z c - mean) * (float_of_Z c - mean)) counts)
         / n)%float in
      (1 / (1 + variance))%float
  end.

#[warnings="-inexact-float"]
Definition score_solution (self : SolutionOptimizer) (vars : list CspVariable)
    : OptimizationMetrics :=
  let gaps := _calculate_gaps_score vars in
  let preference := _calculate_preference_score vars in
  let distribution := _calculate_distribution_score vars in
  {| gaps_score := gaps;
     preference_score := preference;
     distribution_score := distribution;
     total_score := (-0.4 * gaps + 0.4 * preference + 0.2 * distribution)%float |}.

(** ** src/src/csp/solver.py *)

Record SolverStats : Type := mk_SolverStats
  { runtime : Q;
    backtracks : Z;
    assignments : Z;
    solutions_found : Z;
    stats_best_score : float }.

Record Solver : Type := mk_Solver
  { constraint_manager : ConstraintManager;
    domain : Domain;
    stats : SolverStats;
    optimizer : SolutionOptimizer;
    best_solution : option (list CspVariable);
    best_metrics : option OptimizationMetrics }.

(** [Solver.__init__]. *)
Definition new_Solver (cm : ConstraintManager) (d : Domain) (max_runtime : Q) : Solver :=
  {| constraint_manager := cm;
     domain := d;
     stats := {| runtime := 0; backtracks := 0; assignments := 0;
                 solutions_found := 0; stats_best_score := infinity |};
     optimizer := new_SolutionOptimizer max_runtime;
     best_solution := None;
     best_metrics := None |}.

(** Everything a call of [solve] can reach and change: the solver object
    (with its constraint manager and domain), the caller's list of
    variables, the local list [solutions], and how often the clock was
    read. *)
Record SolveState : Type := mk_SolveState
  { solver : Solver;
    vars : list CspVariable;
    solutions : list (list CspVariable);
    clock_reads : nat }.

Definition M (A : Type) : Type := SolveState -> result A * SolveState.

#[export] Instance M_ret : MRet M := fun A a st => (Ok a, st).
#[export] Instance M_bind : MBind M := fun A B k m st =>
  match m st with
  | (Ok a, st') => k a st'
  | (Raise e, st') => (Raise e, st')
  end.

Definition get_state : M SolveState := fun st => (Ok st, st).
Definition put_state (st : SolveState) : M unit := fun _ => (Ok tt, st).
Definition raise {A} (e : exn) : M A := fun st => (Raise e, st).

Definition with_vars (st : SolveState) (l : list CspVariable) : SolveState :=
  {| solver := solver st; vars := l; solutions := solutions st;
     clock_reads := clock_reads st |}.

Definition with_stats (st : SolveState) (s : SolverStats) : SolveState :=
  {| solver :=
       {| constraint_manager := constraint_manager (solver st);
          domain := domain (solver st);
          stats := s;
          optimizer := optimizer (solver st);
          best_solution := best_solution (solver st);
          best_metrics := best_metrics (solver st) |};
     vars := vars st; solutions := solutions st; clock_reads := clock_reads st |}.

(** Recording a solution at a leaf. *)
Definition with_best (st : SolveState) (m : OptimizationMetrics)
    (sol : list CspVariable) : SolveState :=
  {| solver :=
       {| constraint_manager := constraint_manager (solver st);
          domain := domain (solver st);
          stats := stats (solver st);
          optimizer := optimizer (solver st);
          best_solution := Some sol;
          best_metrics := Some m |};
     vars := vars st; solutions := solutions st ++ [sol];
     clock_reads := clock_reads st |}.

Definition Triple : Type := TimeSlot * string * string.

(** [for t in times: for r in rooms: for i in instructors]. *)
Definition triples (variable : CspVariable) : list Triple :=
  flat_map (fun t =>
    flat_map (fun r =>
      map (fun i => (t, r, i)) (_possible_instructors variable))
      (_possible_rooms variable))
    (_possible_times variable).

Definition is_nil {A} (l : list A) : bool :=
  match l with [] => true | _ => false end.

(** The three nested loops of [_forward_check]: each triple is assigned
    and checked alone until one passes; an exception of [check_assignment]
    leaves the loops with the variable assigned to the triple it was
    raised for. *)
Fixpoint probe_triples (cm : ConstraintManager) (variable : CspVariable)
    (ts : list Triple) : result bool * CspVariable :=
  match ts with
  | [] => (Ok false, variable)
  | (t, r, i) :: rest =>
      let variable' := assign variable t r i in
      match check_assignment cm [variable'] with
      | Ok [] => (Ok true, unassign variable')
      | Ok (_ :: _) => probe_triples cm variable' rest
      | Raise e => (Raise e, variable')
      end
  end.

(** One round of the loop of [_forward_check]: an empty candidate set
    returns at once; otherwise the triples are probed, and the variable is
    unassigned after the loops. *)
Definition forward_probe (cm : ConstraintManager) (variable : CspVariable)
    : result bool * CspVariable :=
  let '(times, rms, ins) := get_domain variable in
  if negb (negb (is_nil times) && negb (is_nil rms) && negb (is_nil ins)) then
    (Ok false, variable)
  else
    match probe_triples cm variable (triples variable) with
    | (Ok valid_assignment, variable') => (Ok valid_assignment, unassign variable')
    | (Raise e, variable') => (Raise e, variable')
    end.

(** [_forward_check]: the value returned or the exception raised, and the
    variables as the call leaves them. *)
Fixpoint _forward_check (cm : ConstraintManager) (future_variables : list CspVariable)
    : result bool * list CspVariable :=
  match future_variables with
  | [] => (Ok true, [])
  | variable :: rest =>
      match forward_probe cm variable with
      | (Ok true, variable') =>
          let '(r, rest') := _forward_check cm rest in (r, variable' :: rest')
      | (r, variable') => (r, variable' :: rest)
      end
  end.

(** [_restore_domains]: an exception of [get_available_values] ends the
    loop; the variables before it have their new candidates. *)
Fixpoint _restore_domains (d : Domain) (variables : list CspVariable)
    : result unit * list CspVariable :=
  match variables with
  | [] => (Ok tt, [])
  | variable :: rest =>
      match get_available_values d (requirements variable) with
      | Ok (times, rms, ins) =>
          let '(r, rest') := _restore_domains d rest in
          (r, set_domain variable times rms ins :: rest')
      | Raise e => (Raise e, variable :: rest)
      end
  end.

Section Solve.
(** [clock n] is what the [n]-th call of [time.time()] returns. *)
Variable clock : nat -> Q.
(** [values.sort(reverse=True)] on (score, triple) pairs; it raises
    [TypeError] when it has to order two time slots. *)
Variable sort_reverse : list (float * Triple) -> result (list (float * Triple)).

Definition read_clock : M Q := fun st =>
  (Ok (clock (clock_reads st)),
   {| solver := solver st; vars := vars st; solutions := solutions st;
      clock_reads := S (clock_reads st) |}).

(** [_order_values]: every triple is scored with the variable assigned
    to it alone; the variable ends unassigned when there was a triple. *)
Definition _order_values (self : Solver) (variable : CspVariable)
    : result (list Triple) * CspVariable :=
  let values :=
    map (fun '(t, r, i) =>
           (total_score (score_solution (optimizer self) [assign variable t r i]),
            (t, r, i)))
        (triples variable) in
  let variable' := if is_nil values then variable else unassign variable in
  (match sort_reverse values with
   | Ok sorted => Ok (map snd sorted)
   | Raise e => Raise e
   end, variable').

(** [variables[index]]. *)
Definition var_at (index : nat) : M CspVariable := fun st =>
  match vars st !! index with
  | Some v => (Ok v, st)
  | None => (Raise (OtherError "list index out of range"), st)
  end.

Definition update_var_at (index : nat) (f : CspVariable -> CspVariable) : M unit :=
  v ← var_at index;
  st ← get_state;
  put_state (with_vars st (<[index := f v]> (vars st))).

Definition order_values_at (index : nat) : M (list Triple) :=
  v ← var_at index;
  st ← get_state;
  let '(r, v') := _order_values (solver st) v in
  _ ← put_state (with_vars st (<[index := v']> (vars st)));
  match r with
  | Ok l => mret l
  | Raise e => raise e
  end.

(** [self.constraint_manager.check_assignment(variables[:index + 1])]. *)
Definition check_prefix (index : nat) : M (list ConstraintViolation) := fun st =>
  (check_assignment (constraint_manager (solver st)) (take (S index) (vars st)), st).

(** [self._forward_check(variables[index:])]. *)
Definition forward_check_from (index : nat) : M bool := fun st =>
  let '(r, future) :=
    _forward_check (constraint_manager (solver st)) (drop index (vars st)) in
  (r, with_vars st (take index (vars st) ++ future)).

(** [self._restore_domains(variables[index:])]. *)
Definition restore_domains_from (index : nat) : M unit := fun st =>
  let '(r, future) := _restore_domains (domain (solver st)) (drop index (vars st)) in
  (r, with_vars st (take index (vars st) ++ future)).

Definition count_assignment : M unit := fun st =>
  let s := stats (solver st) in
  (Ok tt, with_stats st
     {| runtime := runtime s; backtracks := backtracks s;
        assignments := assignments s + 1;
        solutions_found := solutions_found s;
        stats_best_score := stats_best_score s |}).

Definition count_backtrack : M unit := fun st =>
  let s := stats (solver st) in
  (Ok tt, with_stats st
     {| runtime := runtime s; backtracks := backtracks s + 1;
        assignments := assignments s;
        solutions_found := solutions_found s;
        stats_best_score := stats_best_score s |}).

(** The branch [index == len(variables)] of [backtrack]. *)
Definition backtrack_leaf (max_solutions : Z) : M bool := fun st =>
  let self := solver st in
  let metrics := score_solution (optimizer self) (vars st) in
  let beats :=
    match best_metrics self with
    | None => true
    | Some bm => PrimFloat.ltb (total_score bm) (total_score metrics)
    end in
  if beats then
    let st' := with_best st metrics (map clone (vars st)) in
    if (max_solutions <=? Z.of_nat (length (solutions st'))) &&
       PrimFloat.ltb (best_score (optimizer self)) (total_score metrics)
    then (Ok true, st')
    else (Ok (Z.of_nat (length (solutions st')) <? max_solutions), st')
  else (Ok (Z.of_nat (length (solutions st)) <? max_solutions), st).

(** The loop over [ordered_values]; [deeper] is [backtrack(index + 1)]. *)
Fixpoint try_values (deeper : M bool) (index : nat) (ordered_values : list Triple)
    : M bool :=
  match ordered_values with
  | [] => mret false
  | (t, r, i) :: rest =>
      _ ← count_assignment;
      _ ← update_var_at index (fun v => assign v t r i);
      violations ← check_prefix index;
      found ←
        (if is_nil violations then
           ok ← forward_check_from (S index);
           if ok : bool then deeper else mret false
         else mret false);
      if found : bool then mret true
      else
        _ ← count_backtrack;
        _ ← update_var_at index unassign;
        _ ← restore_domains_from (S index);
        try_values deeper index rest
  end.

(** [backtrack(index)] with [index = len(variables) - remaining]: the
    list keeps its length, so [index == len(variables)] is
    [remaining = 0]. *)
Fixpoint backtrack (start_time timeout : Q) (max_solutions : Z) (remaining : nat)
    : M bool :=
  now ← read_clock;
  if Qltb timeout (now - start_time)%Q then mret false
  else
    match remaining with
    | O => backtrack_leaf max_solutions
    | S remaining' =>
        st ← get_state;
        let index := (length (vars st) - remaining)%nat in
        ordered_values ← order_values_at index;
        try_values (backtrack start_time timeout max_solutions remaining')
          index ordered_values
    end.

Definition set_runtime (r : Q) : M unit := fun st =>
  let s := stats (solver st) in
  (Ok tt, with_stats st
     {| runtime := r; backtracks := backtracks s; assignments := assignments s;
        solutions_found := solutions_found s;
        stats_best_score := stats_best_score s |}).

Definition solve_body (max_solutions : Z) (timeout : Q)
    : M (list (list CspVariable)) :=
  start_time ← read_clock;
  st ← get_state;
  _ ← backtrack start_time timeout max_solutions (length (vars st));
  now ← read_clock;
  _ ← set_runtime (now - start_time)%Q;
  st' ← get_state;
  mret (solutions st').

(** [self.solve(variables, max_solutions, timeout)]: the value returned or
    the exception raised, with the solver and the variables as the call
    leaves them. *)
Definition solve (self : Solver) (variables : list CspVariable)
    (max_solutions : Z) (timeout : Q)
    : result (list (list CspVariable)) * SolveState :=
  solve_body max_solutions timeout
    {| solver := self; vars := variables; solutions := []; clock_reads := 0 |}.
End Solve.

(** ** src/src/generator/scheduler.py *)

Record SchedulingResult : Type := mk_SchedulingResult
  { sr_success : bool;
    sr_variables : option (list CspVariable);
    sr_metrics : option OptimizationMetrics;
    sr_error : option string }.

(** [scheduled_resources]: per resource type, the set of (id, slot) pairs
    taken. *)
Record ScheduledResources : Type := mk_ScheduledResources
  { used_rooms : list (string * TimeSlot);
    used_instructors : list (string * TimeSlot) }.

Record LevelScheduler : Type := mk_LevelScheduler
  { ls_domain : Domain;
    scheduled_resources : ScheduledResources }.

Definition no_resources : ScheduledResources :=
  {| used_rooms := []; used_instructors := [] |}.

Definition new_LevelScheduler (d : Domain) : LevelScheduler :=
  {| ls_domain := d; scheduled_resources := no_resources |}.

Definition _reset_resources (self : LevelScheduler) : LevelScheduler :=
  {| ls_domain := ls_domain self; scheduled_resources := no_resources |}.

(** The key of [_sort_by_constraints] and [<] on such keys. *)
Definition sort_key (v : CspVariable) : Z * Z * Z :=
  (- Z.of_nat (String.length (req_room_type (requirements v))),
   - min_capacity (requirements v),
   - Z.of_nat (length (_possible_times v))).

Definition key_ltb (a b : Z * Z * Z) : bool :=
  let '(a1, a2, a3) := a in
  let '(b1, b2, b3) := b in
  (a1 <? b1) || ((a1 =? b1) && ((a2 <? b2) || ((a2 =? b2) && (a3 <? b3)))).

Definition _sort_by_constraints (variables : list CspVariable) : list CspVariable :=
  sorted_by (fun a b => key_ltb (sort_key a) (sort_key b)) variables.

(** The body only returns the empty set. *)
Definition _get_level_conflicts (self : LevelScheduler) (level : Z) : list TimeSlot := [].

Definition _filter_available_rooms (self : LevelScheduler) (rms : list string)
    (rq : ResourceRequirements) : result (list string) :=
  filter_result (fun room =>
    match rooms (ls_domain self) !! room with
    | Some ra =>
        Ok (String.eqb (room_type ra) (req_room_type rq) &&
            (min_capacity rq <=? capacity ra))
    | None => Raise (KeyError room)
    end) rms.

Definition _filter_available_instructors (self : LevelScheduler) (ins : list string)
    : result (list string) :=
  filter_result (fun i =>
    match instructors (ls_domain self) !! i with
    | Some ia => Ok (0 <? max_hours_per_day ia)
    | None => Raise (KeyError i)
    end) ins.

Definition pair_in (p : string * TimeSlot) (l : list (string * TimeSlot)) : bool :=
  existsb (fun q => String.eqb (fst q) (fst p) && TimeSlot_eqb (snd q) (snd p)) l.

(** [_is_resource_available]: [(resource_id, time_slot) not in s]; the
    pair is hashed, and with it the time slot. *)
Definition room_free (self : LevelScheduler) (rid : string) (t : TimeSlot)
    : result bool :=
  _ ← hash_slot t;
  Ok (negb (pair_in (rid, t) (used_rooms (scheduled_resources self)))).

Definition instructor_free (self : LevelScheduler) (iid : string) (t : TimeSlot)
    : result bool :=
  _ ← hash_slot t;
  Ok (negb (pair_in (iid, t) (used_instructors (scheduled_resources self)))).

(** [s.add((resource_id, time_slot))]. *)
Definition set_add_pair (p : string * TimeSlot) (l : list (string * TimeSlot))
    : result (list (string * TimeSlot)) :=
  _ ← hash_slot (snd p);
  Ok (if pair_in p l then l else l ++ [p]).

(** [_mark_resource_used] for the room, then for the instructor. *)
Definition mark_used (self : LevelScheduler) (rid iid : string) (t : TimeSlot)
    : result LevelScheduler :=
  rooms' ← set_add_pair (rid, t) (used_rooms (scheduled_resources self));
  instructors' ← set_add_pair (iid, t) (used_instructors (scheduled_resources self));
  Ok {| ls_domain := ls_domain self;
        scheduled_resources :=
          {| used_rooms := rooms'; used_instructors := instructors' |} |}.

(** The three nested loops of [_schedule_variable]: the first (time,
    room, instructor) whose room and instructor are both free at that
    time. *)
Fixpoint free_instructor (self : LevelScheduler) (t : TimeSlot)
    (available_instructors : list string) : result (option string) :=
  match available_instructors with
  | [] => Ok None
  | instructor :: rest =>
      free ← instructor_free self instructor t;
      if free : bool then Ok (Some instructor) else free_instructor self t rest
  end.

Fixpoint free_room (self : LevelScheduler) (t : TimeSlot)
    (available_rooms available_instructors : list string)
    : result (option (string * string)) :=
  match available_rooms with
  | [] => Ok None
  | room :: rest =>
      free ← room_free self room t;
      if free : bool then
        found ← free_instructor self t available_instructors;
        match found with
        | Some instructor => Ok (Some (room, instructor))
        | None => free_room self t rest available_instructors
        end
      else free_room self t rest available_instructors
  end.

Fixpoint first_free (self : LevelScheduler) (available_times : list TimeSlot)
    (available_rooms available_instructors : list string) : result (option Triple) :=
  match available_times with
  | [] => Ok None
  | t :: rest =>
      found ← free_room self t available_rooms available_instructors;
      match found with
      | Some (room, instructor) => Ok (Some (t, room, instructor))
      | None => first_free self rest available_rooms available_instructors
      end
  end.

Definition _schedule_variable (self : LevelScheduler) (variable : CspVariable)
    : result (bool * CspVariable * LevelScheduler) :=
  let '(times, rms, ins) := get_domain variable in
  let conflicts := _get_level_conflicts self (level variable) in
  let available_times := List.filter (fun t => negb (slot_in t conflicts)) times in
  available_rooms ← _filter_available_rooms self rms (requirements variable);
  available_instructors ← _filter_available_instructors self ins;
  found ← first_free self available_times available_rooms available_instructors;
  match found with
  | Some (t, room, instructor) =>
      self' ← mark_used self room instructor t;
      Ok (true, assign variable t room instructor, self')
  | None => Ok (false, variable, self)
  end.

(** [for var in sorted_vars: if not self._schedule_variable(var): ... break]:
    the flag [success] and the variables as the loop leaves them, or the
    exception that ended it, and the scheduler as it is then. *)
Fixpoint schedule_all (self : LevelScheduler) (sorted_vars : list CspVariable)
    : result (bool * list CspVariable) * LevelScheduler :=
  match sorted_vars with
  | [] => (Ok (true, []), self)
  | var :: rest =>
      match _schedule_variable self var with
      | Raise e => (Raise e, self)
      | Ok (ok, var', self') =>
          if ok : bool then
            match schedule_all self' rest with
            | (Ok (success, rest'), self'') => (Ok (success, var' :: rest'), self'')
            | (Raise e, self'') => (Raise e, self'')
            end
          else (Ok (false, var' :: rest), self')
      end
  end.

Definition failed_result (msg : string) : SchedulingResult :=
  {| sr_success := false; sr_variables := None; sr_metrics := None;
     sr_error := Some msg |}.

(** [for attempt in range(max_attempts)]. *)
Fixpoint attempts (level max_attempts : Z) (n : nat) (self : LevelScheduler)
    (sorted_vars : list CspVariable) : result SchedulingResult * LevelScheduler :=
  match n with
  | O =>
      (Ok (failed_result ("Failed to schedule level " +:+ pretty level +:+ " after "
                          +:+ pretty max_attempts +:+ " attempts")), self)
  | S n' =>
      match schedule_all (_reset_resources self) sorted_vars with
      | (Ok (success, vars'), self') =>
          if success : bool then
            (Ok {| sr_success := true; sr_variables := Some vars';
                   sr_metrics := None; sr_error := None |}, self')
          else attempts level max_attempts n' self' (map unassign vars')
      | (Raise e, self') => (Raise e, self')
      end
  end.

(** [schedule_level]: the result, and the scheduler object after the
    call. *)
Definition schedule_level (self : LevelScheduler) (level : Z)
    (variables : list CspVariable) (max_attempts : Z)
    : SchedulingResult * LevelScheduler :=
  match attempts level max_attempts (Z.to_nat max_attempts) self
          (_sort_by_constraints variables) with
  | (Ok r, self') => (r, self')
  | (Raise e, self') => (failed_result ("Scheduling error: " +:+ exn_str e), self')
  end.

(** ** src/src/generator/timetable_generator.py *)



Record TimetableGenerator : Type := mk_TimetableGenerator
  { tg_domain : Domain;
    scheduler : LevelScheduler }.



(** [_get_course_requirements]: the module never imports [sqlite3], so
    the name is unbound where the body first uses it, and again where the
    [except sqlite3.Error] clause is matched. *)
Definition _get_course_requirements (self : TimetableGenerator) (course_id : string)
    : result (option ResourceRequirements) :=
  Raise (NameError "name 'sqlite3' is not defined").

(** [variables] is the list built so far. *)
Fixpoint create_variables_loop (self : TimetableGenerator) (level : Z)
    (courses : list string) (variables : list CspVariable)
    : result (list CspVariable) :=
  match courses with
  | [] => Ok variables
  | course :: rest =>
      requirements ← _get_course_requirements self course;
      match requirements with
      | Some rq =>
          '(times, rms, ins) ← get_available_values (tg_domain self) rq;
          create_variables_loop self level rest
            (variables ++ [set_domain (new_Variable course level rq) times rms ins])
      | None => create_variables_loop self level rest variables
      end
  end.

Definition _create_variables (self : TimetableGenerator) (level : Z)
    (courses : list string) : result (list CspVariable) :=
  create_variables_loop self level courses [].

Section Generator.
(** The level parser is an object of its own, handed to the generator. *)
(** [level_parser.load_levels()], then [level_parser.levels.items()]. *)
Variable load_levels : result (list (string * list string)).
(** [level_parser.validate(raise_errors=False)]. *)
Variable validate : list (string * list string) -> result (list string).
(** [int(level.split('_')[1])]. *)
Variable level_number : string -> result Z.
(** The text of a list of error strings inside an f-string. *)
Variable str_errors : list string -> string.




End Generator.

(** ** Reference notions and sample data used by the statements below *)

Definition at_hm (h m : Z) : time :=
  {| hour := h; minute := m; second := 0; microsecond := 0 |}.

Definition monday (h1 h2 : Z) : TimeSlot :=
  {| day := "Monday"; start_time := at_hm h1 0; end_time := at_hm h2 0 |}.

Definition lecture30 : ResourceRequirements :=
  {| req_room_type := "Lecture"; min_capacity := 30;
     requires_lab := false; requires_projector := false |}.

Definition lecture_room (rid : string) (slots : list TimeSlot) : RoomAvailability :=
  {| room_id := rid; room_type := "Lecture"; capacity := 30;
     room_available_times := slots; features := ∅ |}.

Definition instructor (iid : string) (slots : list TimeSlot) : InstructorAvailability :=
  {| instructor_id := iid; max_hours_per_day := 6; preferred_times := [];
     instructor_available_times := slots |}.

(** One slot, two lecture rooms, two instructors. *)
Definition sample_domain : Domain :=
  {| time_slots := [monday 9 10];
     rooms := <["R102" := lecture_room "R102" [monday 9 10]]>
                (<["R101" := lecture_room "R101" [monday 9 10]]> ∅);
     instructors := <["INS2" := instructor "INS2" [monday 9 10]]>
                      (<["INS1" := instructor "INS1" [monday 9 10]]> ∅) |}.

(** A variable of level 1 with the given candidate sets. *)
Definition course (c : string) (times : list TimeSlot) (rms ins : list string)
    : CspVariable :=
  set_domain (new_Variable c 1 lecture30) times rms ins.

(** Three classes of level 1 on Monday: 9-11, 11-13 and 14-17, seven
    hours in all, in different rooms with different instructors. *)
Definition long_monday : list CspVariable :=
  [ assign (course "CSC110" [] [] []) (monday 9 11) "R100" "INS0";
    assign (course "CSC111" [] [] []) (monday 11 13) "R101" "INS1";
    assign (course "CSC112" [] [] []) (monday 14 17) "R102" "INS2" ].

(** CSC111 holds room R101 and instructor INS1 on Monday 9-10; as in
    every variable the code can build, its set of candidate times is
    empty. *)
Definition booked : CspVariable :=
  assign (course "CSC111" [] ["R101"] ["INS1"]) (monday 9 10) "R101" "INS1".

(** CSC113 as [Variable(...)] creates it: no candidate at all. *)
Definition bare : CspVariable := new_Variable "CSC113" 1 lecture30.

(** A clock that does not advance. *)
Definition still_clock (n : nat) : Q := 0%Q.



(** What a computation in [M] leaves alone: the domain the solver holds
    and its constraint manager (which holds a domain of its own). *)
Definition same_domain (st st' : SolveState) : Prop :=
  domain (solver st') = domain (solver st) /\
  constraint_manager (solver st') = constraint_manager (solver st).

Definition keeps_domain {A} (m : M A) : Prop :=
  forall st, same_domain st (snd (m st)).



(** The exception of every attempt to hash a time slot. *)
Definition unhashable : exn := TypeError "unhashable type: 'TimeSlot'".

(** ** Further operations of the cited files *)

(** *** src/src/csp/variable.py *)

Definition domain_size (self : CspVariable) : Z :=
  Z.of_nat (length (_possible_times self)) *
  Z.of_nat (length (_possible_rooms self)) *
  Z.of_nat (length (_possible_instructors self)).

(** [s -= rm] on a set of time slots, and on a set of ids. *)
Definition without_slots (rm l : list TimeSlot) : list TimeSlot :=
  List.filter (fun t => negb (slot_in t rm)) l.

Definition without_ids (rm l : list string) : list string :=
  List.filter (fun r => negb (existsb (String.eqb r) rm)) l.

(** [reduce_domain(time_slots, rooms, instructors)]: an argument that is
    [None] or an empty set is skipped. *)
Definition reduce_domain (self : CspVariable) (time_slots : option (list TimeSlot))
    (rms ins : option (list string)) : CspVariable :=
  set_domain self
    (match time_slots with
     | Some ((_ :: _) as rm) => without_slots rm (_possible_times self)
     | _ => _possible_times self
     end)
    (match rms with
     | Some ((_ :: _) as rm) => without_ids rm (_possible_rooms self)
     | _ => _possible_rooms self
     end)
    (match ins with
     | Some ((_ :: _) as rm) => without_ids rm (_possible_instructors self)
     | _ => _possible_instructors self
     end).

(** [x] is among the values an argument of [reduce_domain] names. *)
Definition named {A} (o : option (list A)) (x : A) : Prop :=
  match o with
  | Some l => In x l
  | None => False
  end.


(** An assigned variable whose room the domain knows under another type. *)
Definition room_mismatch (d : Domain) (v : CspVariable) : bool :=
  is_assigned v &&
  match _assigned_room v with
  | Some rid =>
      match rooms d !! rid with
      | Some room => negb (String.eqb (room_type room) (req_room_type (requirements v)))
      | None => false
      end
  | None => false
  end.

(** Hours that [var] adds to the day [d] of level [l]: the hour and
    minute fields of its assigned slot, when it is assigned. *)
Definition hours_on (l : Z) (d : string) (var : CspVariable) : option float :=
  match scored_time var with
  | Some t =>
      if (level var =? l) && String.eqb (day t) d then Some (slot_hours t) else None
  | None => None
  end.

(** Cumulative class duration of level [l] on day [d]: the float sum,
    from the left, of the hours of the variables in list order. *)
Definition daily_hours (l : Z) (d : string) (vars : list CspVariable) : float :=
  fold_left (fun acc var =>
    match hours_on l d var with
    | Some h => (acc + h)%float
    | None => acc
    end) vars 0%float.

(** *** Notions for the solver's search *)

(** What identifies a variable: its course, level and requirements. *)
Definition identity (v : CspVariable) : string * Z * ResourceRequirements :=
  (course_id v, level v, requirements v).

(** An exception that [list.sort] raised on some list of scored triples,
    that [check_assignment] raised on some list of variables, or that
    [get_available_values] raised for some requirements. *)
Definition from_sort (sort_reverse : list (float * Triple) -> result (list (float * Triple)))
    (e : exn) : Prop :=
  exists l, sort_reverse l = Raise e.

Definition from_check (cm : ConstraintManager) (e : exn) : Prop :=
  exists l, check_assignment cm l = Raise e.

Definition from_values (d : Domain) (e : exn) : Prop :=
  exists rq, get_available_values d rq = Raise e.

Definition from_calls (sort_reverse : list (float * Triple) -> result (list (float * Triple)))
    (cm : ConstraintManager) (d : Domain) (e : exn) : Prop :=
  from_sort sort_reverse e \/ from_check cm e \/ from_values d e.

(** A recorded solution lists the variables [ids] and, for a manager that
    reports nothing on the empty list, passes [check_assignment]. *)
Definition solution_ok (cm : ConstraintManager)
    (ids : list (string * Z * ResourceRequirements)) (sol : list CspVariable) : Prop :=
  identity <$> sol = ids /\
  (check_assignment cm [] = Ok [] -> check_assignment cm sol = Ok []).

(** The state of a search over the variables [ids] with manager [cm] and
    domain [d]. *)
Definition search_state (cm : ConstraintManager) (d : Domain)
    (ids : list (string * Z * ResourceRequirements)) (st : SolveState) : Prop :=
  identity <$> vars st = ids /\
  constraint_manager (solver st) = cm /\
  domain (solver st) = d /\
  Forall (solution_ok cm ids) (solutions st).

(** The first [k] variables pass [check_assignment]. *)
Definition prefix_ok (cm : ConstraintManager) (k : nat) (st : SolveState) : Prop :=
  check_assignment cm [] = Ok [] -> check_assignment cm (take k (vars st)) = Ok [].

(** How a step of the search may end: in a search state, and with no
    exception other than one of the three calls. *)
Definition search_outcome {A}
    (sort_reverse : list (float * Triple) -> result (list (float * Triple)))
    (cm : ConstraintManager) (d : Domain)
    (ids : list (string * Z * ResourceRequirements))
    (out : result A * SolveState) : Prop :=
  search_state cm d ids (snd out) /\
  forall e, fst out = Raise e -> from_calls sort_reverse cm d e.

(** [triple P m Q]: started in a state with [P], [m] ends with a result
    and a state related by [Q]. *)
Definition triple {A} (P : SolveState -> Prop) (m : M A)
    (Q : result A -> SolveState -> Prop) : Prop :=
  forall st, P st -> Q (fst (m st)) (snd (m st)).

(** [drift k st st']: from [st] to [st'] the counters of the statistics
    have not gone down, [backtracks] has grown by at most [k] more than
    [assignments], and the fields [solutions_found] and [best_score] of
    the statistics are what they were. *)
Definition drift (k : Z) (st st' : SolveState) : Prop :=
  let s := stats (solver st) in
  let s' := stats (solver st') in
  solutions_found s' = solutions_found s /\
  stats_best_score s' = stats_best_score s /\
  backtracks s <= backtracks s' /\
  assignments s <= assignments s' /\
  backtracks s' - backtracks s <= assignments s' - assignments s + k.

Definition drifts {A} (k : Z) (m : M A) : Prop :=
  forall st, drift k st (snd (m st)).

(** CSC111 with one candidate triple (the candidates handed to
    [set_domain] as they are). *)
Definition one_triple : CspVariable :=
  course "CSC111" [monday 9 10] ["R101"] ["INS1"].

(** [values.sort(reverse=True)] on a list of at most one entry, where
    nothing is compared; on a longer list, the [TypeError] of ordering
    two entries that tie up to their time slots. *)
Definition sort_short (l : list (float * Triple)) : result (list (float * Triple)) :=
  match l with
  | [] | [_] => Ok l
  | _ :: _ :: _ =>
      Raise (TypeError
        "'<' not supported between instances of 'TimeSlot' and 'TimeSlot'")
  end.

(** The candidates [_restore_domains] gives a variable over a domain with
    no time slot: no time, the ids of the suitable rooms, the ids of all
    instructors. *)
Definition restored (d : Domain) (v : CspVariable) : CspVariable :=
  set_domain v []
    ((List.filter (fun kv => room_suits (requirements v) (snd kv))
        (map_to_list (rooms d))).*1)
    ((map_to_list (instructors d)).*1).

(** ** Notions used for the scheduler and the generator *)

(** No element of [l] has an earlier element it must not follow. *)
Fixpoint ordered {A} (R : A -> A -> Prop) (l : list A) : Prop :=
  match l with
  | [] => True
  | x :: l' => Forall (R x) l' /\ ordered R l'
  end.

(** [a] may stand before [b] in the order of [_sort_by_constraints]:
    longer room type name first, then larger capacity, then more candidate
    times. *)
Definition descending (a b : CspVariable) : Prop :=
  let width v := String.length (req_room_type (requirements v)) in
  let cap v := min_capacity (requirements v) in
  let choices v := length (_possible_times v) in
  (width b < width a)%nat \/
  (width b = width a /\
   (cap b < cap a \/ (cap b = cap a /\ (choices b <= choices a)%nat))).

(** What [schedule_level] returns when every attempt has failed. *)
Definition gave_up (level max_attempts : Z) : SchedulingResult :=
  failed_result ("Failed to schedule level " +:+ pretty level +:+ " after "
                 +:+ pretty max_attempts +:+ " attempts").

(** * Properties *)

(** ** TimeSlot *)

Lemma time_eqb_eq (a b : time) : time_eqb a b = true <-> a = b.
Proof.
  unfold time_eqb. destruct a as [h1 m1 s1 u1], b as [h2 m2 s2 u2]; simpl.
  rewrite !andb_true_iff, !Z.eqb_eq. split.
  - intros [[[-> ->] ->] ->]. reflexivity.
  - intros H. injection H as -> -> -> ->. auto.
Qed.

Lemma TimeSlot_eqb_eq (a b : TimeSlot) : TimeSlot_eqb a b = true <-> a = b.
Proof.
  unfold TimeSlot_eqb. destruct a as [d1 s1 e1], b as [d2 s2 e2]; simpl.
  rewrite !andb_true_iff, String.eqb_eq, !time_eqb_eq. split.
  - intros [[-> ->] ->]. reflexivity.
  - intros H. injection H as -> -> ->. auto.
Qed.

Lemma TimeSlot_eqb_refl (a : TimeSlot) : TimeSlot_eqb a a = true.
Proof. apply TimeSlot_eqb_eq. reflexivity. Qed.

(** On well-formed times the comparison is the one of the instants. *)
Lemma time_ltb_microseconds (a b : time) :
  valid_time a -> valid_time b ->
  (time_ltb a b = true <-> microseconds a < microseconds b).
Proof.
  unfold valid_time, time_ltb, microseconds.
  destruct a as [h1 m1 s1 u1], b as [h2 m2 s2 u2]; simpl.
  intros Ha Hb.
  rewrite !orb_true_iff, !andb_true_iff, !Z.ltb_lt, !Z.eqb_eq.
  split; [intros H | intros H]; lia.
Qed.

(** C9. [overlaps] is a total function that agrees with the reference
    definition (same day, and each slot starts before the other ends); it
    is symmetric, and a slot that starts before it ends overlaps itself. *)
Theorem overlaps_reference (a b : TimeSlot) :
  (overlaps a b = true <->
     day a = day b /\ time_lt (start_time a) (end_time b)
                   /\ time_lt (start_time b) (end_time a))
  /\ overlaps a b = overlaps b a
  /\ (time_lt (start_time a) (end_time a) -> overlaps a a = true).
Proof.
  unfold overlaps, time_lt. split; [| split].
  - rewrite !andb_true_iff, String.eqb_eq. tauto.
  - rewrite (String.eqb_sym (day a) (day b)).
    destruct (String.eqb (day b) (day a)); simpl; [apply andb_comm | reflexivity].
  - intros H. rewrite String.eqb_refl, H. reflexivity.
Qed.

Lemma overlaps_reference_witness :
  time_lt (start_time (monday 9 10)) (end_time (monday 9 10)) /\
  overlaps (monday 9 10) (monday 9 10) = true.
Proof.
  split; [reflexivity |].
  apply (proj2 (proj2 (overlaps_reference (monday 9 10) (monday 9 10)))).
  reflexivity.
Defined.

(** Equality of time slots is equality of the three fields. *)
Lemma TimeSlot_eq_structural (a b : TimeSlot) :
  TimeSlot_eqb a b = true <->
  day a = day b /\ start_time a = start_time b /\ end_time a = end_time b.
Proof.
  rewrite TimeSlot_eqb_eq. destruct a, b; simpl. split.
  - intros H. injection H as -> -> ->. auto.
  - intros (-> & -> & ->). reflexivity.
Qed.

(** C1. The bare [@dataclass] sets [__hash__] to [None]: hashing any
    [TimeSlot] raises [TypeError], and so does adding one to a set,
    whatever hash the interpreter would use for the field tuple. *)
Theorem TimeSlot_unhashable (tuple_hash : string * time * time -> Z)
    (object_hash : TimeSlot -> Z) (t : TimeSlot) (s : list TimeSlot) :
  TimeSlot_hash tuple_hash object_hash t =
    Raise (TypeError "unhashable type: 'TimeSlot'")
  /\ set_add tuple_hash object_hash t s =
    Raise (TypeError "unhashable type: 'TimeSlot'").
Proof. split; reflexivity. Qed.

(** ** Variable *)

(** C10. After [assign(t, r, i)] with an empty room or instructor id the
    three fields are set, yet [is_assigned] is false and [conflicts_with]
    is false in both directions against every variable. *)
Theorem empty_id_counts_as_unassigned (v other : CspVariable) (t : TimeSlot)
    (r i : string) :
  r = "" \/ i = "" ->
  _assigned_time (assign v t r i) = Some t /\
  _assigned_room (assign v t r i) = Some r /\
  _assigned_instructor (assign v t r i) = Some i /\
  is_assigned (assign v t r i) = false /\
  conflicts_with (assign v t r i) other = false /\
  conflicts_with other (assign v t r i) = false.
Proof.
  intros H.
  assert (Hna : is_assigned (assign v t r i) = false).
  { unfold is_assigned; simpl. destruct H as [-> | ->]; simpl.
    - reflexivity.
    - apply andb_false_r. }
  repeat split; try assumption.
  - unfold conflicts_with. rewrite Hna. reflexivity.
  - unfold conflicts_with. rewrite Hna, andb_false_r. reflexivity.
Qed.

Lemma empty_id_counts_as_unassigned_witness :
  is_assigned (assign (course "CSC111" [] [] []) (monday 9 10) "" "INS1") = false /\
  conflicts_with (assign (course "CSC111" [] [] []) (monday 9 10) "" "INS1")
                 (assign (course "CSC112" [] [] []) (monday 9 10) "" "INS1") = false.
Proof.
  pose proof (empty_id_counts_as_unassigned (course "CSC111" [] [] [])
                (assign (course "CSC112" [] [] []) (monday 9 10) "" "INS1")
                (monday 9 10) "" "INS1" (or_introl eq_refl)) as H.
  split; [apply H | apply H].
Defined.

(** ** Domain *)

Lemma update_availability_instructors (d : Domain) (s : TimeSlot)
    (r i : option string) :
  instructors (update_availability d s r i) = instructors d.
Proof.
  unfold update_availability.
  destruct r as [rid |]; [| reflexivity].
  destruct (truthy_str (Some rid)); [| reflexivity].
  destruct (rooms d !! rid) as [room |]; [| reflexivity].
  destruct (list_remove s (room_available_times room)); reflexivity.
Qed.

(** What [update_availability] does to the named room: the first
    occurrence of the slot goes. *)
Lemma update_availability_room (d : Domain) (s : TimeSlot) (rid : string)
    (i : option string) (room : RoomAvailability) (l : list TimeSlot) :
  rid <> "" ->
  rooms d !! rid = Some room ->
  list_remove s (room_available_times room) = Some l ->
  rooms (update_availability d s (Some rid) i) !! rid = Some (set_room_times room l).
Proof.
  intros Hne Hroom Hrem. unfold update_availability, truthy_str.
  destruct (String.eqb rid "") eqn:E.
  - apply String.eqb_eq in E. contradiction.
  - simpl. rewrite Hroom, Hrem. simpl. apply lookup_insert_eq.
Qed.

Lemma slot_in_app (s : TimeSlot) (l1 l2 : list TimeSlot) :
  slot_in s (l1 ++ l2) = slot_in s l1 || slot_in s l2.
Proof. unfold slot_in. apply existsb_app. Qed.

Lemma slot_in_singleton (s : TimeSlot) : slot_in s [s] = true.
Proof. unfold slot_in; simpl. rewrite TimeSlot_eqb_refl. reflexivity. Qed.

(** [restore_availability] on the named room: the slot is appended
    exactly when it is absent. *)
Lemma restore_availability_room (d : Domain) (s : TimeSlot) (rid : string)
    (i : option string) (room : RoomAvailability) :
  rid <> "" ->
  rooms d !! rid = Some room ->
  room_available_times <$> rooms (restore_availability d s (Some rid) i) !! rid =
    Some (if slot_in s (room_available_times room)
          then room_available_times room
          else room_available_times room ++ [s]).
Proof.
  intros Hne Hroom.
  assert (Hkeep : forall d', rooms (restore_instructor d' s i) = rooms d').
  { intros d'. unfold restore_instructor.
    destruct i as [iid |]; [| reflexivity].
    destruct (truthy_str (Some iid)); [| reflexivity].
    destruct (instructors d' !! iid) as [ins |]; [| reflexivity].
    destruct (negb _); reflexivity. }
  unfold restore_availability. rewrite Hkeep.
  unfold restore_room, truthy_str.
  destruct (String.eqb rid "") eqn:E.
  { apply String.eqb_eq in E. contradiction. }
  simpl. rewrite Hroom.
  destruct (slot_in s (room_available_times room)); simpl.
  - rewrite Hroom. reflexivity.
  - rewrite lookup_insert_eq. reflexivity.
Qed.

(** [restore_availability] on the named instructor. *)
Lemma restore_availability_instructor (d : Domain) (s : TimeSlot)
    (r : option string) (iid : string) (ins : InstructorAvailability) :
  iid <> "" ->
  instructors d !! iid = Some ins ->
  instructor_available_times <$>
    instructors (restore_availability d s r (Some iid)) !! iid =
    Some (if slot_in s (instructor_available_times ins)
          then instructor_available_times ins
          else instructor_available_times ins ++ [s]).
Proof.
  intros Hne Hins.
  assert (Hkeep : instructors (restore_room d s r) = instructors d).
  { unfold restore_room.
    destruct r as [rid |]; [| reflexivity].
    destruct (truthy_str (Some rid)); [| reflexivity].
    destruct (rooms d !! rid) as [room |]; [| reflexivity].
    destruct (negb _); reflexivity. }
  unfold restore_availability, restore_instructor, truthy_str.
  destruct (String.eqb iid "") eqn:E.
  { apply String.eqb_eq in E. contradiction. }
  simpl. rewrite Hkeep, Hins.
  destruct (slot_in s (instructor_available_times ins)); simpl.
  - rewrite Hkeep, Hins. reflexivity.
  - rewrite lookup_insert_eq. reflexivity.
Qed.

(** C6. On a domain that holds room R101 and instructor INS1, both free
    on Monday 9-10, [update_availability] takes the slot from the room and
    leaves it with the instructor; [restore_availability] puts it back
    for the room and finds it still present for the instructor. *)
Theorem update_availability_leaves_instructor :
  let d' := update_availability sample_domain (monday 9 10) (Some "R101") (Some "INS1") in
  let d'' := restore_availability d' (monday 9 10) (Some "R101") (Some "INS1") in
  room_available_times <$> rooms d' !! "R101" = Some [] /\
  instructor_available_times <$> instructors d' !! "INS1" = Some [monday 9 10] /\
  room_available_times <$> rooms d'' !! "R101" = Some [monday 9 10] /\
  instructor_available_times <$> instructors d'' !! "INS1" = Some [monday 9 10].
Proof. vm_compute. repeat split. Qed.

(** ** Variable: conflicts, domain size, domain reduction *)

Lemma overlaps_sym (a b : TimeSlot) : overlaps a b = overlaps b a.
Proof.
  unfold overlaps. rewrite (String.eqb_sym (day a) (day b)).
  destruct (String.eqb (day b) (day a)); simpl; [apply andb_comm | reflexivity].
Qed.

Lemma opt_str_eqb_sym (a b : option string) : opt_str_eqb a b = opt_str_eqb b a.
Proof. destruct a, b; simpl; try reflexivity. apply String.eqb_sym. Qed.

(** X1. [conflicts_with] does not depend on which of the two variables
    is asked. *)
Theorem conflicts_with_sym (a b : CspVariable) :
  conflicts_with a b = conflicts_with b a.
Proof.
  unfold conflicts_with. rewrite (andb_comm (is_assigned a) (is_assigned b)).
  destruct (negb (is_assigned b && is_assigned a)); [reflexivity |].
  destruct (_assigned_time a) as [t1 |], (_assigned_time b) as [t2 |]; try reflexivity.
  rewrite (overlaps_sym t1 t2). destruct (overlaps t2 t1); [| reflexivity].
  rewrite (opt_str_eqb_sym (_assigned_room a)),
          (opt_str_eqb_sym (_assigned_instructor a)). reflexivity.
Qed.

Lemma length_flat_map_const {A B} (f : A -> list B) (l : list A) (k : nat) :
  (forall x, length (f x) = k) -> length (flat_map f l) = (length l * k)%nat.
Proof.
  intros Hk. induction l as [| x l IH]; simpl; [reflexivity |].
  rewrite length_app, Hk, IH. reflexivity.
Qed.

(** X2. [domain_size] is the number of triples the solver enumerates for
    the variable, and it is zero exactly when one of the three candidate
    sets is empty. *)
Theorem domain_size_triples (v : CspVariable) :
  Z.of_nat (length (triples v)) = domain_size v /\
  (domain_size v = 0 <->
   _possible_times v = [] \/ _possible_rooms v = [] \/ _possible_instructors v = []).
Proof.
  unfold triples, domain_size. split.
  - rewrite (length_flat_map_const _ _
               (length (_possible_rooms v) * length (_possible_instructors v))).
    + rewrite !Nat2Z.inj_mul. ring.
    + intros t. apply length_flat_map_const. intros r. apply length_map.
  - destruct (_possible_times v), (_possible_rooms v), (_possible_instructors v);
      simpl length; split; intros H; try lia; auto;
      destruct H as [H | [H | H]]; discriminate H.
Qed.

Lemma without_slots_In (rm l : list TimeSlot) (t : TimeSlot) :
  In t (without_slots rm l) <-> In t l /\ ~ In t rm.
Proof.
  unfold without_slots. rewrite filter_In, negb_true_iff.
  unfold slot_in. rewrite <- not_true_iff_false, existsb_exists.
  split; intros [Hl Hn]; split; try exact Hl.
  - intros Hin. apply Hn. exists t. split; [exact Hin | apply TimeSlot_eqb_refl].
  - intros (y & Hy & E). apply TimeSlot_eqb_eq in E. subst y. contradiction.
Qed.

Lemma without_ids_In (rm l : list string) (r : string) :
  In r (without_ids rm l) <-> In r l /\ ~ In r rm.
Proof.
  unfold without_ids. rewrite filter_In, negb_true_iff.
  rewrite <- not_true_iff_false, existsb_exists.
  split; intros [Hl Hn]; split; try exact Hl.
  - intros Hin. apply Hn. exists r. split; [exact Hin | apply String.eqb_refl].
  - intros (y & Hy & E). apply String.eqb_eq in E. subst y. contradiction.
Qed.

Lemma length_filter_le {A} (f : A -> bool) (l : list A) :
  (length (List.filter f l) <= length l)%nat.
Proof.
  induction l as [| x l IH]; simpl; [lia |]. destruct (f x); simpl; lia.
Qed.


(** X3. [reduce_domain] keeps exactly the candidates that the matching
    argument does not name (an argument that is [None] or empty names
    nothing that is removed), leaves the course id, the level, the
    requirements and the assignment alone, and never makes [domain_size]
    larger. *)
Theorem reduce_domain_spec (v : CspVariable) (ts : option (list TimeSlot))
    (rs ins : option (list string)) :
  let v' := reduce_domain v ts rs ins in
  (forall t, In t (_possible_times v') <-> In t (_possible_times v) /\ ~ named ts t) /\
  (forall r, In r (_possible_rooms v') <-> In r (_possible_rooms v) /\ ~ named rs r) /\
  (forall i, In i (_possible_instructors v') <->
             In i (_possible_instructors v) /\ ~ named ins i) /\
  course_id v' = course_id v /\
  level v' = level v /\
  requirements v' = requirements v /\
  _assigned_time v' = _assigned_time v /\
  _assigned_room v' = _assigned_room v /\
  _assigned_instructor v' = _assigned_instructor v /\
  domain_size v' <= domain_size v.
Proof.
  cbv zeta.
  split; [| split; [| split; [| split; [| split; [| split; [| split; [| split;
    [| split]]]]]]]]; try reflexivity.
  - intros t. unfold reduce_domain, named; simpl.
    destruct ts as [[| x rm] |]; simpl; try (intuition; fail).
    rewrite without_slots_In. simpl. tauto.
  - intros r. unfold reduce_domain, named; simpl.
    destruct rs as [[| x rm] |]; simpl; try (intuition; fail).
    rewrite without_ids_In. simpl. tauto.
  - intros i. unfold reduce_domain, named; simpl.
    destruct ins as [[| x rm] |]; simpl; try (intuition; fail).
    rewrite without_ids_In. simpl. tauto.
  - unfold domain_size, reduce_domain; simpl.
    assert (Ht : (length (match ts with
                          | Some ((_ :: _) as rm) => without_slots rm (_possible_times v)
                          | _ => _possible_times v
                          end) <= length (_possible_times v))%nat).
    { destruct ts as [[| x rm] |]; try lia. apply length_filter_le. }
    assert (Hr : (length (match rs with
                          | Some ((_ :: _) as rm) => without_ids rm (_possible_rooms v)
                          | _ => _possible_rooms v
                          end) <= length (_possible_rooms v))%nat).
    { destruct rs as [[| x rm] |]; try lia. apply length_filter_le. }
    assert (Hi : (length (match ins with
                          | Some ((_ :: _) as rm) => without_ids rm (_possible_instructors v)
                          | _ => _possible_instructors v
                          end) <= length (_possible_instructors v))%nat).
    { destruct ins as [[| x rm] |]; try lia. apply length_filter_le. }
    apply Z.mul_le_mono_nonneg; try lia.
    apply Z.mul_le_mono_nonneg; lia.
Qed.

(** ** Domain: available values, booking and unbooking *)

Lemma hash_slot_raises (t : TimeSlot) : hash_slot t = Raise unhashable.
Proof. reflexivity. Qed.

Lemma slot_set_add_raises (t : TimeSlot) (s : list TimeSlot) :
  slot_set_add t s = Raise unhashable.
Proof. reflexivity. Qed.

Lemma set_of_slots_spec (l : list TimeSlot) :
  set_of_slots l = match l with [] => Ok [] | _ :: _ => Raise unhashable end.
Proof. destruct l; reflexivity. Qed.

Lemma NoDup_fst_filter {A B} (f : A * B -> bool) (l : list (A * B)) :
  NoDup (l.*1) -> NoDup ((List.filter f l).*1).
Proof.
  induction l as [| [a b] l IH]; simpl; [constructor |].
  intros H. apply NoDup_cons in H. destruct H as [Hn Hd].
  destruct (f (a, b)); simpl; [| auto].
  constructor; [| auto].
  intros Hin. apply Hn.
  apply list_elem_of_fmap in Hin. destruct Hin as ([a' b'] & -> & Hin).
  apply list_elem_of_fmap. exists (a', b'). split; [reflexivity |].
  apply list_elem_of_In in Hin. apply filter_In in Hin.
  apply list_elem_of_In. tauto.
Qed.

Lemma room_suits_spec (rq : ResourceRequirements) (room : RoomAvailability) :
  room_suits rq room = true <->
  room_type room = req_room_type rq /\
  min_capacity rq <= capacity room /\
  (requires_lab rq = true -> features room !! "lab" = Some true) /\
  (requires_projector rq = true -> features room !! "projector" = Some true).
Proof.
  unfold room_suits, feature.
  rewrite !andb_true_iff, !orb_true_iff, !negb_true_iff, String.eqb_eq, Z.leb_le.
  destruct (requires_lab rq), (requires_projector rq),
           (features room !! "lab") as [[|] |],
           (features room !! "projector") as [[|] |]; simpl;
    intuition congruence.
Qed.

(** X4. [get_available_values] raises [TypeError] as soon as the domain
    holds a time slot: the set of the slots cannot be built. With no time
    slot loaded it returns no time, exactly the ids of the rooms whose
    type is the required one, whose capacity reaches [min_capacity] and
    which have the lab and projector features when these are required, and
    the id of every instructor, each id once. *)
Theorem get_available_values_spec (d : Domain) (rq : ResourceRequirements) :
  (time_slots d <> [] ->
   get_available_values d rq = Raise (TypeError "unhashable type: 'TimeSlot'")) /\
  (time_slots d = [] ->
   exists rms ins,
     get_available_values d rq = Ok ([], rms, ins) /\
     (NoDup rms /\
      forall rid, In rid rms <->
        exists room, rooms d !! rid = Some room /\
          room_type room = req_room_type rq /\
          min_capacity rq <= capacity room /\
          (requires_lab rq = true -> features room !! "lab" = Some true) /\
          (requires_projector rq = true -> features room !! "projector" = Some true)) /\
     (NoDup ins /\ forall iid, In iid ins <-> is_Some (instructors d !! iid))).
Proof.
  unfold get_available_values. rewrite set_of_slots_spec. split.
  - destruct (time_slots d); [congruence | reflexivity].
  - intros ->. cbn [mbind result_bind]. eexists _, _. split; [reflexivity |].
    split; split.
    + apply NoDup_fst_filter, NoDup_fst_map_to_list.
    + intros rid. rewrite <- list_elem_of_In, list_elem_of_fmap. split.
      * intros ([rid' room] & -> & Hin). apply list_elem_of_In, filter_In in Hin.
        destruct Hin as [Hin Hs]. apply list_elem_of_In, elem_of_map_to_list in Hin.
        exists room. split; [exact Hin |]. apply room_suits_spec. exact Hs.
      * intros (room & Hroom & Hs). exists (rid, room). split; [reflexivity |].
        apply list_elem_of_In, filter_In. split.
        -- apply list_elem_of_In, elem_of_map_to_list. exact Hroom.
        -- apply room_suits_spec. exact Hs.
    + apply NoDup_fst_map_to_list.
    + intros iid. rewrite <- list_elem_of_In, list_elem_of_fmap. split.
      * intros ([iid' ia] & -> & Hin). apply elem_of_map_to_list in Hin. eauto.
      * intros [ia Hia]. exists (iid, ia). split; [reflexivity |].
        apply elem_of_map_to_list. exact Hia.
Qed.

Lemma list_remove_None (s : TimeSlot) (l : list TimeSlot) :
  list_remove s l = None <-> ~ In s l.
Proof.
  induction l as [| y l IH]; simpl.
  - split; [intros _ [] | reflexivity].
  - destruct (TimeSlot_eqb y s) eqn:E.
    + apply TimeSlot_eqb_eq in E. subst y.
      split; [discriminate | intros H; exfalso; apply H; left; reflexivity].
    + destruct (list_remove s l) as [l' |] eqn:R.
      * split; [discriminate |]. intros H. exfalso.
        assert (Hn : ~ In s l) by (intros Hin; apply H; right; exact Hin).
        apply IH in Hn. discriminate Hn.
      * split; [| reflexivity]. intros _ [-> | Hin].
        -- rewrite TimeSlot_eqb_refl in E. discriminate E.
        -- apply (proj1 IH eq_refl). exact Hin.
Qed.

(** X5. [update_availability] changes nothing when no room is named,
    when the id is empty or unknown to the domain, or when the room does
    not have the slot (the [ValueError] of [remove] is swallowed). *)
Theorem update_availability_noop (d : Domain) (s : TimeSlot)
    (r i : option string) :
  (r = None \/ r = Some "" \/
   (exists rid, r = Some rid /\ rooms d !! rid = None) \/
   (exists rid room, r = Some rid /\ rooms d !! rid = Some room /\
                     ~ In s (room_available_times room))) ->
  update_availability d s r i = d.
Proof.
  unfold update_availability.
  intros [-> | [-> | [(rid & -> & Hnone) | (rid & room & -> & Hroom & Hn)]]];
    try reflexivity.
  - destruct (truthy_str (Some rid)); [| reflexivity]. rewrite Hnone. reflexivity.
  - destruct (truthy_str (Some rid)); [| reflexivity]. rewrite Hroom.
    apply list_remove_None in Hn. rewrite Hn. reflexivity.
Qed.

Lemma update_availability_noop_witness :
  update_availability sample_domain (monday 9 10) (Some "R999") (Some "INS1")
    = sample_domain /\
  update_availability sample_domain (monday 14 15) (Some "R101") (Some "INS1")
    = sample_domain.
Proof.
  split.
  - apply update_availability_noop. right; right; left.
    exists "R999". split; reflexivity.
  - apply update_availability_noop. right; right; right.
    exists "R101", (lecture_room "R101" [monday 9 10]).
    split; [reflexivity | split; [reflexivity |]].
    simpl. intros [H | []]. discriminate H.
Defined.


Lemma list_remove_middle (s : TimeSlot) (l1 l2 : list TimeSlot) :
  ~ In s l1 -> list_remove s (l1 ++ s :: l2) = Some (l1 ++ l2).
Proof.
  induction l1 as [| y l1 IH]; simpl; intros Hn.
  - rewrite TimeSlot_eqb_refl. reflexivity.
  - destruct (TimeSlot_eqb y s) eqn:E.
    + apply TimeSlot_eqb_eq in E. subst y. exfalso. apply Hn. left. reflexivity.
    + rewrite IH; [reflexivity |]. intros Hin. apply Hn. right. exact Hin.
Qed.

Lemma slot_in_In (s : TimeSlot) (l : list TimeSlot) : slot_in s l = true <-> In s l.
Proof.
  unfold slot_in. rewrite existsb_exists. split.
  - intros (y & Hy & E). apply TimeSlot_eqb_eq in E. subst y. exact Hy.
  - intros H. exists s. split; [exact H | apply TimeSlot_eqb_refl].
Qed.

(** X6. Booking a slot with a known room that lists it and then
    unbooking it: the first occurrence of the slot is taken out of the
    room's list, and the slot is put at the end unless the list still
    holds it; the other slots keep their order. The room's other fields,
    the other rooms and the time slots of the domain are as before. *)
Theorem update_restore_room (d : Domain) (s : TimeSlot) (rid : string)
    (i : option string) (room : RoomAvailability) (before after : list TimeSlot) :
  rid <> "" ->
  rooms d !! rid = Some room ->
  room_available_times room = before ++ s :: after ->
  ~ In s before ->
  let d' := restore_availability (update_availability d s (Some rid) i)
              s (Some rid) i in
  rooms d' !! rid =
    Some (set_room_times room
            (if slot_in s after then before ++ after else before ++ after ++ [s])) /\
  (forall rid', rid' <> rid -> rooms d' !! rid' = rooms d !! rid') /\
  time_slots d' = time_slots d.
Proof.
  intros Hne Hroom Hl Hb.
  assert (R : list_remove s (room_available_times room) = Some (before ++ after)).
  { rewrite Hl. apply list_remove_middle, Hb. }
  assert (Hin : slot_in s (before ++ after) = slot_in s after).
  { destruct (slot_in s after) eqn:Ea.
    - apply slot_in_In. apply slot_in_In in Ea. apply in_or_app. right. exact Ea.
    - apply not_true_iff_false. rewrite slot_in_In, in_app_iff.
      apply not_true_iff_false in Ea. rewrite slot_in_In in Ea. tauto. }
  assert (Hkeep : forall d0, rooms (restore_instructor d0 s i) = rooms d0 /\
                             time_slots (restore_instructor d0 s i) = time_slots d0).
  { intros d0. unfold restore_instructor.
    destruct i as [iid |]; [| split; reflexivity].
    destruct (truthy_str (Some iid)); [| split; reflexivity].
    destruct (instructors d0 !! iid) as [ins |]; [| split; reflexivity].
    destruct (negb _); split; reflexivity. }
  cbv zeta. unfold restore_availability.
  destruct (Hkeep (restore_room (update_availability d s (Some rid) i) s (Some rid)))
    as [-> ->].
  unfold update_availability, restore_room, truthy_str.
  destruct (String.eqb rid "") eqn:E.
  { apply String.eqb_eq in E. contradiction. }
  simpl. rewrite Hroom, R. simpl. rewrite lookup_insert_eq. simpl.
  rewrite Hin. destruct (slot_in s after); simpl; (split; [| split]).
  - rewrite lookup_insert_eq. reflexivity.
  - intros rid' Hneq. rewrite !lookup_insert_ne by congruence. reflexivity.
  - reflexivity.
  - rewrite lookup_insert_eq, <- app_assoc. reflexivity.
  - intros rid' Hneq. rewrite !lookup_insert_ne by congruence. reflexivity.
  - reflexivity.
Qed.

Lemma update_restore_room_witness :
  rooms (restore_availability
           (update_availability
              (set_rooms sample_domain
                 (<["R101" := lecture_room "R101" [monday 8 9; monday 9 10; monday 8 9]]>
                    (rooms sample_domain)))
              (monday 9 10) (Some "R101") (Some "INS1"))
           (monday 9 10) (Some "R101") (Some "INS1")) !! "R101"
  = Some (set_room_times (lecture_room "R101" [monday 8 9; monday 9 10; monday 8 9])
            [monday 8 9; monday 8 9; monday 9 10]) /\
  rooms (restore_availability
           (update_availability
              (set_rooms sample_domain
                 (<["R101" := lecture_room "R101" [monday 9 10; monday 8 9; monday 9 10]]>
                    (rooms sample_domain)))
              (monday 9 10) (Some "R101") (Some "INS1"))
           (monday 9 10) (Some "R101") (Some "INS1")) !! "R101"
  = Some (set_room_times (lecture_room "R101" [monday 9 10; monday 8 9; monday 9 10])
            [monday 8 9; monday 9 10]).
Proof.
  split.
  - apply (proj1 (update_restore_room
                    (set_rooms sample_domain
                       (<["R101" := lecture_room "R101"
                                      [monday 8 9; monday 9 10; monday 8 9]]>
                          (rooms sample_domain)))
                    (monday 9 10) "R101" (Some "INS1")
                    (lecture_room "R101" [monday 8 9; monday 9 10; monday 8 9])
                    [monday 8 9] [monday 8 9]
                    ltac:(discriminate) eq_refl eq_refl
                    ltac:(simpl; intros [H | []]; discriminate H))).
  - apply (proj1 (update_restore_room
                    (set_rooms sample_domain
                       (<["R101" := lecture_room "R101"
                                      [monday 9 10; monday 8 9; monday 9 10]]>
                          (rooms sample_domain)))
                    (monday 9 10) "R101" (Some "INS1")
                    (lecture_room "R101" [monday 9 10; monday 8 9; monday 9 10])
                    [] [monday 8 9; monday 9 10]
                    ltac:(discriminate) eq_refl eq_refl
                    ltac:(simpl; tauto))).
Defined.

Lemma restore_room_instructors (d : Domain) (s : TimeSlot) (r : option string) :
  instructors (restore_room d s r) = instructors d /\
  time_slots (restore_room d s r) = time_slots d.
Proof.
  unfold restore_room.
  destruct r as [rid |]; [| split; reflexivity].
  destruct (truthy_str (Some rid)); [| split; reflexivity].
  destruct (rooms d !! rid) as [room |]; [| split; reflexivity].
  destruct (negb _); split; reflexivity.
Qed.

Lemma restore_instructor_rooms (d : Domain) (s : TimeSlot) (i : option string) :
  rooms (restore_instructor d s i) = rooms d /\
  time_slots (restore_instructor d s i) = time_slots d.
Proof.
  unfold restore_instructor.
  destruct i as [iid |]; [| split; reflexivity].
  destruct (truthy_str (Some iid)); [| split; reflexivity].
  destruct (instructors d !! iid) as [ins |]; [| split; reflexivity].
  destruct (negb _); split; reflexivity.
Qed.

Lemma restore_room_idem (d : Domain) (s : TimeSlot) (r : option string) :
  restore_room (restore_room d s r) s r = restore_room d s r.
Proof.
  destruct r as [rid |]; [| reflexivity].
  unfold restore_room.
  destruct (truthy_str (Some rid)); [| reflexivity].
  destruct (rooms d !! rid) as [room |] eqn:L; [| rewrite L; reflexivity].
  destruct (slot_in s (room_available_times room)) eqn:I; simpl.
  - rewrite L, I. reflexivity.
  - rewrite lookup_insert_eq. simpl.
    rewrite slot_in_app, slot_in_singleton, orb_true_r. reflexivity.
Qed.

Lemma restore_instructor_idem (d : Domain) (s : TimeSlot) (i : option string) :
  restore_instructor (restore_instructor d s i) s i = restore_instructor d s i.
Proof.
  destruct i as [iid |]; [| reflexivity].
  unfold restore_instructor.
  destruct (truthy_str (Some iid)); [| reflexivity].
  destruct (instructors d !! iid) as [ins |] eqn:L; [| rewrite L; reflexivity].
  destruct (slot_in s (instructor_available_times ins)) eqn:I; simpl.
  - rewrite L, I. reflexivity.
  - rewrite lookup_insert_eq. simpl.
    rewrite slot_in_app, slot_in_singleton, orb_true_r. reflexivity.
Qed.

(** The room step only reads and writes the rooms. *)
Lemma restore_room_set_instructors (d : Domain) (s : TimeSlot) (r : option string)
    (m : gmap string InstructorAvailability) :
  restore_room (set_instructors d m) s r = set_instructors (restore_room d s r) m.
Proof.
  unfold restore_room.
  destruct r as [rid |]; [| reflexivity].
  destruct (truthy_str (Some rid)); [| reflexivity]. simpl.
  destruct (rooms d !! rid) as [room |]; [| reflexivity].
  destruct (negb _); reflexivity.
Qed.

Lemma restore_commute (d : Domain) (s : TimeSlot) (r i : option string) :
  restore_room (restore_instructor d s i) s r =
  restore_instructor (restore_room d s r) s i.
Proof.
  unfold restore_instructor.
  destruct i as [iid |]; [| reflexivity].
  destruct (truthy_str (Some iid)); [| reflexivity].
  destruct (restore_room_instructors d s r) as [-> _].
  destruct (instructors d !! iid) as [ins |]; [| reflexivity].
  destruct (negb _); [| reflexivity].
  apply restore_room_set_instructors.
Qed.

(** X7. Unbooking twice is unbooking once. *)
Theorem restore_availability_idem (d : Domain) (s : TimeSlot) (r i : option string) :
  restore_availability (restore_availability d s r i) s r i =
  restore_availability d s r i.
Proof.
  unfold restore_availability.
  rewrite (restore_commute (restore_room d s r) s r i).
  rewrite restore_room_idem. apply restore_instructor_idem.
Qed.
(** ** Constraints: when a check reports nothing *)

Lemma flat_map_nil {A B} (f : A -> list B) (l : list A) :
  flat_map f l = [] <-> Forall (fun x => f x = []) l.
Proof.
  induction l as [| x l IH]; simpl.
  - split; [constructor | reflexivity].
  - rewrite Forall_cons. split.
    + intros H. apply app_eq_nil in H. tauto.
    + intros [-> H]. apply IH, H.
Qed.

(** X8. [NoOverlapConstraint.check] reports nothing exactly when no
    variable of the list conflicts with a later one. *)
Theorem NoOverlap_check_nil (vars : list CspVariable) (d : Domain) :
  NoOverlap_check vars d = [] <->
  ForallOrdPairs (fun a b => conflicts_with a b = false) vars.
Proof.
  induction vars as [| a rest IH]; simpl.
  - split; [constructor | reflexivity].
  - split.
    + intros H. apply app_eq_nil in H. destruct H as [Ha Hrest].
      constructor; [| apply IH, Hrest].
      apply flat_map_nil in Ha. eapply List.Forall_impl; [| exact Ha].
      intros b Hb. simpl in Hb. destruct (conflicts_with a b); [discriminate | reflexivity].
    + intros H. inversion H as [| ? ? Ha Hrest]; subst.
      apply IH in Hrest. rewrite Hrest, app_nil_r. apply flat_map_nil.
      eapply List.Forall_impl; [| exact Ha].
      intros b Hb. simpl in Hb. rewrite Hb. reflexivity.
Qed.

(** X10. [RoomTypeConstraint.check] reports nothing exactly when no
    assigned variable sits in a room that the domain knows under a type
    other than the required one; a room id the domain does not know
    passes. *)
Theorem RoomType_check_nil (vars : list CspVariable) (d : Domain) :
  RoomType_check vars d = [] <-> Forall (fun v => room_mismatch d v = false) vars.
Proof.
  unfold RoomType_check. rewrite flat_map_nil.
  apply Forall_iff. intros v. unfold RoomType_check_one, room_mismatch, is_assigned.
  destruct (truthy_slot (_assigned_time v)), (truthy_str (_assigned_instructor v)),
           (_assigned_room v) as [rid |]; simpl; try (split; reflexivity);
    destruct (String.eqb rid ""); simpl; try (split; reflexivity).
  destruct (rooms d !! rid) as [room |]; [| split; reflexivity].
  destruct (negb _); split; (reflexivity || discriminate).
Qed.

(** ** Constraints: the checks that hash a time slot *)

Lemma is_assigned_time (var : CspVariable) :
  is_assigned var = true -> exists t, _assigned_time var = Some t.
Proof.
  unfold is_assigned. destruct (_assigned_time var) as [t |]; [eauto | discriminate].
Qed.

Lemma scored_time_assigned (var : CspVariable) :
  scored_time var = if is_assigned var then _assigned_time var else None.
Proof. reflexivity. Qed.

Lemma scored_time_None (var : CspVariable) :
  is_assigned var = false -> scored_time var = None.
Proof. unfold scored_time. intros ->. reflexivity. Qed.

Lemma scored_time_Some (var : CspVariable) :
  is_assigned var = true -> exists t, scored_time var = Some t.
Proof.
  intros H. unfold scored_time. rewrite H. apply is_assigned_time, H.
Qed.

Lemma Level_step_spec (acc : list ConstraintViolation * gmap Z (list TimeSlot))
    (var : CspVariable) :
  Level_step acc var = if is_assigned var then Raise unhashable else Ok acc.
Proof.
  unfold Level_step. destruct acc as [violations level_times].
  destruct (is_assigned var) eqn:E.
  - destruct (is_assigned_time var E) as [t ->]. reflexivity.
  - destruct (_assigned_time var); reflexivity.
Qed.

(** A loop that raises [unhashable] at the first assigned variable and
    passes the others by. *)
Lemma fold_result_assigned {A} (f : A -> CspVariable -> result A)
    (vars : list CspVariable) (acc : A) :
  (forall a var, f a var = if is_assigned var then Raise unhashable else Ok a) ->
  fold_result f vars acc =
  if existsb is_assigned vars then Raise unhashable else Ok acc.
Proof.
  intros Hf. induction vars as [| var rest IH]; simpl; [reflexivity |].
  rewrite Hf. destruct (is_assigned var); simpl; [reflexivity | exact IH].
Qed.

Lemma Level_check_unhashable (vars : list CspVariable) (d : Domain) :
  Level_check vars d = if existsb is_assigned vars then Raise unhashable else Ok [].
Proof.
  unfold Level_check. rewrite (fold_result_assigned _ _ _ Level_step_spec).
  destruct (existsb is_assigned vars); reflexivity.
Qed.

(** X9. [LevelConstraint.check] raises [TypeError] as soon as the list
    holds an assigned variable, whose slot it puts into a set; on a list
    with no assigned variable it returns no violation. It never returns a
    violation. *)
Theorem Level_check_spec (vars : list CspVariable) (d : Domain) :
  Level_check vars d =
  if existsb is_assigned vars
  then Raise (TypeError "unhashable type: 'TimeSlot'")
  else Ok [].
Proof. exact (Level_check_unhashable vars d). Qed.

Lemma conflicts_with_unassigned (a b : CspVariable) :
  is_assigned a = false -> conflicts_with a b = false.
Proof. unfold conflicts_with. intros ->. reflexivity. Qed.

Lemma NoOverlap_check_unassigned (vars : list CspVariable) (d : Domain) :
  existsb is_assigned vars = false -> NoOverlap_check vars d = [].
Proof.
  induction vars as [| a rest IH]; simpl; [reflexivity |].
  intros H. apply orb_false_iff in H. destruct H as [Ha Hrest].
  rewrite (IH Hrest), app_nil_r. apply flat_map_nil, List.Forall_forall.
  intros b _. rewrite (conflicts_with_unassigned a b Ha). reflexivity.
Qed.

Lemma RoomType_check_unassigned (vars : list CspVariable) (d : Domain) :
  existsb is_assigned vars = false -> RoomType_check vars d = [].
Proof.
  unfold RoomType_check. intros H. apply flat_map_nil, List.Forall_forall.
  intros v Hin. unfold RoomType_check_one.
  assert (Hv : is_assigned v = false).
  { destruct (is_assigned v) eqn:E; [| reflexivity].
    assert (Hex : existsb is_assigned vars = true)
      by (apply existsb_exists; exists v; auto).
    congruence. }
  rewrite Hv. reflexivity.
Qed.

(** What [check_assignment] of a manager as constructed does. *)
Lemma check_assignment_default (d : Domain) (vars : list CspVariable) :
  check_assignment (new_ConstraintManager d) vars =
  if existsb is_assigned vars then Raise unhashable else Ok [].
Proof.
  unfold check_assignment, new_ConstraintManager.
  cbn [hard_constraints soft_constraints cm_domain check_all check
       NoOverlapConstraint RoomTypeConstraint LevelConstraint mbind result_bind].
  rewrite Level_check_unhashable. destruct (existsb is_assigned vars) eqn:E.
  - reflexivity.
  - rewrite (NoOverlap_check_unassigned vars d E), (RoomType_check_unassigned vars d E).
    reflexivity.
Qed.

(** C5. The manager as constructed registers [NoOverlapConstraint],
    [RoomTypeConstraint] and [LevelConstraint] and nothing else; its
    [check_assignment] raises [TypeError] for every list that holds an
    assigned variable and returns the empty list otherwise. So for the
    three classes of level 1 that fill seven hours of one Monday, for
    which [LevelRequirementConstraint.check] itself reports
    [max_hours_exceeded], [check_assignment] returns no violation list at
    all. *)
Theorem check_assignment_raises_on_assigned :
  (forall d,
     hard_constraints (new_ConstraintManager d) =
       [NoOverlapConstraint; RoomTypeConstraint; LevelConstraint] /\
     soft_constraints (new_ConstraintManager d) = []) /\
  (forall d vars,
     check_assignment (new_ConstraintManager d) vars =
     if existsb is_assigned vars
     then Raise (TypeError "unhashable type: 'TimeSlot'")
     else Ok []) /\
  map constraint_type (LevelRequirement_check long_monday sample_domain) =
    ["max_hours_exceeded"] /\
  check_assignment (new_ConstraintManager sample_domain) long_monday =
    Raise (TypeError "unhashable type: 'TimeSlot'").
Proof.
  split; [intros d; split; reflexivity |].
  split; [exact check_assignment_default |].
  split; [vm_compute; reflexivity |].
  rewrite check_assignment_default. reflexivity.
Qed.

(** ** Constraints: the violation score *)

Lemma NoOverlap_check_severity (vars : list CspVariable) (d : Domain)
    (v : ConstraintViolation) :
  In v (NoOverlap_check vars d) -> severity v = 1%float.
Proof.
  induction vars as [| var1 rest IH]; simpl; [tauto |].
  rewrite in_app_iff, in_flat_map. intros [(var2 & _ & Hin) | Hin]; [| auto].
  destruct (conflicts_with var1 var2); simpl in Hin; [| tauto].
  destruct Hin as [<- | []]. reflexivity.
Qed.

Lemma RoomType_check_severity (vars : list CspVariable) (d : Domain)
    (v : ConstraintViolation) :
  In v (RoomType_check vars d) -> severity v = 1%float.
Proof.
  unfold RoomType_check. rewrite in_flat_map. intros (var & _ & Hin).
  unfold RoomType_check_one in Hin.
  destruct (is_assigned var && truthy_str (_assigned_room var)); [| destruct Hin].
  destruct (_assigned_room var) as [rid |]; [| destruct Hin].
  destruct (rooms d !! rid) as [room |]; [| destruct Hin].
  destruct (negb _); [| destruct Hin].
  destruct Hin as [<- | []]. reflexivity.
Qed.

(** X11. The violation score is infinite as soon as one violation has
    severity 1.0, and otherwise the sum of the severities from the left,
    0 for no violation. Every violation that [NoOverlapConstraint.check]
    and [RoomTypeConstraint.check] report has severity 1.0, so the score
    of what they report is 0 when they report nothing and infinite
    otherwise. *)
Theorem get_violation_score_spec :
  (forall violations v,
     In v violations -> PrimFloat.eqb (severity v) 1 = true ->
     get_violation_score violations = infinity) /\
  (forall violations,
     (forall v, In v violations -> PrimFloat.eqb (severity v) 1 = false) ->
     get_violation_score violations = fold_left PrimFloat.add (map severity violations) 0%float) /\
  get_violation_score [] = 0%float /\
  (forall d vars,
     get_violation_score (NoOverlap_check vars d ++ RoomType_check vars d) =
     if is_nil (NoOverlap_check vars d ++ RoomType_check vars d)
     then 0%float else infinity).
Proof.
  split; [| split; [| split]].
  - intros violations v Hin Hv. unfold get_violation_score.
    assert (E : existsb (fun v => PrimFloat.eqb (severity v) 1) violations = true).
    { apply existsb_exists. exists v. auto. }
    rewrite E. reflexivity.
  - intros violations Hall. unfold get_violation_score.
    assert (E : existsb (fun v => PrimFloat.eqb (severity v) 1) violations = false).
    { apply not_true_iff_false. intros H. apply existsb_exists in H.
      destruct H as (v & Hin & Hv). rewrite (Hall v Hin) in Hv. discriminate. }
    rewrite E. reflexivity.
  - reflexivity.
  - intros d vars.
    destruct (NoOverlap_check vars d ++ RoomType_check vars d) as [| v l] eqn:E;
      [reflexivity |].
    assert (Hv : severity v = 1%float).
    { assert (Hin : In v (NoOverlap_check vars d ++ RoomType_check vars d))
        by (rewrite E; left; reflexivity).
      apply in_app_or in Hin. destruct Hin as [H | H].
      - eapply NoOverlap_check_severity, H.
      - eapply RoomType_check_severity, H. }
    unfold get_violation_score. simpl. rewrite Hv. reflexivity.
Qed.

(** ** Constraint propagation *)

Lemma filter_result_filter {A} (f : A -> result bool) (l r : list A) :
  filter_result f l = Ok r ->
  r = List.filter (fun x => match f x with Ok true => true | _ => false end) l.
Proof.
  revert r. induction l as [| y l IH]; simpl; intros r H.
  - injection H as <-. reflexivity.
  - destruct (f y) as [b | e] eqn:Ey; simpl in H; [| discriminate].
    destruct (filter_result f l) as [r' | e]; simpl in H; [| discriminate].
    injection H as <-. rewrite (IH r' eq_refl). destruct b; reflexivity.
Qed.

Lemma existsb_eqb_In (r : string) (l : list string) :
  existsb (String.eqb r) l = true <-> In r l.
Proof.
  rewrite existsb_exists. split.
  - intros [x [Hx E]]. apply String.eqb_eq in E. subst. exact Hx.
  - intros H. exists r. split; [exact H | apply String.eqb_refl].
Qed.

Lemma update_availability_room_type (d : Domain) (t : TimeSlot)
    (room_id instructor_id : option string) (rid : string) :
  room_type <$> rooms (update_availability d t room_id instructor_id) !! rid =
  room_type <$> rooms d !! rid.
Proof.
  unfold update_availability.
  destruct room_id as [r |]; [| reflexivity].
  destruct (truthy_str (Some r)); [| reflexivity].
  destruct (rooms d !! r) as [room |] eqn:Er; [| reflexivity].
  destruct (list_remove t (room_available_times room)) as [l |]; [| reflexivity].
  simpl. destruct (decide (r = rid)) as [<- | Hne].
  - rewrite lookup_insert_eq, Er. reflexivity.
  - rewrite lookup_insert_ne by exact Hne. reflexivity.
Qed.

Lemma RoomType_propagate_spec (v : CspVariable) (d : Domain) (b : bool)
    (v' : CspVariable) (d' : Domain) :
  RoomType_propagate v d = (Ok b, v', d') ->
  d' = d /\
  v' = set_domain v (_possible_times v) (_possible_rooms v') (_possible_instructors v) /\
  (forall rid,
     In rid (_possible_rooms v') <->
     In rid (_possible_rooms v) /\
     exists ra, rooms d !! rid = Some ra /\
                room_type ra = req_room_type (requirements v)) /\
  (b = true <-> _possible_rooms v' <> []).
Proof.
  unfold RoomType_propagate.
  destruct (filter_result _ (_possible_rooms v)) as [compat | e] eqn:E; [| discriminate].
  intros H. injection H as <- <- <-.
  apply filter_result_filter in E.
  assert (Hc : forall rid,
             In rid compat <->
             In rid (_possible_rooms v) /\
             exists ra, rooms d !! rid = Some ra /\
                        room_type ra = req_room_type (requirements v)).
  { intros rid. rewrite E, filter_In. split; intros [Hin H]; (split; [exact Hin |]).
    - destruct (rooms d !! rid) as [ra |]; [| discriminate].
      exists ra. split; [reflexivity |].
      destruct (String.eqb _ _) eqn:Eq; [| discriminate]. apply String.eqb_eq, Eq.
    - destruct H as (ra & -> & Hty). rewrite Hty, String.eqb_refl. reflexivity. }
  clear E.
  assert (Hr : forall rid,
             In rid (_possible_rooms
                       (reduce_domain_rooms v
                          (List.filter (fun r => negb (existsb (String.eqb r) compat))
                             (_possible_rooms v)))) <->
             In rid compat).
  { intros rid.
    destruct (List.filter _ (_possible_rooms v)) as [| x removed] eqn:Ef;
      cbn [reduce_domain_rooms].
    - split; [| intros H; exact (proj1 (proj1 (Hc rid) H))].
      intros Hin. destruct (existsb (String.eqb rid) compat) eqn:Ex;
        [apply existsb_eqb_In, Ex |].
      assert (Hf : In rid (List.filter (fun r => negb (existsb (String.eqb r) compat))
                             (_possible_rooms v))).
      { apply filter_In. rewrite Ex. auto. }
      rewrite Ef in Hf. destruct Hf.
    - rewrite <- Ef. cbn [set_domain _possible_rooms].
      rewrite filter_In, negb_true_iff, <- not_true_iff_false, existsb_eqb_In,
        filter_In, negb_true_iff, <- not_true_iff_false, existsb_eqb_In.
      split.
      + intros [Hin Hn]. destruct (existsb (String.eqb rid) compat) eqn:Ex;
          [apply existsb_eqb_In, Ex |].
        exfalso. apply Hn. split; [exact Hin |]. intros Hc'.
        apply existsb_eqb_In in Hc'. congruence.
      + intros Hin. split; [exact (proj1 (proj1 (Hc rid) Hin)) |].
        intros [_ Hn]. exact (Hn Hin). }
  split; [reflexivity |]. split.
  { destruct (List.filter _ (_possible_rooms v)) as [| x removed];
      cbn [reduce_domain_rooms]; [destruct v |]; reflexivity. }
  split.
  { intros rid. rewrite Hr. apply Hc. }
  rewrite Z.ltb_lt. split.
  - intros Hlen Hnil. destruct compat as [| c compat']; [simpl in Hlen; lia |].
    assert (Hin : In c (c :: compat')) by (left; reflexivity).
    apply Hr in Hin. rewrite Hnil in Hin. destruct Hin.
  - intros Hne. destruct compat as [| c compat']; [| simpl; lia].
    exfalso. apply Hne.
    match goal with
    | |- ?l = [] => destruct l as [| r rest]; [reflexivity |]
    end.
    destruct (proj1 (Hr r) ltac:(left; reflexivity)).
Qed.

Lemma propagate_constraints_rooms_aux (d0 : Domain) (v : CspVariable) (d : Domain)
    (b : bool) (v' : CspVariable) (d' : Domain) :
  propagate_constraints (new_ConstraintManager d0) v d = (Ok b, v', d') ->
  v' = set_domain v (_possible_times v) (_possible_rooms v') (_possible_instructors v) /\
  (forall rid,
     In rid (_possible_rooms v') <->
     In rid (_possible_rooms v) /\
     exists ra, rooms d !! rid = Some ra /\
                room_type ra = req_room_type (requirements v)) /\
  (b = true <-> _possible_rooms v' <> []) /\
  (d' = d \/
   exists t, _assigned_time v = Some t /\ is_assigned v = true /\
             d' = update_availability d t (_assigned_room v) (_assigned_instructor v)).
Proof.
  unfold propagate_constraints, new_ConstraintManager.
  cbn [hard_constraints propagate_all propagate NoOverlapConstraint RoomTypeConstraint
       LevelConstraint Level_propagate].
  assert (Hno : exists d1,
             NoOverlap_propagate v d = (Ok true, v, d1) /\
             (forall rid, room_type <$> rooms d1 !! rid = room_type <$> rooms d !! rid) /\
             (d1 = d \/
              exists t, _assigned_time v = Some t /\ is_assigned v = true /\
                        d1 = update_availability d t (_assigned_room v)
                               (_assigned_instructor v))).
  { unfold NoOverlap_propagate. destruct (_assigned_time v) as [t |] eqn:Et.
    - destruct (is_assigned v) eqn:Ea; simpl.
      + eexists. split; [reflexivity |].
        split; [intros rid; apply update_availability_room_type |].
        right. exists t. auto.
      + exists d. auto.
    - exists d. auto. }
  destruct Hno as (d1 & -> & Hty & Hd1).
  destruct (RoomType_propagate v d1) as [[r v1] d2] eqn:E.
  assert (Hres : (Ok b, v', d') = (r, v1, d2) ->
                 RoomType_propagate v d1 = (Ok b, v', d')).
  { intros H. rewrite E, H. reflexivity. }
  intros H.
  assert (H' : (Ok b, v', d') = (r, v1, d2)).
  { destruct r as [[|] | e]; [| | discriminate]; symmetry; exact H. }
  apply Hres, RoomType_propagate_spec in H' as (-> & Hv & Hin & Hb).
  split; [exact Hv |]. split; [| split; [exact Hb | exact Hd1]].
  intros rid. rewrite Hin. split; intros [H1 (ra & Hra & Hra')]; (split; [exact H1 |]).
  - specialize (Hty rid). rewrite Hra in Hty. simpl in Hty.
    destruct (rooms d !! rid) as [ra0 |]; [| discriminate].
    injection Hty as Hty. exists ra0. split; [reflexivity | congruence].
  - specialize (Hty rid). rewrite Hra in Hty. simpl in Hty.
    destruct (rooms d1 !! rid) as [ra1 |]; [| discriminate].
    injection Hty as Hty. exists ra1. split; [reflexivity | congruence].
Qed.

(** X30. When [propagate_constraints] of a manager as constructed
    returns, the variable has changed in its candidate rooms only: left are
    exactly the rooms of the domain, among the former candidates, whose type
    is the required one, and the value returned says whether one is left;
    the domain is as before, or, for an assigned variable, as
    [update_availability] leaves it for the assigned slot and room. *)
Theorem propagate_constraints_rooms (d0 : Domain) (v : CspVariable) (d : Domain)
    (b : bool) (v' : CspVariable) (d' : Domain) :
  propagate_constraints (new_ConstraintManager d0) v d = (Ok b, v', d') ->
  v' = set_domain v (_possible_times v) (_possible_rooms v') (_possible_instructors v) /\
  (forall rid,
     In rid (_possible_rooms v') <->
     In rid (_possible_rooms v) /\
     exists ra, rooms d !! rid = Some ra /\
                room_type ra = req_room_type (requirements v)) /\
  (b = true <-> _possible_rooms v' <> []) /\
  (d' = d \/
   exists t, _assigned_time v = Some t /\ is_assigned v = true /\
             d' = update_availability d t (_assigned_room v) (_assigned_instructor v)).
Proof. exact (propagate_constraints_rooms_aux d0 v d b v' d'). Qed.

Lemma propagate_constraints_rooms_witness :
  booked = set_domain booked (_possible_times booked) (_possible_rooms booked)
             (_possible_instructors booked) /\
  (forall rid,
     In rid (_possible_rooms booked) <->
     In rid (_possible_rooms booked) /\
     exists ra, rooms sample_domain !! rid = Some ra /\
                room_type ra = req_room_type (requirements booked)) /\
  (true = true <-> _possible_rooms booked <> []) /\
  (update_availability sample_domain (monday 9 10) (Some "R101") (Some "INS1") =
   sample_domain \/
   exists t, _assigned_time booked = Some t /\ is_assigned booked = true /\
             update_availability sample_domain (monday 9 10) (Some "R101") (Some "INS1") =
             update_availability sample_domain t (_assigned_room booked)
               (_assigned_instructor booked)).
Proof.
  apply (propagate_constraints_rooms sample_domain booked sample_domain true booked
           (update_availability sample_domain (monday 9 10) (Some "R101") (Some "INS1"))).
  vm_compute. reflexivity.
Defined.

(** ** ResourceConflictConstraint and TimeConflictConstraint *)

Lemma is_assigned_room (var : CspVariable) :
  is_assigned var = true -> truthy_str (_assigned_room var) = true.
Proof.
  unfold is_assigned. intros H. apply andb_true_iff in H. destruct H as [H _].
  apply andb_true_iff in H. tauto.
Qed.

Lemma ResourceConflict_step_spec (acc : ResourceUsage) (var : CspVariable) :
  ResourceConflict_step acc var =
  if is_assigned var then Raise unhashable else Ok acc.
Proof.
  unfold ResourceConflict_step. destruct (is_assigned var) eqn:E.
  - destruct (scored_time_Some var E) as [t ->].
    rewrite (is_assigned_room var E). reflexivity.
  - rewrite (scored_time_None var E). reflexivity.
Qed.

Lemma TimeConflict_step_spec
    (acc : list ConstraintViolation * gmap Z (list (TimeSlot * CspVariable)))
    (var : CspVariable) :
  TimeConflict_step acc var =
  if is_assigned var then Raise unhashable else Ok acc.
Proof.
  unfold TimeConflict_step. destruct (is_assigned var) eqn:E.
  - destruct (scored_time_Some var E) as [t ->]. reflexivity.
  - rewrite (scored_time_None var E). reflexivity.
Qed.

(** X13. [ResourceConflictConstraint.check] raises [TypeError] as soon
    as the list holds an assigned variable, whose slot it uses as a dict
    key; on a list with no assigned variable it returns no violation. It
    never returns a violation. *)
Theorem ResourceConflict_check_spec (vars : list CspVariable) (d : Domain) :
  ResourceConflict_check vars d =
  if existsb is_assigned vars
  then Raise (TypeError "unhashable type: 'TimeSlot'")
  else Ok [].
Proof.
  unfold ResourceConflict_check.
  rewrite (fold_result_assigned _ _ _ ResourceConflict_step_spec).
  destruct (existsb is_assigned vars); reflexivity.
Qed.

(** X14. [TimeConflictConstraint.check] raises [TypeError] as soon as
    the list holds an assigned variable, whose slot it uses as a dict key;
    on a list with no assigned variable it returns no violation. It never
    returns a violation. *)
Theorem TimeConflict_check_spec (vars : list CspVariable) (d : Domain) :
  TimeConflict_check vars d =
  if existsb is_assigned vars
  then Raise (TypeError "unhashable type: 'TimeSlot'")
  else Ok [].
Proof.
  unfold TimeConflict_check.
  rewrite (fold_result_assigned _ _ _ TimeConflict_step_spec).
  destruct (existsb is_assigned vars); reflexivity.
Qed.

(** ** LevelRequirementConstraint: what is reported *)

Lemma daily_hours_snoc (l : Z) (d : string) (p : list CspVariable) (x : CspVariable) :
  daily_hours l d (p ++ [x]) =
  match hours_on l d x with
  | Some h => (daily_hours l d p + h)%float
  | None => daily_hours l d p
  end.
Proof. unfold daily_hours. rewrite fold_left_app. reflexivity. Qed.

Lemma LevelRequirement_step_scored
    (acc : list ConstraintViolation * gmap Z (gmap string float)) (x : CspVariable) :
  LevelRequirement_step acc x =
  match scored_time x with
  | Some t =>
      let by_day := default ∅ (snd acc !! level x) in
      let total := (default 0 (by_day !! day t) + slot_hours t)%float in
      (if PrimFloat.ltb (float_of_Z MAX_DAILY_HOURS) total
       then fst acc ++ [max_hours_violation x (day t)]
       else fst acc,
       <[level x := <[day t := total]> by_day]> (snd acc))
  | None => acc
  end.
Proof.
  destruct acc as [violations level_hours]. unfold LevelRequirement_step, scored_time.
  destruct (_assigned_time x) as [t |]; destruct (is_assigned x); reflexivity.
Qed.

(** The running total kept by [LevelRequirementConstraint.check] for a
    level and a day is the cumulative duration of the variables seen. *)
Lemma LevelRequirement_totals (p : list CspVariable) (l : Z) (d : string) :
  default 0%float
    (default ∅ (snd (fold_left LevelRequirement_step p ([], ∅)) !! l) !! d)
  = daily_hours l d p.
Proof.
  induction p as [| x p IH] using rev_ind; [reflexivity |].
  rewrite fold_left_app, daily_hours_snoc. simpl.
  rewrite LevelRequirement_step_scored. unfold hours_on.
  destruct (scored_time x) as [t |]; [| exact IH].
  cbv zeta. cbn [snd].
  destruct (Z.eqb_spec (level x) l) as [El | El]; simpl.
  - subst l. rewrite lookup_insert_eq. simpl.
    destruct (String.eqb_spec (day t) d) as [Ed | Ed].
    + subst d. rewrite lookup_insert_eq. simpl. rewrite IH. reflexivity.
    + rewrite lookup_insert_ne by exact Ed. exact IH.
  - rewrite lookup_insert_ne by exact El. exact IH.
Qed.

(** X12. [LevelRequirementConstraint.check] hashes no time slot and
    never raises. It reports [max_hours_exceeded] for exactly those
    assigned variables with which the float sum of the hours of their
    level on their day, taken over the list up to and including them,
    is greater than [MAX_DAILY_HOURS], and each report names that one
    variable. *)
Theorem LevelRequirement_check_sound (vars : list CspVariable) (d : Domain)
    (viol : ConstraintViolation) :
  In viol (LevelRequirement_check vars d) <->
  exists p x rest t,
    vars = p ++ x :: rest /\
    scored_time x = Some t /\
    viol = max_hours_violation x (day t) /\
    PrimFloat.ltb (float_of_Z MAX_DAILY_HOURS)
      (daily_hours (level x) (day t) (p ++ [x])) = true.
Proof.
  unfold LevelRequirement_check.
  induction vars as [| x p IH] using rev_ind.
  { split; [intros [] |]. intros (p & x & rest & t & H & _).
    destruct p; discriminate H. }
  rewrite fold_left_app. simpl. rewrite LevelRequirement_step_scored.
  assert (Hold : In viol (fst (fold_left LevelRequirement_step p ([], ∅))) <->
                 exists p0 x0 rest t,
                   p ++ [x] = p0 ++ x0 :: rest ++ [x] /\ scored_time x0 = Some t /\
                   viol = max_hours_violation x0 (day t) /\
                   PrimFloat.ltb (float_of_Z MAX_DAILY_HOURS)
                     (daily_hours (level x0) (day t) (p0 ++ [x0])) = true).
  { rewrite IH. split.
    - intros (p0 & x0 & rest & t & -> & Hrest).
      exists p0, x0, rest, t. split; [| exact Hrest].
      rewrite <- app_assoc. reflexivity.
    - intros (p0 & x0 & rest & t & E & Hrest).
      exists p0, x0, rest, t. split; [| exact Hrest].
      change (p0 ++ x0 :: rest ++ [x]) with (p0 ++ (x0 :: rest) ++ [x]) in E.
      rewrite app_assoc in E. apply app_inj_tail in E. tauto. }
  assert (Hlast : forall p0 x0 rest (P : Prop),
            p ++ [x] = p0 ++ x0 :: rest ->
            (rest = [] -> p0 = p -> x0 = x -> P) ->
            (forall rest', rest = rest' ++ [x] -> P) -> P).
  { intros p0 x0 rest P E H1 H2.
    destruct rest as [| r rest _] using rev_ind.
    - apply app_inj_tail in E. destruct E as [-> ->]. apply H1; reflexivity.
    - change (p0 ++ x0 :: rest ++ [r]) with (p0 ++ (x0 :: rest) ++ [r]) in E.
      rewrite app_assoc in E. apply app_inj_tail in E. destruct E as [_ ->].
      apply (H2 rest). reflexivity. }
  pose proof (LevelRequirement_totals p (level x)) as Htot.
  destruct (scored_time x) as [t |] eqn:Ex.
  - cbv zeta. cbn [fst snd]. rewrite Htot.
    assert (Htotal : daily_hours (level x) (day t) (p ++ [x]) =
                     (daily_hours (level x) (day t) p + slot_hours t)%float).
    { rewrite daily_hours_snoc. unfold hours_on.
      rewrite Ex, Z.eqb_refl, String.eqb_refl. reflexivity. }
    destruct (PrimFloat.ltb _ _) eqn:Elt.
    + rewrite in_app_iff, Hold. split.
      * intros [(p0 & x0 & rest & t0 & E & Hrest) | [<- | []]].
        -- exists p0, x0, (rest ++ [x]), t0. auto.
        -- exists p, x, [], t. rewrite Htotal. auto.
      * intros (p0 & x0 & rest & t0 & E & Hs & Hv & Hlt).
        apply (Hlast p0 x0 rest _ E).
        -- intros -> -> ->. right. left. rewrite Ex in Hs. injection Hs as <-.
           symmetry. exact Hv.
        -- intros rest' ->. left. exists p0, x0, rest', t0. auto.
    + rewrite Hold. split.
      * intros (p0 & x0 & rest & t0 & E & Hrest).
        exists p0, x0, (rest ++ [x]), t0. auto.
      * intros (p0 & x0 & rest & t0 & E & Hs & Hv & Hlt).
        apply (Hlast p0 x0 rest _ E).
        -- intros -> -> ->. rewrite Ex in Hs. injection Hs as <-.
           rewrite Htotal, Elt in Hlt. discriminate.
        -- intros rest' ->. exists p0, x0, rest', t0. auto.
  - rewrite Hold. split.
    + intros (p0 & x0 & rest & t0 & E & Hrest).
      exists p0, x0, (rest ++ [x]), t0. auto.
    + intros (p0 & x0 & rest & t0 & E & Hs & Hv & Hlt).
      apply (Hlast p0 x0 rest _ E).
      * intros -> -> ->. rewrite Ex in Hs. discriminate.
      * intros rest' ->. exists p0, x0, rest', t0. auto.
Qed.

(** X15. [TimeConflictConstraint.check] and [LevelConstraint.check]
    behave alike on every list of variables: both raise [TypeError] when
    the list holds an assigned variable, and both return the empty list
    otherwise. *)
Theorem TimeConflict_agrees_with_Level (vars : list CspVariable) (d : Domain) :
  TimeConflict_check vars d = Level_check vars d /\
  (TimeConflict_check vars d = Ok [] <-> existsb is_assigned vars = false) /\
  (Level_check vars d = Ok [] <-> existsb is_assigned vars = false).
Proof.
  rewrite Level_check_unhashable. unfold TimeConflict_check.
  rewrite (fold_result_assigned _ _ _ TimeConflict_step_spec).
  destruct (existsb is_assigned vars); cbn [mbind result_bind fst].
  - split; [reflexivity |]. split; split; discriminate.
  - split; [reflexivity |]. split; split; reflexivity.
Qed.

(** ** Solution optimiser *)

Lemma fold_left_scored_filter {S} (f : S -> TimeSlot -> CspVariable -> S)
    (vars : list CspVariable) (s : S) :
  fold_left (fun acc var =>
    match scored_time var with
    | Some t => f acc t var
    | None => acc
    end) (List.filter is_assigned vars) s =
  fold_left (fun acc var =>
    match scored_time var with
    | Some t => f acc t var
    | None => acc
    end) vars s.
Proof.
  revert s. induction vars as [| v vars IH]; intros s; [reflexivity |].
  cbn [List.filter]. destruct (is_assigned v) eqn:E; cbn [fold_left].
  - apply IH.
  - rewrite (scored_time_None v E). apply IH.
Qed.

Lemma fold_left_unscored {S} (f : S -> TimeSlot -> CspVariable -> S)
    (vars : list CspVariable) (s : S) :
  Forall (fun v => is_assigned v = false) vars ->
  fold_left (fun acc var =>
    match scored_time var with
    | Some t => f acc t var
    | None => acc
    end) vars s = s.
Proof.
  intros H. revert s.
  induction H as [| v vars Hv _ IH]; intros s; cbn [fold_left]; [reflexivity |].
  rewrite (scored_time_None v Hv). apply IH.
Qed.

(** X17. [score_solution] looks at the assigned variables only: the
    metrics of a list are those of the list without its unassigned
    variables. The total score is not bounded by 0.6: for the one class
    on Monday at 9 the float sum [-0.4 * 0 + 0.4 * 1.0 + 0.2 * 1.0] is
    greater than 0.6. *)
Theorem score_solution_assigned_only (self : SolutionOptimizer) (vars : list CspVariable) :
  score_solution self vars = score_solution self (List.filter is_assigned vars) /\
  PrimFloat.ltb (0x1.3333333333333p-1)%float
    (total_score (score_solution self [booked])) = true.
Proof.
  split; [| reflexivity].
  unfold score_solution, _calculate_gaps_score, _calculate_preference_score,
    _calculate_distribution_score.
  rewrite (fold_left_scored_filter (fun d t var => group_append (level var) t d) vars []).
  rewrite (fold_left_scored_filter (fun d t var => count_day (day t) d) vars []).
  pose proof (fold_left_scored_filter
               (fun acc t var =>
                  let h := hour (start_time t) in
                  ((if (9 <=? h) && (h <=? 16) then fst acc + 1 else fst acc),
                   snd acc + 1)) vars (0, 0)) as E.
  cbv beta zeta in E. rewrite E. reflexivity.
Qed.

(** X18. A list holding one assigned variable has no gap and the
    distribution score 1.0; its total score is the float
    0.6000000000000001 when the start hour of its slot is between 9 and
    16, and the float nearest to 0.2 otherwise. *)
Theorem score_solution_single (self : SolutionOptimizer) (v : CspVariable)
    (t : TimeSlot) :
  scored_time v = Some t ->
  let m := score_solution self [v] in
  gaps_score m = 0%float /\
  distribution_score m = 1%float /\
  total_score m =
   if (9 <=? hour (start_time t)) && (hour (start_time t) <=? 16)
   then 0x1.3333333333334p-1%float else 0x1.999999999999ap-3%float.
Proof.
  intros Hv. cbv zeta.
  unfold score_solution, _calculate_gaps_score, _calculate_preference_score,
    _calculate_distribution_score; simpl.
  rewrite Hv. simpl.
  destruct ((9 <=? hour (start_time t)) && (hour (start_time t) <=? 16));
    repeat split; vm_compute; reflexivity.
Qed.

Lemma score_solution_single_witness :
  total_score (score_solution (new_SolutionOptimizer 300) [booked]) =
  0x1.3333333333334p-1%float.
Proof.
  apply (proj2 (proj2 (score_solution_single (new_SolutionOptimizer 300) booked
                         (monday 9 10) eq_refl))).
Defined.

(** X19. When no variable of the list is assigned, the three sub-scores
    and the total score are 0. *)
Theorem score_solution_unassigned (self : SolutionOptimizer) (vars : list CspVariable) :
  Forall (fun v => is_assigned v = false) vars ->
  let m := score_solution self vars in
  gaps_score m = 0%float /\ preference_score m = 0%float /\
  distribution_score m = 0%float /\ total_score m = 0%float.
Proof.
  intros H. cbv zeta.
  assert (Hg : _calculate_gaps_score vars = 0%float).
  { unfold _calculate_gaps_score.
    rewrite (fold_left_unscored (fun d t var => group_append (level var) t d) vars [] H).
    reflexivity. }
  assert (Hp : _calculate_preference_score vars = 0%float).
  { unfold _calculate_preference_score.
    pose proof (fold_left_unscored
               (fun acc t var =>
                  let h := hour (start_time t) in
                  ((if (9 <=? h) && (h <=? 16) then fst acc + 1 else fst acc),
                   snd acc + 1)) vars (0, 0) H) as E.
    cbv beta zeta in E. rewrite E. reflexivity. }
  assert (Hd : _calculate_distribution_score vars = 0%float).
  { unfold _calculate_distribution_score.
    rewrite (fold_left_unscored (fun d t var => count_day (day t) d) vars [] H).
    reflexivity. }
  unfold score_solution; simpl. rewrite Hg, Hp, Hd. repeat split; reflexivity.
Qed.

Lemma score_solution_unassigned_witness :
  total_score (score_solution (new_SolutionOptimizer 300) [bare; bare]) = 0%float.
Proof.
  apply (score_solution_unassigned (new_SolutionOptimizer 300) [bare; bare]).
  repeat constructor.
Defined.

(** ** Solver: forward checking *)










(** ** Solver: the leaf of the search *)

(** What the leaf returns. *)
Lemma backtrack_leaf_returns (max_solutions : Z) (st : SolveState) :
  let score := total_score (score_solution (optimizer (solver st)) (vars st)) in
  let n := Z.of_nat (length (solutions st)) in
  fst (backtrack_leaf max_solutions st) =
  Ok (match best_metrics (solver st) with
      | Some bm =>
          if PrimFloat.ltb (total_score bm) score then
            ((max_solutions <=? n + 1) &&
             PrimFloat.ltb (best_score (optimizer (solver st))) score)
            || (n + 1 <? max_solutions)
          else n <? max_solutions
      | None =>
          ((max_solutions <=? n + 1) &&
           PrimFloat.ltb (best_score (optimizer (solver st))) score)
          || (n + 1 <? max_solutions)
      end).
Proof.
  intros score n. unfold backtrack_leaf. fold score.
  assert (Hn : Z.of_nat (length (solutions st ++ [map clone (vars st)])) = n + 1).
  { rewrite length_app. simpl. subst n. lia. }
  destruct (best_metrics (solver st)) as [bm |].
  - destruct (PrimFloat.ltb (total_score bm) score); [| reflexivity].
    cbn [with_best solutions]. rewrite Hn.
    destruct (_ && _); reflexivity.
  - cbn [with_best solutions]. rewrite Hn.
    destruct (_ && _); reflexivity.
Qed.

(** The leaf records a clone of the variables exactly when the score
    beats the best recorded so far (or none is recorded). *)
Lemma backtrack_leaf_records (max_solutions : Z) (st : SolveState) :
  let score := total_score (score_solution (optimizer (solver st)) (vars st)) in
  solutions (snd (backtrack_leaf max_solutions st)) =
  if match best_metrics (solver st) with
     | Some bm => PrimFloat.ltb (total_score bm) score
     | None => true
     end
  then solutions st ++ [map clone (vars st)]
  else solutions st.
Proof.
  intros score. unfold backtrack_leaf. fold score.
  destruct (match best_metrics (solver st) with
            | Some bm => PrimFloat.ltb (total_score bm) score
            | None => true
            end); [| reflexivity].
  destruct (_ && _); reflexivity.
Qed.

(** The first leaf of a search asked for more than one solution. *)
Lemma backtrack_leaf_first (max_solutions : Z) (st : SolveState) :
  solutions st = [] -> best_metrics (solver st) = None -> 1 < max_solutions ->
  fst (backtrack_leaf max_solutions st) = Ok true /\
  solutions (snd (backtrack_leaf max_solutions st)) = [map clone (vars st)].
Proof.
  intros Hs Hb Hm. split.
  - rewrite backtrack_leaf_returns. cbv zeta. rewrite Hb, Hs.
    change (Z.of_nat (length (@nil (list CspVariable))) + 1) with 1.
    destruct (Z.leb_spec max_solutions 1); [lia |].
    destruct (Z.ltb_spec 1 max_solutions); [reflexivity | lia].
  - rewrite backtrack_leaf_records. cbv zeta. rewrite Hb, Hs. reflexivity.
Qed.

(** C4. Asked for two solutions with no variable to assign, the first
    call of [backtrack] is at the leaf: it records the empty assignment
    and returns true although one solution is fewer than two, through
    [return len(solutions) < max_solutions]. The same holds at the first
    leaf of every search asked for more than one solution. *)
Theorem leaf_true_below_max_solutions :
  let self := new_Solver (new_ConstraintManager sample_domain) sample_domain 300 in
  let st := {| solver := self; vars := []; solutions := []; clock_reads := 2 |} in
  fst (backtrack_leaf 2 st) = Ok true /\
  solutions (snd (backtrack_leaf 2 st)) = [[]] /\
  (forall sort_reverse,
     fst (backtrack still_clock sort_reverse 0 300 2 0
            {| solver := self; vars := []; solutions := []; clock_reads := 1 |}) =
     Ok true /\
     fst (solve still_clock sort_reverse self [] 2 300) = Ok [[]]) /\
  (forall max_solutions st0,
     solutions st0 = [] -> best_metrics (solver st0) = None -> 1 < max_solutions ->
     fst (backtrack_leaf max_solutions st0) = Ok true /\
     solutions (snd (backtrack_leaf max_solutions st0)) = [map clone (vars st0)]).
Proof.
  cbv zeta. split; [reflexivity |]. split; [reflexivity |].
  split; [intros sort_reverse; split; reflexivity |].
  exact backtrack_leaf_first.
Qed.

(** ** Solver: the domain is left alone *)

Lemma same_domain_refl (st : SolveState) : same_domain st st.
Proof. split; reflexivity. Qed.

Lemma same_domain_trans (st1 st2 st3 : SolveState) :
  same_domain st1 st2 -> same_domain st2 st3 -> same_domain st1 st3.
Proof. intros [H1 H2] [H3 H4]. split; congruence. Qed.

Lemma keeps_ret {A} (a : A) : keeps_domain (mret a : M A).
Proof. intros st. apply same_domain_refl. Qed.

Lemma keeps_bind {A B} (m : M A) (k : A -> M B) :
  keeps_domain m -> (forall a, keeps_domain (k a)) -> keeps_domain (m ≫= k).
Proof.
  intros Hm Hk st. unfold mbind, M_bind.
  specialize (Hm st). destruct (m st) as [[a | e] st']; simpl in *.
  - eapply same_domain_trans; [exact Hm | apply Hk].
  - exact Hm.
Qed.

Lemma keeps_raise {A} (e : exn) : keeps_domain (raise e : M A).
Proof. intros st. apply same_domain_refl. Qed.

Lemma keeps_get_state : keeps_domain get_state.
Proof. intros st. apply same_domain_refl. Qed.

Lemma keeps_with_vars (st : SolveState) (l : list CspVariable) :
  same_domain st (with_vars st l).
Proof. split; reflexivity. Qed.

Lemma keeps_with_stats (st : SolveState) (s : SolverStats) :
  same_domain st (with_stats st s).
Proof. split; reflexivity. Qed.

Lemma keeps_count_assignment : keeps_domain count_assignment.
Proof. intros st. apply keeps_with_stats. Qed.

Lemma keeps_count_backtrack : keeps_domain count_backtrack.
Proof. intros st. apply keeps_with_stats. Qed.

Lemma keeps_set_runtime (r : Q) : keeps_domain (set_runtime r).
Proof. intros st. apply keeps_with_stats. Qed.

Lemma keeps_var_at (index : nat) : keeps_domain (var_at index).
Proof.
  intros st. unfold var_at. destruct (vars st !! index); apply same_domain_refl.
Qed.

Lemma keeps_update_var_at (index : nat) (f : CspVariable -> CspVariable) :
  keeps_domain (update_var_at index f).
Proof.
  intros st. unfold update_var_at, mbind, M_bind, var_at, get_state, put_state.
  destruct (vars st !! index); simpl; [apply keeps_with_vars | apply same_domain_refl].
Qed.

Lemma keeps_check_prefix (index : nat) : keeps_domain (check_prefix index).
Proof. intros st. apply same_domain_refl. Qed.

Lemma keeps_forward_check_from (index : nat) : keeps_domain (forward_check_from index).
Proof.
  intros st. unfold forward_check_from.
  destruct (_forward_check _ _). apply keeps_with_vars.
Qed.

Lemma keeps_restore_domains_from (index : nat) :
  keeps_domain (restore_domains_from index).
Proof.
  intros st. unfold restore_domains_from.
  destruct (_restore_domains _ _). apply keeps_with_vars.
Qed.

Lemma keeps_backtrack_leaf (max_solutions : Z) :
  keeps_domain (backtrack_leaf max_solutions).
Proof.
  intros st. unfold backtrack_leaf.
  destruct (match best_metrics (solver st) with Some _ => _ | None => _ end).
  - destruct (_ && _); split; reflexivity.
  - apply same_domain_refl.
Qed.

Create HintDb keeps.
#[local] Hint Resolve keeps_ret keeps_raise keeps_get_state keeps_count_assignment
  keeps_count_backtrack keeps_set_runtime keeps_var_at keeps_update_var_at
  keeps_check_prefix keeps_forward_check_from keeps_restore_domains_from
  keeps_backtrack_leaf : keeps.

(** One step through a sequence of binds. *)
Ltac keeps_step :=
  match goal with
  | |- keeps_domain (_ ≫= _) => apply keeps_bind; [| intros ?]
  | |- keeps_domain (if ?b then _ else _) => destruct b
  | |- keeps_domain _ => solve [auto with keeps]
  end.

Section SolveFrame.
Variable clock : nat -> Q.
Variable sort_reverse : list (float * Triple) -> result (list (float * Triple)).

Lemma keeps_read_clock : keeps_domain (read_clock clock).
Proof. intros st. split; reflexivity. Qed.

Lemma keeps_order_values_at (index : nat) :
  keeps_domain (order_values_at sort_reverse index).
Proof.
  intros st. unfold order_values_at, mbind, M_bind, var_at, get_state, put_state.
  destruct (vars st !! index) as [v |]; cbv beta iota; [| apply same_domain_refl].
  destruct (_order_values sort_reverse (solver st) v) as [[l | e] v'];
    split; reflexivity.
Qed.

Lemma keeps_try_values (deeper : M bool) (index : nat) (values : list Triple) :
  keeps_domain deeper -> keeps_domain (try_values deeper index values).
Proof.
  intros Hdeeper.
  induction values as [| [[t r] i] rest IH]; simpl; [apply keeps_ret |].
  repeat keeps_step; try exact Hdeeper; exact IH.
Qed.

Lemma keeps_backtrack (start_time timeout : Q) (max_solutions : Z) (remaining : nat) :
  keeps_domain (backtrack clock sort_reverse start_time timeout max_solutions remaining).
Proof.
  induction remaining as [| n IH]; simpl.
  - apply keeps_bind; [apply keeps_read_clock | intros now].
    destruct (Qltb _ _); auto with keeps.
  - apply keeps_bind; [apply keeps_read_clock | intros now].
    destruct (Qltb _ _); [apply keeps_ret |].
    apply keeps_bind; [apply keeps_get_state | intros st].
    apply keeps_bind; [apply keeps_order_values_at | intros values].
    apply keeps_try_values, IH.
Qed.

Lemma keeps_solve_body (max_solutions : Z) (timeout : Q) :
  keeps_domain (solve_body clock sort_reverse max_solutions timeout).
Proof.
  unfold solve_body.
  apply keeps_bind; [apply keeps_read_clock | intros start].
  apply keeps_bind; [apply keeps_get_state | intros st].
  apply keeps_bind; [apply keeps_backtrack | intros _].
  apply keeps_bind; [apply keeps_read_clock | intros now].
  repeat keeps_step.
Qed.

(** C7. Whatever the clock reads and however the values get sorted,
    and whether [solve] returns or raises, the solver's domain and
    constraint manager are afterwards what they were before: every room
    and every instructor has the [available_times] it had. *)
Theorem solve_leaves_domain (self : Solver) (variables : list CspVariable)
    (max_solutions : Z) (timeout : Q) :
  let st' := snd (solve clock sort_reverse self variables max_solutions timeout) in
  domain (solver st') = domain self /\
  constraint_manager (solver st') = constraint_manager self /\
  (forall rid : string,
     room_available_times <$> rooms (domain (solver st')) !! rid =
     room_available_times <$> rooms (domain self) !! rid) /\
  (forall iid : string,
     instructor_available_times <$> instructors (domain (solver st')) !! iid =
     instructor_available_times <$> instructors (domain self) !! iid).
Proof.
  intros st'.
  destruct (keeps_solve_body max_solutions timeout
              {| solver := self; vars := variables; solutions := [];
                 clock_reads := 0 |}) as [Hd Hcm].
  fold (solve clock sort_reverse self variables max_solutions timeout) in Hd, Hcm.
  fold st' in Hd, Hcm. simpl in Hd, Hcm.
  repeat split; try assumption; intros; rewrite Hd; reflexivity.
Qed.
End SolveFrame.

(** ** Solver: what a search keeps and what it returns *)

Lemma clone_id (v : CspVariable) : clone v = v.
Proof. destruct v. reflexivity. Qed.

Lemma map_clone (l : list CspVariable) : map clone l = l.
Proof. induction l as [| v l IH]; simpl; [reflexivity |]. rewrite clone_id, IH. reflexivity. Qed.

Lemma ids_insert (l : list CspVariable) (i : nat) (v v' : CspVariable) :
  l !! i = Some v -> identity v' = identity v ->
  identity <$> <[i := v']> l = identity <$> l.
Proof.
  intros Hl Hid. rewrite list_fmap_insert, Hid.
  apply list_insert_id. rewrite list_lookup_fmap, Hl. reflexivity.
Qed.

Lemma ids_probe_triples (cm : ConstraintManager) (ts : list Triple) (v : CspVariable) :
  identity (snd (probe_triples cm v ts)) = identity v.
Proof.
  revert v. induction ts as [| [[t r] i] rest IH]; intros v; cbn [probe_triples];
    [reflexivity |].
  destruct (check_assignment cm [assign v t r i]) as [[| viol l] | e]; cbn [snd];
    [reflexivity | rewrite IH; reflexivity | reflexivity].
Qed.

Lemma ids_forward_probe (cm : ConstraintManager) (v : CspVariable) :
  identity (snd (forward_probe cm v)) = identity v.
Proof.
  unfold forward_probe, get_domain. destruct (negb _); [reflexivity |].
  pose proof (ids_probe_triples cm (triples v) v) as H.
  destruct (probe_triples cm v (triples v)) as [[b | e] v']; exact H.
Qed.

Lemma ids_forward_check (cm : ConstraintManager) (future : list CspVariable) :
  identity <$> snd (_forward_check cm future) = identity <$> future.
Proof.
  induction future as [| v rest IH]; cbn [_forward_check]; [reflexivity |].
  pose proof (ids_forward_probe cm v) as Hv.
  destruct (forward_probe cm v) as [[[|] | e] v']; cbn [snd] in Hv.
  - destruct (_forward_check cm rest) as [b rest']. cbn [snd] in *.
    rewrite !fmap_cons, Hv, IH. reflexivity.
  - cbn [snd]. rewrite !fmap_cons, Hv. reflexivity.
  - cbn [snd]. rewrite !fmap_cons, Hv. reflexivity.
Qed.

Lemma ids_restore_domains (d : Domain) (l : list CspVariable) :
  identity <$> snd (_restore_domains d l) = identity <$> l.
Proof.
  induction l as [| v l IH]; cbn [_restore_domains]; [reflexivity |].
  destruct (get_available_values d (requirements v)) as [[[times rms] ins] | e];
    [| reflexivity].
  destruct (_restore_domains d l) as [r rest']. cbn [snd] in *.
  rewrite !fmap_cons, IH. reflexivity.
Qed.

Lemma raise_probe_triples (cm : ConstraintManager) (ts : list Triple)
    (v : CspVariable) (e : exn) :
  fst (probe_triples cm v ts) = Raise e -> from_check cm e.
Proof.
  revert v. induction ts as [| [[t r] i] rest IH]; intros v; cbn [probe_triples];
    [discriminate |].
  destruct (check_assignment cm [assign v t r i]) as [[| viol l] | e'] eqn:E; cbn [fst].
  - discriminate.
  - apply IH.
  - intros H. injection H as <-. eexists. exact E.
Qed.

Lemma raise_forward_check (cm : ConstraintManager) (future : list CspVariable) (e : exn) :
  fst (_forward_check cm future) = Raise e -> from_check cm e.
Proof.
  induction future as [| v rest IH]; cbn [_forward_check]; [discriminate |].
  assert (Hv : fst (forward_probe cm v) = Raise e -> from_check cm e).
  { unfold forward_probe, get_domain. destruct (negb _); [discriminate |].
    pose proof (raise_probe_triples cm (triples v) v e) as H.
    destruct (probe_triples cm v (triples v)) as [[b | e'] v']; [discriminate | exact H]. }
  destruct (forward_probe cm v) as [[[|] | e'] v']; cbn [fst] in *.
  - destruct (_forward_check cm rest) as [r rest']. exact IH.
  - discriminate.
  - exact Hv.
Qed.

Lemma raise_restore_domains (d : Domain) (l : list CspVariable) (e : exn) :
  fst (_restore_domains d l) = Raise e -> from_values d e.
Proof.
  induction l as [| v l IH]; cbn [_restore_domains]; [discriminate |].
  destruct (get_available_values d (requirements v)) as [[[times rms] ins] | e'] eqn:E.
  - destruct (_restore_domains d l) as [r rest']. exact IH.
  - cbn [fst]. intros H. injection H as <-. eexists. exact E.
Qed.

Lemma ids_splice (l future : list CspVariable) (k : nat) :
  identity <$> future = identity <$> drop k l ->
  identity <$> (take k l ++ future) = identity <$> l.
Proof.
  intros H. rewrite fmap_app, H, <- fmap_app, take_drop. reflexivity.
Qed.

Lemma take_splice (l future : list CspVariable) (k : nat) :
  (k <= length l)%nat -> take k (take k l ++ future) = take k l.
Proof.
  intros H. rewrite take_app_le by (rewrite length_take; lia).
  rewrite take_take. f_equal. lia.
Qed.

Lemma triple_bind {A B} (P : SolveState -> Prop) (m : M A) (k : A -> M B)
    (R : A -> SolveState -> Prop) (Q : result B -> SolveState -> Prop) :
  triple P m (fun r st => match r with Ok a => R a st | Raise e => Q (Raise e) st end) ->
  (forall a, triple (R a) (k a) Q) ->
  triple P (m ≫= k) Q.
Proof.
  intros Hm Hk st HP. specialize (Hm st HP). unfold mbind, M_bind.
  destruct (m st) as [[a | e] st']; simpl in *; [apply Hk, Hm | exact Hm].
Qed.

(** The same when the first step cannot raise. *)
Lemma triple_then {A B} (P : SolveState -> Prop) (m : M A) (k : A -> M B)
    (R : A -> SolveState -> Prop) (Q : result B -> SolveState -> Prop) :
  triple P m (fun r st => exists a, r = Ok a /\ R a st) ->
  (forall a, triple (R a) (k a) Q) ->
  triple P (m ≫= k) Q.
Proof.
  intros Hm Hk. apply (triple_bind P m k R Q); [| exact Hk].
  intros st HP. destruct (Hm st HP) as (a & -> & HR). exact HR.
Qed.

Lemma triple_ret {A} (P : SolveState -> Prop) (a : A)
    (Q : result A -> SolveState -> Prop) :
  (forall st, P st -> Q (Ok a) st) -> triple P (mret a : M A) Q.
Proof. intros H st HP. apply H, HP. Qed.

Section Search.
Variable clock : nat -> Q.
Variable sort_reverse : list (float * Triple) -> result (list (float * Triple)).
Variable cm : ConstraintManager.
Variable d : Domain.
Variable ids : list (string * Z * ResourceRequirements).

Let J := search_state cm d ids.
Let Qout {A} : result A -> SolveState -> Prop :=
  fun r st => search_outcome sort_reverse cm d ids (r, st).

Lemma search_state_length (st : SolveState) :
  J st -> length (vars st) = length ids.
Proof. intros [H _]. rewrite <- H, length_fmap. reflexivity. Qed.

Lemma search_state_vars (st : SolveState) (l : list CspVariable) :
  J st -> identity <$> l = identity <$> vars st -> J (with_vars st l).
Proof.
  intros (Hids & Hcm & Hd & Hsols) Hl.
  split; [cbn [with_vars vars]; congruence | split; [| split]]; assumption.
Qed.

Lemma search_read_clock (k : nat) :
  triple (fun st => J st /\ prefix_ok cm k st) (read_clock clock)
    (fun r st => exists a, r = Ok a /\ J st /\ prefix_ok cm k st).
Proof. intros st H. exists (clock (clock_reads st)). split; [reflexivity | exact H]. Qed.

Lemma search_count_assignment :
  triple J count_assignment (fun r st => exists a, r = Ok a /\ J st).
Proof. intros st H. exists tt. split; [reflexivity | exact H]. Qed.

Lemma search_count_backtrack :
  triple J count_backtrack (fun r st => exists a, r = Ok a /\ J st).
Proof. intros st H. exists tt. split; [reflexivity | exact H]. Qed.

Lemma search_set_runtime (q : Q) :
  triple J (set_runtime q) (fun r st => exists a, r = Ok a /\ J st).
Proof. intros st H. exists tt. split; [reflexivity | exact H]. Qed.

Lemma search_get_state (P : SolveState -> Prop) :
  triple P get_state (fun r st => exists a, r = Ok a /\ a = st /\ P st).
Proof. intros st H. exists st. repeat split. exact H. Qed.

Lemma search_update_var_at (index : nat) (f : CspVariable -> CspVariable) :
  (index < length ids)%nat ->
  (forall v, identity (f v) = identity v) ->
  triple J (update_var_at index f) (fun r st => exists a, r = Ok a /\ J st).
Proof.
  intros Hidx Hf st HJ. pose proof (search_state_length st HJ) as Hlen.
  destruct (lookup_lt_is_Some_2 (vars st) index ltac:(lia)) as [v Hv].
  assert (E : update_var_at index f st =
              (Ok tt, with_vars st (<[index := f v]> (vars st)))).
  { unfold update_var_at, mbind, M_bind, var_at, get_state, put_state.
    rewrite Hv. reflexivity. }
  rewrite E. cbn [fst snd]. exists tt. split; [reflexivity |].
  apply search_state_vars; [exact HJ |]. apply (ids_insert _ _ v); auto.
Qed.

Lemma search_check_prefix (index : nat) :
  triple J (check_prefix index)
    (fun r st =>
       match r with
       | Ok violations =>
           J st /\ violations = [] -> J st /\
             check_assignment cm (take (S index) (vars st)) = Ok []
       | Raise e => True
       end /\
       J st /\
       match r with
       | Ok violations =>
           check_assignment cm (take (S index) (vars st)) = Ok violations
       | Raise e => from_check cm e
       end).
Proof.
  intros st HJ. unfold check_prefix. cbn [fst snd].
  destruct HJ as (Hids & Hcm & Hd & Hsols). rewrite Hcm.
  destruct (check_assignment cm (take (S index) (vars st))) as [violations | e] eqn:E.
  - split; [intros [H ->]; split; [exact H | reflexivity] |].
    split; [| reflexivity]. repeat split; assumption.
  - split; [exact I |]. split; [repeat split; assumption |]. eexists. exact E.
Qed.

Lemma search_forward_check_from (k : nat) :
  (k <= length ids)%nat ->
  triple (fun st => J st /\ check_assignment cm (take k (vars st)) = Ok [])
    (forward_check_from k)
    (fun r st =>
       match r with
       | Ok _ => J st /\ prefix_ok cm k st
       | Raise e => Qout (Raise e : result bool) st
       end).
Proof.
  intros Hk st [HJ Hchk]. pose proof (search_state_length st HJ) as Hlen.
  unfold forward_check_from.
  pose proof (ids_forward_check (constraint_manager (solver st)) (drop k (vars st)))
    as Hfut.
  pose proof (raise_forward_check (constraint_manager (solver st)) (drop k (vars st)))
    as Hraise.
  assert (Hcm : constraint_manager (solver st) = cm) by apply HJ.
  rewrite Hcm in *.
  destruct (_forward_check _ _) as [r future]. cbn [fst snd] in *.
  assert (HJ' : J (with_vars st (take k (vars st) ++ future))).
  { apply search_state_vars; [exact HJ |]. apply ids_splice, Hfut. }
  destruct r as [b | e].
  - split; [exact HJ' |].
    intros _. cbn [with_vars vars]. rewrite take_splice by lia. exact Hchk.
  - split; [exact HJ' |]. cbn [fst]. intros e0 He0. injection He0 as <-.
    right. left. apply Hraise. reflexivity.
Qed.

Lemma search_restore_domains_from (k : nat) :
  triple J (restore_domains_from k)
    (fun r st =>
       match r with
       | Ok _ => J st
       | Raise e => Qout (Raise e : result bool) st
       end).
Proof.
  intros st HJ. unfold restore_domains_from.
  pose proof (ids_restore_domains (domain (solver st)) (drop k (vars st))) as Hfut.
  pose proof (raise_restore_domains (domain (solver st)) (drop k (vars st))) as Hraise.
  assert (Hd : domain (solver st) = d) by apply HJ.
  rewrite Hd in *.
  destruct (_restore_domains _ _) as [r future]. cbn [fst snd] in *.
  assert (HJ' : J (with_vars st (take k (vars st) ++ future))).
  { apply search_state_vars; [exact HJ |]. apply ids_splice, Hfut. }
  destruct r as [u | e]; [exact HJ' |].
  split; [exact HJ' |]. cbn [fst]. intros e0 He0. injection He0 as <-.
  right. right. apply Hraise. reflexivity.
Qed.

Lemma search_order_values_at (index : nat) :
  (index < length ids)%nat ->
  triple J (order_values_at sort_reverse index)
    (fun r st => match r with Ok _ => J st | Raise e => Qout (Raise e : result bool) st end).
Proof.
  intros Hidx st HJ. pose proof (search_state_length st HJ) as Hlen.
  destruct (lookup_lt_is_Some_2 (vars st) index ltac:(lia)) as [v Hv].
  assert (E : order_values_at sort_reverse index st =
              (fst (_order_values sort_reverse (solver st) v),
               with_vars st
                 (<[index := snd (_order_values sort_reverse (solver st) v)]> (vars st)))).
  { unfold order_values_at, mbind, M_bind, var_at, get_state, put_state.
    rewrite Hv. cbv beta iota.
    destruct (_order_values sort_reverse (solver st) v) as [[l | e] v']; reflexivity. }
  rewrite E. clear E.
  assert (Hid : identity (snd (_order_values sort_reverse (solver st) v)) = identity v).
  { unfold _order_values. cbn [snd]. destruct (is_nil _); reflexivity. }
  assert (Hraise : forall e, fst (_order_values sort_reverse (solver st) v) = Raise e ->
                             from_sort sort_reverse e).
  { unfold _order_values. cbn [fst]. intros e He.
    destruct (sort_reverse _) as [sorted | e'] eqn:Es; [discriminate |].
    injection He as <-. eexists. exact Es. }
  assert (HJ' : J (with_vars st
                     (<[index := snd (_order_values sort_reverse (solver st) v)]>
                        (vars st)))).
  { apply search_state_vars; [exact HJ |]. apply (ids_insert _ _ v); auto. }
  destruct (_order_values sort_reverse (solver st) v) as [[l | e] v'];
    cbn [fst snd] in *; [exact HJ' |].
  split; [exact HJ' |].
  cbn [fst]. intros e0 He0. injection He0 as <-. left. apply Hraise. reflexivity.
Qed.

Lemma search_leaf (max_solutions : Z) :
  triple (fun st => J st /\ prefix_ok cm (length ids) st)
    (backtrack_leaf max_solutions) Qout.
Proof.
  intros st [HJ Hp]. pose proof (search_state_length st HJ) as Hlen.
  destruct HJ as (Hids & Hcm & Hd & Hsols).
  assert (Hnew : J (with_best st (score_solution (optimizer (solver st)) (vars st))
                      (map clone (vars st)))).
  { split; [exact Hids | split; [exact Hcm | split; [exact Hd |]]].
    cbn [with_best solutions].
    apply Forall_app. split; [exact Hsols |]. repeat constructor.
    - rewrite map_clone. exact Hids.
    - intros H0. rewrite map_clone. specialize (Hp H0).
      rewrite <- Hlen, firstn_all in Hp. exact Hp. }
  unfold backtrack_leaf, Qout, search_outcome.
  destruct (match best_metrics (solver st) with Some _ => _ | None => _ end).
  - destruct (_ && _); (split; [exact Hnew | discriminate]).
  - split; [repeat split; assumption | discriminate].
Qed.

Lemma search_try_values (deeper : M bool) (index : nat) :
  (S index <= length ids)%nat ->
  triple (fun st => J st /\ prefix_ok cm (S index) st) deeper Qout ->
  forall values, triple J (try_values deeper index values) Qout.
Proof.
  intros Hidx Hdeeper values.
  induction values as [| [[t r] i] rest IH]; cbn [try_values].
  - apply triple_ret. intros st HJ. split; [exact HJ | discriminate].
  - eapply triple_then; [apply search_count_assignment | intros ?].
    eapply triple_then;
      [apply search_update_var_at; [lia | reflexivity] | intros ?].
    eapply (triple_bind _ _ _
              (fun violations st =>
                 J st /\ check_assignment cm (take (S index) (vars st)) = Ok violations)).
    { intros st HJ. destruct (search_check_prefix index st HJ) as (_ & HJ' & Hr).
      destruct (fst (check_prefix index st)) as [violations | e].
      - split; assumption.
      - split; [exact HJ' |]. cbn [fst]. intros e0 He0. injection He0 as <-.
        right. left. exact Hr. }
    intros violations.
    eapply (triple_bind _ _ _ (fun (_ : bool) st => J st)).
    + destruct violations as [| viol violations]; cbn [is_nil].
      * eapply (triple_bind _ _ _
                  (fun (ok : bool) st => J st /\ prefix_ok cm (S index) st)).
        -- intros st H.
           pose proof (search_forward_check_from (S index) Hidx st H) as Hf.
           destruct (fst (forward_check_from (S index) st)); exact Hf.
        -- intros ok. destruct ok.
           ++ intros st H. specialize (Hdeeper st H).
              destruct (deeper st) as [[b | e] st']; [apply Hdeeper | exact Hdeeper].
           ++ apply triple_ret. intros st [HJ _]. exact HJ.
      * apply triple_ret. intros st [HJ _]. exact HJ.
    + intros found. destruct found.
      * apply triple_ret. intros st HJ. split; [exact HJ | discriminate].
      * eapply triple_then; [apply search_count_backtrack | intros ?].
        eapply triple_then;
          [apply search_update_var_at; [lia | reflexivity] | intros ?].
        eapply (triple_bind _ _ _ (fun _ st => J st)).
        { intros st HJ. pose proof (search_restore_domains_from (S index) st HJ) as Hr.
          destruct (fst (restore_domains_from (S index) st)); exact Hr. }
        intros ?. exact IH.
Qed.

Lemma search_backtrack (start_time timeout : Q) (max_solutions : Z) (remaining : nat) :
  (remaining <= length ids)%nat ->
  triple (fun st => J st /\ prefix_ok cm (length ids - remaining) st)
    (backtrack clock sort_reverse start_time timeout max_solutions remaining) Qout.
Proof.
  induction remaining as [| rem IH]; intros Hrem; cbn [backtrack].
  - eapply triple_then; [apply search_read_clock | intros now]. cbv beta.
    destruct (Qltb _ _).
    + apply triple_ret. intros st [HJ _]. split; [exact HJ | discriminate].
    + rewrite Nat.sub_0_r. apply search_leaf.
  - eapply triple_then; [apply search_read_clock | intros now]. cbv beta.
    destruct (Qltb _ _).
    + apply triple_ret. intros st [HJ _]. split; [exact HJ | discriminate].
    + eapply triple_then; [apply search_get_state | intros st0]. cbv beta.
      intros st (-> & HJ & _). pose proof (search_state_length st HJ) as Hlen.
      rewrite Hlen.
      refine (triple_bind J _ _ (fun _ st => J st) Qout _ _ st HJ).
      * intros st1 HJ1.
        pose proof (search_order_values_at (length ids - S rem) ltac:(lia) st1 HJ1) as Ho.
        destruct (fst (order_values_at sort_reverse (length ids - S rem) st1));
          exact Ho.
      * intros values. apply search_try_values; [lia |].
        replace (S (length ids - S rem)) with (length ids - rem)%nat by lia.
        apply IH. lia.
Qed.

Let Qsolve : result (list (list CspVariable)) -> SolveState -> Prop :=
  fun r st => J st /\ (forall e, r = Raise e -> from_calls sort_reverse cm d e) /\
              (forall sols, r = Ok sols -> sols = solutions st).

Lemma search_solve_body (max_solutions : Z) (timeout : Q) :
  triple J (solve_body clock sort_reverse max_solutions timeout) Qsolve.
Proof.
  unfold solve_body.
  eapply (triple_then _ _ _ (fun _ st => J st)).
  { intros st HJ. eexists. split; [reflexivity | exact HJ]. }
  intros start_time.
  eapply triple_then; [apply search_get_state | intros st0]. cbv beta.
  intros st [-> HJ]. pose proof (search_state_length st HJ) as Hlen.
  refine (triple_bind (fun st1 => J st1 /\ prefix_ok cm (length ids - length (vars st)) st1)
            _ _ (fun _ st1 => J st1) Qsolve _ _ st _).
  - intros st1 H1.
    pose proof (search_backtrack start_time timeout max_solutions (length (vars st))
                  ltac:(lia)) as Hb.
    rewrite Hlen in *. specialize (Hb st1 H1).
    destruct (backtrack _ _ _ _ _ _ st1) as [[b | e] st2]; cbn [fst snd] in *.
    + apply Hb.
    + destruct Hb as [Hst He]. split; [exact Hst |].
      split; [| discriminate].
      intros e0 He0. injection He0 as <-. apply (He e eq_refl).
  - intros b.
    eapply (triple_then _ _ _ (fun _ st => J st)).
    { intros st1 HJ1. eexists. split; [reflexivity | exact HJ1]. }
    intros now.
    eapply triple_then; [apply search_set_runtime | intros ?].
    eapply triple_then; [apply search_get_state | intros st1]. cbv beta.
    apply triple_ret. intros st2 [-> HJ2].
    split; [exact HJ2 |]. split; [discriminate |].
    intros sols Hs. injection Hs as <-. reflexivity.
  - split; [exact HJ |]. intros H0. rewrite Hlen, Nat.sub_diag. exact H0.
Qed.
End Search.

(** What [solve] keeps, raises and returns. *)
Lemma search_solve (clock : nat -> Q)
    (sort_reverse : list (float * Triple) -> result (list (float * Triple)))
    (self : Solver) (variables : list CspVariable) (max_solutions : Z) (timeout : Q) :
  let out := solve clock sort_reverse self variables max_solutions timeout in
  identity <$> vars (snd out) = identity <$> variables /\
  (forall e, fst out = Raise e ->
     from_calls sort_reverse (constraint_manager self) (domain self) e) /\
  (forall sols, fst out = Ok sols ->
     Forall (solution_ok (constraint_manager self) (identity <$> variables)) sols).
Proof.
  cbv zeta. unfold solve.
  destruct (search_solve_body clock sort_reverse (constraint_manager self) (domain self)
              (identity <$> variables) max_solutions timeout
              {| solver := self; vars := variables; solutions := []; clock_reads := 0 |})
    as ((Hids & _ & _ & Hsols) & Hraise & Hret).
  { split; [reflexivity | split; [reflexivity | split; [reflexivity | constructor]]]. }
  split; [exact Hids | split; [exact Hraise |]].
  intros sols Hs. rewrite (Hret sols Hs). exact Hsols.
Qed.

(** X20. [solve] leaves the caller's list with the same variables in the
    same order: course ids, levels and requirements are untouched, only
    assignments and candidate sets can differ. *)
Theorem solve_keeps_variables (clock : nat -> Q)
    (sort_reverse : list (float * Triple) -> result (list (float * Triple)))
    (self : Solver) (variables : list CspVariable) (max_solutions : Z) (timeout : Q) :
  let vars' := vars (snd (solve clock sort_reverse self variables max_solutions timeout)) in
  length vars' = length variables /\
  map course_id vars' = map course_id variables /\
  map level vars' = map level variables /\
  map requirements vars' = map requirements variables.
Proof.
  cbv zeta.
  destruct (search_solve clock sort_reverse self variables max_solutions timeout)
    as (Hids & _).
  assert (Hc : forall l, map course_id l = (fun x => fst (fst x)) <$> (identity <$> l)).
  { intros l. induction l as [| v l IH]; [reflexivity |].
    cbn [map]. rewrite !fmap_cons, IH. reflexivity. }
  assert (Hl : forall l, map level l = (fun x => snd (fst x)) <$> (identity <$> l)).
  { intros l. induction l as [| v l IH]; [reflexivity |].
    cbn [map]. rewrite !fmap_cons, IH. reflexivity. }
  assert (Hr : forall l, map requirements l = snd <$> (identity <$> l)).
  { intros l. induction l as [| v l IH]; [reflexivity |].
    cbn [map]. rewrite !fmap_cons, IH. reflexivity. }
  split; [| split; [| split]].
  - rewrite <- (length_fmap identity), Hids, length_fmap. reflexivity.
  - rewrite !Hc, Hids. reflexivity.
  - rewrite !Hl, Hids. reflexivity.
  - rewrite !Hr, Hids. reflexivity.
Qed.

Lemma get_available_values_raises (d : Domain) (rq : ResourceRequirements) (e : exn) :
  get_available_values d rq = Raise e -> e = unhashable /\ time_slots d <> [].
Proof.
  unfold get_available_values. rewrite set_of_slots_spec.
  destruct (time_slots d); [discriminate |].
  cbn [mbind result_bind]. intros H. injection H as <-. split; [reflexivity | discriminate].
Qed.

Lemma check_assignment_default_raises (d : Domain) (l : list CspVariable) (e : exn) :
  check_assignment (new_ConstraintManager d) l = Raise e -> e = unhashable.
Proof.
  rewrite check_assignment_default. destruct (existsb is_assigned l); [| discriminate].
  intros H. injection H as <-. reflexivity.
Qed.

(** X21. Every exception [solve] lets out was raised by
    [values.sort(reverse=True)] in [_order_values], by [check_assignment]
    or by [get_available_values]: in particular no list index is out of
    range. With a constraint manager as [__init__] builds it, the
    exception is one of the sort or the [TypeError] of hashing a time
    slot. *)
Theorem solve_raises_only_from_calls (clock : nat -> Q)
    (sort_reverse : list (float * Triple) -> result (list (float * Triple)))
    (self : Solver) (variables : list CspVariable) (max_solutions : Z) (timeout : Q) :
  let out := solve clock sort_reverse self variables max_solutions timeout in
  (forall e, fst out = Raise e ->
     (exists l, sort_reverse l = Raise e) \/
     (exists l, check_assignment (constraint_manager self) l = Raise e) \/
     (exists rq, get_available_values (domain self) rq = Raise e)) /\
  (forall d0 e,
     constraint_manager self = new_ConstraintManager d0 ->
     fst out = Raise e ->
     (exists l, sort_reverse l = Raise e) \/
     e = TypeError "unhashable type: 'TimeSlot'").
Proof.
  cbv zeta.
  destruct (search_solve clock sort_reverse self variables max_solutions timeout)
    as (_ & Hraise & _).
  split; [exact Hraise |].
  intros d0 e Hcm He. destruct (Hraise e He) as [Hs | [[l Hl] | [rq Hrq]]].
  - left. exact Hs.
  - right. rewrite Hcm in Hl. exact (check_assignment_default_raises d0 l e Hl).
  - right. exact (proj1 (get_available_values_raises _ rq e Hrq)).
Qed.

Lemma solve_raises_only_from_calls_witness :
  fst (solve still_clock sort_short
         (new_Solver (new_ConstraintManager sample_domain) sample_domain 300)
         [one_triple] 1 300) = Raise (TypeError "unhashable type: 'TimeSlot'") /\
  ((exists l, sort_short l = Raise (TypeError "unhashable type: 'TimeSlot'")) \/
   TypeError "unhashable type: 'TimeSlot'" = TypeError "unhashable type: 'TimeSlot'").
Proof.
  split; [reflexivity |].
  apply (proj2 (solve_raises_only_from_calls still_clock sort_short
                  (new_Solver (new_ConstraintManager sample_domain) sample_domain 300)
                  [one_triple] 1 300) sample_domain); reflexivity.
Defined.



(** ** Solver: restoring the candidates *)

Lemma get_available_values_empty (d : Domain) (rq : ResourceRequirements) :
  time_slots d = [] ->
  get_available_values d rq =
  Ok ([], (List.filter (fun kv => room_suits rq (snd kv)) (map_to_list (rooms d))).*1,
      (map_to_list (instructors d)).*1).
Proof. unfold get_available_values. intros ->. reflexivity. Qed.

Lemma get_available_values_loaded (d : Domain) (rq : ResourceRequirements) :
  time_slots d <> [] -> get_available_values d rq = Raise unhashable.
Proof.
  unfold get_available_values. rewrite set_of_slots_spec.
  destruct (time_slots d); [congruence | reflexivity].
Qed.

(** X28. [_restore_domains] on an empty list does nothing. On a
    non-empty list over a domain that holds a time slot it raises
    [TypeError] out of [get_available_values] at the first variable and
    changes no variable. Over a domain with no time slot it gives every
    variable, whatever its candidates were, no candidate time, the
    suitable rooms and all instructors, and leaves its assignment
    alone. *)
Theorem restore_domains_spec (d : Domain) (variables : list CspVariable) :
  _restore_domains d [] = (Ok tt, []) /\
  (time_slots d <> [] -> variables <> [] ->
   _restore_domains d variables =
   (Raise (TypeError "unhashable type: 'TimeSlot'"), variables)) /\
  (time_slots d = [] ->
   _restore_domains d variables = (Ok tt, map (restored d) variables) /\
   Forall2 (fun v v' =>
              _assigned_time v' = _assigned_time v /\
              _assigned_room v' = _assigned_room v /\
              _assigned_instructor v' = _assigned_instructor v /\
              identity v' = identity v /\ _possible_times v' = [])
           variables (map (restored d) variables)).
Proof.
  split; [reflexivity |]. split.
  - intros Hd Hv. destruct variables as [| v rest]; [congruence |].
    cbn [_restore_domains]. rewrite (get_available_values_loaded d _ Hd). reflexivity.
  - intros Hd. split.
    + induction variables as [| v rest IH]; [reflexivity |].
      cbn [_restore_domains]. rewrite (get_available_values_empty d _ Hd), IH.
      reflexivity.
    + induction variables as [| v rest IH]; constructor; [| exact IH].
      repeat split.
Qed.

(** ** Solver: the counters *)

Lemma drift_refl (st : SolveState) : drift 0 st st.
Proof. unfold drift. cbv zeta. split; [reflexivity | split; [reflexivity | lia]]. Qed.

Lemma drift_trans (k1 k2 : Z) (a b c : SolveState) :
  drift k1 a b -> drift k2 b c -> drift (k1 + k2) a c.
Proof.
  unfold drift. cbv zeta.
  intros (H1 & H2 & H3 & H4 & H5) (G1 & G2 & G3 & G4 & G5).
  rewrite G1, G2. split; [exact H1 |]. split; [exact H2 |]. lia.
Qed.

Lemma drift_weaken (k k' : Z) (a b : SolveState) :
  drift k a b -> k <= k' -> drift k' a b.
Proof.
  unfold drift. cbv zeta. intros (H1 & H2 & H3 & H4 & H5) Hk.
  split; [exact H1 | split; [exact H2 | lia]].
Qed.

Lemma drifts_bind {A B} (k1 k2 k : Z) (m : M A) (f : A -> M B) :
  drifts k1 m -> (forall a, drifts k2 (f a)) -> k1 <= k -> k1 + k2 <= k ->
  drifts k (m ≫= f).
Proof.
  intros Hm Hf H1 H2 st. unfold mbind, M_bind.
  specialize (Hm st). destruct (m st) as [[a | e] st']; simpl in *.
  - eapply drift_weaken; [eapply drift_trans; [exact Hm | apply Hf] | exact H2].
  - eapply drift_weaken; [exact Hm | exact H1].
Qed.

Lemma drifts_seq {A B} (m : M A) (f : A -> M B) :
  drifts 0 m -> (forall a, drifts 0 (f a)) -> drifts 0 (m ≫= f).
Proof. intros Hm Hf. apply (drifts_bind 0 0); auto with zarith. Qed.

Lemma drifts_weaken {A} (k k' : Z) (m : M A) : drifts k m -> k <= k' -> drifts k' m.
Proof. intros H Hk st. eapply drift_weaken; [apply H | exact Hk]. Qed.

(** The state changed, its statistics did not. *)
Ltac drift_same :=
  match goal with
  | |- drift 0 ?st _ => exact (drift_refl st)
  end.

Lemma drifts_ret {A} (a : A) : drifts 0 (mret a : M A).
Proof. intros st. drift_same. Qed.

Lemma drifts_raise {A} (e : exn) : drifts 0 (raise e : M A).
Proof. intros st. drift_same. Qed.

Lemma drifts_get_state : drifts 0 get_state.
Proof. intros st. drift_same. Qed.

Lemma drifts_count_assignment : drifts (-1) count_assignment.
Proof.
  intros st. unfold drift. simpl. split; [reflexivity | split; [reflexivity | lia]].
Qed.

Lemma drifts_count_backtrack : drifts 1 count_backtrack.
Proof.
  intros st. unfold drift. simpl. split; [reflexivity | split; [reflexivity | lia]].
Qed.

Lemma drifts_set_runtime (r : Q) : drifts 0 (set_runtime r).
Proof.
  intros st. unfold drift. simpl. split; [reflexivity | split; [reflexivity | lia]].
Qed.

Lemma drifts_update_var_at (index : nat) (f : CspVariable -> CspVariable) :
  drifts 0 (update_var_at index f).
Proof.
  intros st. unfold update_var_at, mbind, M_bind, var_at, get_state, put_state.
  destruct (vars st !! index); simpl; drift_same.
Qed.

Lemma drifts_forward_check_from (index : nat) : drifts 0 (forward_check_from index).
Proof.
  intros st. unfold forward_check_from.
  destruct (_forward_check _ _). drift_same.
Qed.

Lemma drifts_restore_domains_from (index : nat) : drifts 0 (restore_domains_from index).
Proof.
  intros st. unfold restore_domains_from.
  destruct (_restore_domains _ _). drift_same.
Qed.

Lemma drifts_check_prefix (index : nat) : drifts 0 (check_prefix index).
Proof. intros st. drift_same. Qed.

Lemma drifts_backtrack_leaf (max_solutions : Z) : drifts 0 (backtrack_leaf max_solutions).
Proof.
  intros st. unfold backtrack_leaf.
  destruct (match best_metrics (solver st) with Some _ => _ | None => _ end).
  - destruct (_ && _); drift_same.
  - drift_same.
Qed.

Section SolveCounters.
Variable clock : nat -> Q.
Variable sort_reverse : list (float * Triple) -> result (list (float * Triple)).

Lemma drifts_read_clock : drifts 0 (read_clock clock).
Proof. intros st. drift_same. Qed.

Lemma drifts_order_values_at (index : nat) :
  drifts 0 (order_values_at sort_reverse index).
Proof.
  intros st. unfold order_values_at, mbind, M_bind, var_at, get_state, put_state.
  destruct (vars st !! index) as [v |]; cbv beta iota; [| drift_same].
  destruct (_order_values sort_reverse (solver st) v) as [[l | e] v'];
    drift_same.
Qed.

(** Every value tried is counted as an assignment before it is counted
    as a backtrack. *)
Lemma drifts_try_values (deeper : M bool) (index : nat) (values : list Triple) :
  drifts 0 deeper -> drifts 0 (try_values deeper index values).
Proof.
  intros Hdeeper.
  induction values as [| [[t r] i] rest IH]; cbn [try_values]; [apply drifts_ret |].
  apply (drifts_bind (-1) 1); [apply drifts_count_assignment | intros _ | lia | lia].
  apply (drifts_bind 0 1); [apply drifts_update_var_at | intros _ | lia | lia].
  apply (drifts_bind 0 1); [apply drifts_check_prefix | intros violations | lia | lia].
  apply (drifts_bind 0 1); [| intros found | lia | lia].
  - destruct (is_nil _); [| apply drifts_ret].
    apply drifts_seq; [apply drifts_forward_check_from | intros ok].
    destruct ok; [exact Hdeeper | apply drifts_ret].
  - destruct found; [apply (drifts_weaken 0); [apply drifts_ret | lia] |].
    apply (drifts_bind 1 0); [apply drifts_count_backtrack | intros _ | lia | lia].
    apply drifts_seq; [apply drifts_update_var_at | intros _].
    apply drifts_seq; [apply drifts_restore_domains_from | intros _].
    exact IH.
Qed.

Lemma drifts_backtrack (start_time timeout : Q) (max_solutions : Z) (remaining : nat) :
  drifts 0 (backtrack clock sort_reverse start_time timeout max_solutions remaining).
Proof.
  induction remaining as [| n IH]; cbn [backtrack].
  - apply drifts_seq; [apply drifts_read_clock | intros now].
    destruct (Qltb _ _); [apply drifts_ret | apply drifts_backtrack_leaf].
  - apply drifts_seq; [apply drifts_read_clock | intros now].
    destruct (Qltb _ _); [apply drifts_ret |].
    apply drifts_seq; [apply drifts_get_state | intros st].
    cbv zeta.
    apply drifts_seq; [apply drifts_order_values_at | intros values].
    apply drifts_try_values, IH.
Qed.

Lemma drifts_solve_body (max_solutions : Z) (timeout : Q) :
  drifts 0 (solve_body clock sort_reverse max_solutions timeout).
Proof.
  unfold solve_body.
  apply drifts_seq; [apply drifts_read_clock | intros start].
  apply drifts_seq; [apply drifts_get_state | intros st].
  apply drifts_seq; [apply drifts_backtrack | intros _].
  apply drifts_seq; [apply drifts_read_clock | intros now].
  apply drifts_seq; [apply drifts_set_runtime | intros _].
  apply drifts_seq; [apply drifts_get_state | intros st'].
  apply drifts_ret.
Qed.

(** X29. Whether [solve] returns or raises, the statistics of the solver
    afterwards have [solutions_found] and [best_score] as they were
    before the call (the search never writes them, however many solutions
    it records), and [assignments] and [backtracks] have not gone down,
    [backtracks] having grown by no more than [assignments]. *)
Theorem solve_counters (self : Solver) (variables : list CspVariable)
    (max_solutions : Z) (timeout : Q) :
  let s := stats self in
  let s' := stats (solver (snd (solve clock sort_reverse self variables
                                  max_solutions timeout))) in
  solutions_found s' = solutions_found s /\
  stats_best_score s' = stats_best_score s /\
  backtracks s <= backtracks s' /\
  assignments s <= assignments s' /\
  backtracks s' - backtracks s <= assignments s' - assignments s.
Proof.
  cbv zeta.
  destruct (drifts_solve_body max_solutions timeout
              {| solver := self; vars := variables; solutions := [];
                 clock_reads := 0 |}) as (H1 & H2 & H3 & H4 & H5).
  fold (solve clock sort_reverse self variables max_solutions timeout) in H1, H2, H3, H4, H5.
  cbn [solver] in H1, H2, H3, H4, H5.
  split; [exact H1 |]. split; [exact H2 |]. split; [exact H3 |]. split; [exact H4 |]. lia.
Qed.
End SolveCounters.

(** ** Scheduler: order of the variables *)

Lemma insert_sorted_perm {A} (lt : A -> A -> bool) (x : A) (l : list A) :
  insert_sorted lt x l ≡ₚ x :: l.
Proof.
  induction l as [| y l IH]; simpl; [reflexivity |].
  destruct (lt x y); [reflexivity |]. rewrite IH. apply perm_swap.
Qed.

Lemma sorted_by_perm {A} (lt : A -> A -> bool) (l : list A) : sorted_by lt l ≡ₚ l.
Proof.
  unfold sorted_by.
  assert (H : forall acc,
             fold_left (fun acc x => insert_sorted lt x acc) l acc ≡ₚ acc ++ l).
  { induction l as [| x l IH]; intros acc; simpl.
    - rewrite app_nil_r. reflexivity.
    - rewrite IH, insert_sorted_perm. simpl. apply Permutation_middle. }
  apply (H []).
Qed.

Section Sorting.
Context {A : Type} (lt : A -> A -> bool).
Hypothesis lt_asym : forall a b, lt a b = true -> lt b a = false.
Hypothesis lt_trans : forall a b c, lt a b = true -> lt b c = true -> lt a c = true.

Lemma insert_sorted_ordered (x : A) (l : list A) :
  ordered (fun a b => lt b a = false) l ->
  ordered (fun a b => lt b a = false) (insert_sorted lt x l).
Proof.
  induction l as [| y l IH]; simpl.
  - intros _. split; constructor.
  - intros [Hy Hl]. destruct (lt x y) eqn:E; simpl.
    + split; [| split; assumption].
      constructor; [exact (lt_asym _ _ E) |].
      eapply List.Forall_impl; [| exact Hy].
      intros z Hz. cbv beta in *. destruct (lt z x) eqn:E2; [| reflexivity].
      rewrite (lt_trans _ _ _ E2 E) in Hz. discriminate.
    + split; [| apply IH; exact Hl].
      apply (Permutation_Forall (Permutation_sym (insert_sorted_perm lt x l))).
      constructor; [exact E | exact Hy].
Qed.

Lemma sorted_by_ordered (l : list A) :
  ordered (fun a b => lt b a = false) (sorted_by lt l).
Proof.
  unfold sorted_by.
  assert (H : forall acc,
             ordered (fun a b => lt b a = false) acc ->
             ordered (fun a b => lt b a = false)
               (fold_left (fun acc x => insert_sorted lt x acc) l acc)).
  { induction l as [| x l IH]; intros acc Hacc; simpl; [exact Hacc |].
    apply IH, insert_sorted_ordered, Hacc. }
  apply H. exact I.
Qed.
End Sorting.

Lemma ordered_pick {A} (R : A -> A -> Prop) (l1 l2 l3 : list A) (a b : A) :
  ordered R (l1 ++ a :: l2 ++ b :: l3) -> R a b.
Proof.
  induction l1 as [| x l1 IH]; simpl.
  - intros [HF _]. rewrite List.Forall_forall in HF. apply HF.
    apply in_or_app. right. left. reflexivity.
  - intros [_ H]. exact (IH H).
Qed.

Lemma key_ltb_spec (a1 a2 a3 b1 b2 b3 : Z) :
  key_ltb (a1, a2, a3) (b1, b2, b3) = true <->
  a1 < b1 \/ (a1 = b1 /\ (a2 < b2 \/ (a2 = b2 /\ a3 < b3))).
Proof.
  unfold key_ltb.
  rewrite !orb_true_iff, !andb_true_iff, !orb_true_iff, !andb_true_iff,
    !Z.ltb_lt, !Z.eqb_eq. reflexivity.
Qed.

Lemma key_ltb_asym (a b : Z * Z * Z) : key_ltb a b = true -> key_ltb b a = false.
Proof.
  destruct a as [[a1 a2] a3], b as [[b1 b2] b3]. intros H.
  apply key_ltb_spec in H. apply not_true_iff_false. rewrite key_ltb_spec. lia.
Qed.

Lemma key_ltb_trans (a b c : Z * Z * Z) :
  key_ltb a b = true -> key_ltb b c = true -> key_ltb a c = true.
Proof.
  destruct a as [[a1 a2] a3], b as [[b1 b2] b3], c as [[c1 c2] c3].
  rewrite !key_ltb_spec. lia.
Qed.

(** X23. [_sort_by_constraints] returns the variables it was given, each
    as often as it was given, and in the result a variable never stands
    after one with a shorter room type name, nor, when those are as long,
    after one with a smaller [min_capacity], nor, when those agree too,
    after one with fewer candidate times. *)
Theorem sort_by_constraints_descending (variables : list CspVariable) :
  _sort_by_constraints variables ≡ₚ variables /\
  (forall l1 a l2 b l3,
     _sort_by_constraints variables = l1 ++ a :: l2 ++ b :: l3 -> descending a b).
Proof.
  split; [apply sorted_by_perm |].
  intros l1 a l2 b l3 E.
  pose proof (sorted_by_ordered (fun a b => key_ltb (sort_key a) (sort_key b))
                (fun a b => key_ltb_asym (sort_key a) (sort_key b))
                (fun a b c => key_ltb_trans (sort_key a) (sort_key b) (sort_key c))
                variables) as H.
  fold (_sort_by_constraints variables) in H. rewrite E in H.
  apply ordered_pick in H. cbv beta in H.
  apply not_true_iff_false in H. unfold sort_key in H. rewrite key_ltb_spec in H.
  unfold descending. cbv zeta. lia.
Qed.

(** ** Scheduler: what an attempt can do *)

Lemma filter_all {A} (l : list A) : List.filter (fun _ => true) l = l.
Proof. induction l as [| x l IH]; simpl; [reflexivity | rewrite IH; reflexivity]. Qed.

Lemma free_room_spec (self : LevelScheduler) (t : TimeSlot)
    (available_rooms available_instructors : list string) :
  free_room self t available_rooms available_instructors =
  if is_nil available_rooms then Ok None else Raise unhashable.
Proof. destruct available_rooms; reflexivity. Qed.

Lemma first_free_spec (self : LevelScheduler) (available_times : list TimeSlot)
    (available_rooms available_instructors : list string) :
  first_free self available_times available_rooms available_instructors =
  if is_nil available_times || is_nil available_rooms then Ok None
  else Raise unhashable.
Proof.
  induction available_times as [| t rest IH]; cbn [first_free]; [reflexivity |].
  rewrite free_room_spec. destruct available_rooms as [| r rs]; [| reflexivity].
  cbn [is_nil mbind result_bind]. rewrite IH, orb_true_r. reflexivity.
Qed.

(** [_schedule_variable] never returns true: with no candidate time or no
    suitable room it returns false and changes nothing, otherwise the
    first availability test raises. *)
Lemma _schedule_variable_spec (self : LevelScheduler) (variable : CspVariable) :
  _schedule_variable self variable =
  available_rooms ← _filter_available_rooms self (_possible_rooms variable)
                      (requirements variable);
  available_instructors ← _filter_available_instructors self
                            (_possible_instructors variable);
  if is_nil (_possible_times variable) || is_nil available_rooms
  then Ok (false, variable, self)
  else Raise unhashable.
Proof.
  unfold _schedule_variable, get_domain, _get_level_conflicts.
  cbn [slot_in existsb negb]. rewrite filter_all.
  destruct (_filter_available_rooms self _ _) as [ars | e];
    cbn [mbind result_bind]; [| reflexivity].
  destruct (_filter_available_instructors self _) as [ais | e];
    cbn [mbind result_bind]; [| reflexivity].
  rewrite first_free_spec. cbn [mbind result_bind].
  destruct (is_nil _ || is_nil _); reflexivity.
Qed.

Lemma _schedule_variable_cases (self : LevelScheduler) (variable : CspVariable) :
  _schedule_variable self variable = Ok (false, variable, self) \/
  exists e, _schedule_variable self variable = Raise e.
Proof.
  rewrite _schedule_variable_spec.
  destruct (_filter_available_rooms self _ _) as [ars | e];
    cbn [mbind result_bind]; [| eauto].
  destruct (_filter_available_instructors self _) as [ais | e];
    cbn [mbind result_bind]; [| eauto].
  destruct (is_nil _ || is_nil _); eauto.
Qed.

(** The exception of an attempt at [variable], if any; it depends on the
    domain, the requirements and the candidates only. *)
Lemma _schedule_variable_unassign (self self' : LevelScheduler) (variable : CspVariable) :
  ls_domain self' = ls_domain self ->
  _schedule_variable self' (unassign variable) =
  match _schedule_variable self variable with
  | Ok _ => Ok (false, unassign variable, self')
  | Raise e => Raise e
  end.
Proof.
  intros Hd. rewrite !_schedule_variable_spec.
  unfold _filter_available_rooms, _filter_available_instructors. rewrite Hd.
  cbn [unassign _possible_rooms _possible_instructors _possible_times requirements].
  destruct (filter_result _ (_possible_rooms variable)) as [ars | e];
    cbn [mbind result_bind]; [| reflexivity].
  destruct (filter_result _ (_possible_instructors variable)) as [ais | e];
    cbn [mbind result_bind]; [| reflexivity].
  destruct (is_nil _ || is_nil _); reflexivity.
Qed.

Lemma schedule_all_cons (self : LevelScheduler) (var : CspVariable)
    (rest : list CspVariable) :
  schedule_all self (var :: rest) =
  match _schedule_variable self var with
  | Ok _ => (Ok (false, var :: rest), self)
  | Raise e => (Raise e, self)
  end.
Proof.
  cbn [schedule_all].
  destruct (_schedule_variable_cases self var) as [-> | [e ->]]; reflexivity.
Qed.

(** The attempts at a non-empty list all end as the first one does. *)
Lemma attempts_cons (level max_attempts : Z) (n : nat) :
  forall (self : LevelScheduler) (var : CspVariable) (rest : list CspVariable),
  fst (attempts level max_attempts n self (var :: rest)) =
  match n with
  | O => Ok (gave_up level max_attempts)
  | S _ =>
      match _schedule_variable (_reset_resources self) var with
      | Ok _ => Ok (gave_up level max_attempts)
      | Raise e => Raise e
      end
  end.
Proof.
  induction n as [| n IH]; intros self var rest; cbn [attempts]; [reflexivity |].
  rewrite schedule_all_cons.
  destruct (_schedule_variable (_reset_resources self) var) as [x | e] eqn:E;
    [| reflexivity].
  cbn [map]. rewrite IH. destruct n as [| n]; [reflexivity |].
  rewrite (_schedule_variable_unassign (_reset_resources self)
             (_reset_resources (_reset_resources self)) var eq_refl), E.
  reflexivity.
Qed.

Lemma attempts_nil (level max_attempts : Z) (n : nat) (self : LevelScheduler) :
  fst (attempts level max_attempts n self []) =
  match n with
  | O => Ok (gave_up level max_attempts)
  | S _ => Ok {| sr_success := true; sr_variables := Some [];
                 sr_metrics := None; sr_error := None |}
  end.
Proof. destruct n; reflexivity. Qed.

Lemma _sort_by_constraints_nil (variables : list CspVariable) :
  _sort_by_constraints variables = [] <-> variables = [].
Proof.
  split; [| intros ->; reflexivity].
  intros H. pose proof (sorted_by_perm (fun a b => key_ltb (sort_key a) (sort_key b))
                          variables) as Hp.
  fold (_sort_by_constraints variables) in Hp. rewrite H in Hp.
  apply Permutation_nil_r. symmetry. exact Hp.
Qed.

(** What [schedule_level] returns. *)
Lemma schedule_level_result (self : LevelScheduler) (level : Z)
    (variables : list CspVariable) (max_attempts : Z) :
  fst (schedule_level self level variables max_attempts) =
  match _sort_by_constraints variables, Z.to_nat max_attempts with
  | _, O => gave_up level max_attempts
  | [], S _ => {| sr_success := true; sr_variables := Some [];
                  sr_metrics := None; sr_error := None |}
  | var :: _, S _ =>
      match _schedule_variable (_reset_resources self) var with
      | Ok _ => gave_up level max_attempts
      | Raise e => failed_result ("Scheduling error: " +:+ exn_str e)
      end
  end.
Proof.
  unfold schedule_level.
  destruct (_sort_by_constraints variables) as [| var rest].
  - pose proof (attempts_nil level max_attempts (Z.to_nat max_attempts) self) as H.
    destruct (attempts _ _ _ _ _) as [r s]. cbn [fst] in H. subst r.
    destruct (Z.to_nat max_attempts); reflexivity.
  - pose proof (attempts_cons level max_attempts (Z.to_nat max_attempts) self var rest)
      as H.
    destruct (attempts _ _ _ _ _) as [r s]. cbn [fst] in H. subst r.
    destruct (Z.to_nat max_attempts); [reflexivity |].
    destruct (_schedule_variable _ var); reflexivity.
Qed.

Lemma schedule_level_success_nil (self : LevelScheduler) (level : Z)
    (variables : list CspVariable) (max_attempts : Z) :
  sr_success (fst (schedule_level self level variables max_attempts)) = true ->
  variables = [] /\ 1 <= max_attempts /\
  fst (schedule_level self level variables max_attempts) =
  {| sr_success := true; sr_variables := Some []; sr_metrics := None; sr_error := None |}.
Proof.
  rewrite schedule_level_result.
  destruct (_sort_by_constraints variables) as [| var rest] eqn:Es,
           (Z.to_nat max_attempts) as [| n] eqn:En; try discriminate.
  - intros _. split; [apply _sort_by_constraints_nil, Es |]. split; [lia | reflexivity].
  - destruct (_schedule_variable _ var); discriminate.
Qed.



(** X24. [schedule_level] reports success exactly when it is given no
    variable and at least one attempt; the result is then the empty list
    of variables, with no error. Given a variable, it reports failure
    with no variables and an error text. *)
Theorem schedule_level_success_iff (self : LevelScheduler) (level : Z)
    (variables : list CspVariable) (max_attempts : Z) :
  let r := fst (schedule_level self level variables max_attempts) in
  (sr_success r = true <-> variables = [] /\ 1 <= max_attempts) /\
  (sr_success r = true ->
   r = {| sr_success := true; sr_variables := Some [];
          sr_metrics := None; sr_error := None |}) /\
  (sr_success r = false ->
   sr_variables r = None /\ exists msg, sr_error r = Some msg).
Proof.
  cbv zeta. split; [split |]; [| | split].
  - intros H. destruct (schedule_level_success_nil self level variables max_attempts H)
      as (Hv & Hm & _). split; assumption.
  - intros [-> Hm]. rewrite schedule_level_result. cbn.
    destruct (Z.to_nat max_attempts) eqn:E; [lia | reflexivity].
  - intros H. apply (schedule_level_success_nil self level variables max_attempts H).
  - rewrite schedule_level_result.
    destruct (_sort_by_constraints variables) as [| var rest],
             (Z.to_nat max_attempts) as [| n]; try discriminate;
      try (intros _; split; [reflexivity | eexists; reflexivity]).
    destruct (_schedule_variable _ var);
      intros _; split; try reflexivity; eexists; reflexivity.
Qed.

(** X25. Asking [schedule_level] for more than one attempt changes
    neither whether it succeeds nor the variables it returns, and the
    error text only in the number of attempts it names: every attempt
    starts from the same variables and the same empty bookings, so it ends
    as the first one did. *)
Theorem schedule_level_retries (self : LevelScheduler) (level : Z)
    (variables : list CspVariable) (max_attempts : Z) :
  1 <= max_attempts ->
  let r := fst (schedule_level self level variables max_attempts) in
  let r1 := fst (schedule_level self level variables 1) in
  sr_success r = sr_success r1 /\
  sr_variables r = sr_variables r1 /\
  (sr_error r = sr_error r1 \/
   (sr_error r1 = Some ("Failed to schedule level " +:+ pretty level +:+
                        " after 1 attempts") /\
    sr_error r = Some ("Failed to schedule level " +:+ pretty level +:+ " after "
                       +:+ pretty max_attempts +:+ " attempts"))).
Proof.
  intros Hm. cbv zeta. rewrite !schedule_level_result.
  change (Z.to_nat 1) with 1%nat.
  destruct (Z.to_nat max_attempts) as [| n] eqn:En; [lia |].
  destruct (_sort_by_constraints variables) as [| var rest].
  - split; [reflexivity | split; [reflexivity | left; reflexivity]].
  - destruct (_schedule_variable _ var).
    + split; [reflexivity | split; [reflexivity | right; split; reflexivity]].
    + split; [reflexivity | split; [reflexivity | left; reflexivity]].
Qed.

Lemma schedule_level_retries_witness :
  let r := fst (schedule_level (new_LevelScheduler sample_domain) 1 [bare; booked] 3) in
  let r1 := fst (schedule_level (new_LevelScheduler sample_domain) 1 [bare; booked] 1) in
  sr_success r = sr_success r1 /\
  sr_variables r = sr_variables r1 /\
  (sr_error r = sr_error r1 \/
   (sr_error r1 = Some ("Failed to schedule level " +:+ pretty 1 +:+
                        " after 1 attempts") /\
    sr_error r = Some ("Failed to schedule level " +:+ pretty 1 +:+ " after "
                       +:+ pretty 3 +:+ " attempts"))).
Proof.
  apply (schedule_level_retries (new_LevelScheduler sample_domain) 1 [bare; booked] 3).
  lia.
Defined.

(** ** Generator *)

Lemma _create_variables_cases (self : TimetableGenerator) (level : Z)
    (courses : list string) :
  _create_variables self level courses =
  match courses with
  | [] => Ok []
  | _ :: _ => Raise (NameError "name 'sqlite3' is not defined")
  end.
Proof. destruct courses; reflexivity. Qed.

Section GeneratorProperties.
Variable load_levels : result (list (string * list string)).
Variable validate : list (string * list string) -> result (list string).
Variable level_number : string -> result Z.
Variable str_errors : list string -> string.




End GeneratorProperties.


(** X26. [_create_variables] returns the empty list when the level lists
    no course; otherwise it raises [NameError] at the first course, where
    [_get_course_requirements] uses the name [sqlite3] that the module
    never imports. It never returns a variable. *)
Theorem create_variables_spec (self : TimetableGenerator) (level : Z)
    (courses : list string) :
  (forall course, _get_course_requirements self course =
                  Raise (NameError "name 'sqlite3' is not defined")) /\
  _create_variables self level courses =
  match courses with
  | [] => Ok []
  | _ :: _ => Raise (NameError "name 'sqlite3' is not defined")
  end.
Proof. split; [reflexivity | apply _create_variables_cases]. Qed.


